(** * youtube_downloader: the download planner, verified

    A shallow embedding of [src/youtube_downloader.py]: the two functions
    that carry decision logic, [extract_index_from_url] and
    [download_video], together with the parts of the Python runtime they
    call ([urllib.parse.urlparse], [urllib.parse.parse_qs], [int], list
    indexing).  The retrieval engine ([yt_dlp.YoutubeDL]) and the GUI toolkit
    are collaborators: the engine is an interface with two methods, the GUI
    and the console are recorded as a trace of events.  How the engine reads
    the ["format"] option is modelled after its [build_format_selector], up
    to its ranking of the formats, which is an interface as well.

    Conventions.
    - A Python [str] is a list of Unicode code points ([list N]).
    - A Python [int] is a [Z].
    - A call that may raise returns a [result]; every exception the modelled
      code can meet is a constructor of [exception].
    - The runtime functions follow CPython 3.11 (Unicode 14.0).
    - Printing a line and showing a dialog always succeed and return; entering
      and leaving the [with] statement leave no event.

    Layout: the Python values, the runtime functions, the collaborators, the
    program, the engine's format selection, the vocabulary of the
    statements, sample inputs; then the facts about the runtime, the program
    path by path, the claims, and the claims at sample inputs. *)

From Stdlib Require Import ZArith NArith List Ascii String.
From Stdlib Require Import DecimalString DecimalPos Lia.
From stdpp Require Import gmap list strings.

Local Open Scope Z_scope.

(** ** Python values *)

Module Py.

Abbreviation str := (list N).

(** The code points of an ASCII literal. *)
Definition py (lit : string) : str :=
  map N_of_ascii (list_ascii_of_string lit).

Inductive exception (E : Type) : Type :=
  | ValueError
  | IndexError
  | KeyError
  | CollaboratorError (e : E).
Arguments ValueError {E}.
Arguments IndexError {E}.
Arguments KeyError {E}.
Arguments CollaboratorError {E} e.

Inductive result (E A : Type) : Type :=
  | Ok (a : A)
  | Raise (e : exception E).
Arguments Ok {E A} a.
Arguments Raise {E A} e.

Definition bind {E A B} (r : result E A) (k : A → result E B) : result E B :=
  match r with
  | Ok a => k a
  | Raise e => Raise e
  end.

Definition fmap_result {E A B} (f : A → B) (r : result E A) : result E B :=
  bind r (λ a, Ok (f a)).

(** [c in s] for a one-character [c]. *)
Definition contains (c : N) (s : str) : bool := existsb (N.eqb c) s.

(** [s.partition(c)]: the text before and after the first [c], when any. *)
Fixpoint partition (c : N) (s : str) : option (str * str) :=
  match s with
  | [] => None
  | x :: s' =>
      if (x =? c)%N then Some ([], s')
      else match partition c s' with
           | Some (a, b) => Some (x :: a, b)
           | None => None
           end
  end.

(** [s.rpartition(c)]: the text before and after the last [c], when any. *)
Fixpoint rpartition (c : N) (s : str) : option (str * str) :=
  match s with
  | [] => None
  | x :: s' =>
      match rpartition c s' with
      | Some (a, b) => Some (x :: a, b)
      | None => if (x =? c)%N then Some ([], s') else None
      end
  end.

(** [s.split(c)]: never empty, [''.split(c) == ['']]. *)
Fixpoint split (c : N) (s : str) : list str :=
  match s with
  | [] => [[]]
  | x :: s' =>
      if (x =? c)%N then [] :: split c s'
      else match split c s' with
           | h :: t => (x :: h) :: t
           | [] => [[x]]
           end
  end.

(** [s.replace(c, d)] for one-character [c] and [d]. *)
Definition replace (c d : N) (s : str) : str :=
  map (λ x, if (x =? c)%N then d else x) s.

(** [s.replace(c, '')]. *)
Definition remove (c : N) (s : str) : str :=
  filter (λ x, x ≠ c) s.

Definition startswith (c : N) (s : str) : bool :=
  match s with
  | x :: _ => (x =? c)%N
  | [] => false
  end.

Fixpoint drop_while (p : N → bool) (s : str) : str :=
  match s with
  | x :: s' => if p x then drop_while p s' else s
  | [] => []
  end.

Fixpoint take_while (p : N → bool) (s : str) : str :=
  match s with
  | x :: s' => if p x then x :: take_while p s' else []
  | [] => []
  end.

Definition isascii (c : N) : bool := (c <? 128)%N.

Definition in_range (lo hi c : N) : bool := (lo <=? c)%N && (c <=? hi)%N.

Definition is_ascii_digit (c : N) : bool := in_range 48 57 c.
Definition is_ascii_upper (c : N) : bool := in_range 65 90 c.
Definition is_ascii_lower (c : N) : bool := in_range 97 122 c.
Definition is_ascii_alpha (c : N) : bool := is_ascii_upper c || is_ascii_lower c.
Definition is_hexdig (c : N) : bool :=
  is_ascii_digit c || in_range 65 70 c || in_range 97 102 c.

(** [seq[i]] on a list: negative positions count from the end, a position
    outside the list raises [IndexError]. *)
Definition getitem {E A} (l : list A) (i : Z) : result E A :=
  let n := Z.of_nat (length l) in
  let j := if i <? 0 then i + n else i in
  if (0 <=? j) && (j <? n) then
    match l !! Z.to_nat j with
    | Some x => Ok x
    | None => Raise IndexError
    end
  else Raise IndexError.

End Py.

Import Py.

(** ** Interpreter settings and library tables outside this model

    Three things the runtime consults are left as parameters: IP-literal
    parsing ([ipaddress.ip_address], used by [urlsplit] on a bracketed
    host), Unicode NFKC normalisation (used by [urlsplit] on a non-ASCII
    authority), and [sys.get_int_max_str_digits()] (0 disables the limit,
    the default is 4300). *)

Inductive ip_version := IPv4Address | IPv6Address.

Class Runtime := {
  ipaddress_ip_address : str → option ip_version;
  unicodedata_normalize_NFKC : str → str;
  int_max_str_digits : nat
}.

(** ** Builtins *)

Module builtins.

(** [Py_ISSPACE]: the ASCII white space of the C locale. *)
Definition Py_ISSPACE (c : N) : bool :=
  in_range 9 13 c || (c =? 32)%N.

(** [Py_UNICODE_ISSPACE]. *)
Definition Py_UNICODE_ISSPACE (c : N) : bool :=
  in_range 9 13 c || in_range 28 32 c || (c =? 133)%N || (c =? 160)%N
  || (c =? 5760)%N || in_range 8192 8202 c || (c =? 8232)%N || (c =? 8233)%N
  || (c =? 8239)%N || (c =? 8287)%N || (c =? 12288)%N.

(** First code point of every run of ten decimal digits (general category
    Nd): the run starting at [z] holds the digits 0 to 9 in order. *)
Definition decimal_zeros : list N :=
  [ 0x30; 0x660; 0x6F0; 0x7C0; 0x966; 0x9E6; 0xA66; 0xAE6; 0xB66; 0xBE6;
    0xC66; 0xCE6; 0xD66; 0xDE6; 0xE50; 0xED0; 0xF20; 0x1040; 0x1090; 0x17E0;
    0x1810; 0x1946; 0x19D0; 0x1A80; 0x1A90; 0x1B50; 0x1BB0; 0x1C40; 0x1C50;
    0xA620; 0xA8D0; 0xA900; 0xA9D0; 0xA9F0; 0xAA50; 0xABF0; 0xFF10; 0x104A0;
    0x10D30; 0x11066; 0x110F0; 0x11136; 0x111D0; 0x112F0; 0x11450; 0x114D0;
    0x11650; 0x116C0; 0x11730; 0x118E0; 0x11950; 0x11C50; 0x11D50; 0x11DA0;
    0x16A60; 0x16AC0; 0x16B50; 0x1D7CE; 0x1D7D8; 0x1D7E2; 0x1D7EC; 0x1D7F6;
    0x1E140; 0x1E2F0; 0x1E950; 0x1FBF0 ]%N.

(** [Py_UNICODE_TODECIMAL]: the digit value, when the code point is a
    decimal digit. *)
Definition Py_UNICODE_TODECIMAL (c : N) : option N :=
  match List.find (λ z, in_range z (z + 9) c) decimal_zeros with
  | Some z => Some (c - z)%N
  | None => None
  end.

(** [_PyUnicode_TransformDecimalAndSpaceToASCII]: code points below 127 stay,
    white space becomes a space, a decimal digit its ASCII digit; the first
    other code point becomes ['?'] and ends the buffer.  (CPython hands an
    all-ASCII text over untouched; the one character this changes is DEL,
    which [PyLong_FromString] rejects like ['?'].) *)
Fixpoint _PyUnicode_TransformDecimalAndSpaceToASCII (u : str) : str :=
  match u with
  | [] => []
  | ch :: u' =>
      if (ch <? 127)%N then ch :: _PyUnicode_TransformDecimalAndSpaceToASCII u'
      else if Py_UNICODE_ISSPACE ch then
        32%N :: _PyUnicode_TransformDecimalAndSpaceToASCII u'
      else match Py_UNICODE_TODECIMAL ch with
           | Some d => (48 + d)%N :: _PyUnicode_TransformDecimalAndSpaceToASCII u'
           | None => [63%N]
           end
  end.

Definition underscore : N := 95.

(** The digit scan of [PyLong_FromString]: digit values up to the first
    character that is neither a digit nor an underscore, and the text from
    there on.  Two underscores in a row, or one at the end of the digits,
    are an error. *)
Fixpoint scan_digits (prev : N) (s : str) : option (list N * str) :=
  match s with
  | c :: s' =>
      if is_ascii_digit c then
        match scan_digits c s' with
        | Some (ds, rest) => Some ((c - 48)%N :: ds, rest)
        | None => None
        end
      else if (c =? underscore)%N then
        if (prev =? underscore)%N then None else scan_digits c s'
      else if (prev =? underscore)%N then None else Some ([], s)
  | [] => if (prev =? underscore)%N then None else Some ([], [])
  end.

Definition digits_value (ds : list N) : N :=
  fold_left (λ acc d, 10 * acc + d)%N ds 0%N.

(** The guard against huge literals: above 640 digits, a positive
    [int_max_str_digits] bounds the number of digits. *)
Definition exceeds_max_str_digits `{Runtime} (digits : nat) : bool :=
  (640 <? digits)%nat && (0 <? int_max_str_digits)%nat
  && (int_max_str_digits <? digits)%nat.

(** The optional sign in front of the digits. *)
Definition sign_of (s : str) : bool * str :=
  match s with
  | c :: s' =>
      if (c =? 43)%N then (false, s')
      else if (c =? 45)%N then (true, s')
      else (false, s)
  | [] => (false, [])
  end.

(** The digits and what may follow them: no leading underscore, at least
    one digit, then only white space up to the end of the buffer. *)
Definition long_from_digits `{Runtime} {E} (negative : bool) (s : str)
  : result E Z :=
  if startswith underscore s then Raise ValueError
  else match scan_digits 0 s with
       | None => Raise ValueError
       | Some (ds, rest) =>
           if exceeds_max_str_digits (length ds) then Raise ValueError
           else match ds, drop_while Py_ISSPACE rest with
                | _ :: _, [] =>
                    let v := Z.of_N (digits_value ds) in
                    Ok (if negative then - v else v)
                | _, _ => Raise ValueError
                end
       end.

(** [PyLong_FromString(buffer, &end, 10)] followed by the check that the
    whole buffer was consumed.  Every way to fail is a [ValueError]. *)
Definition PyLong_FromString `{Runtime} {E} (buffer : str) : result E Z :=
  let '(negative, s) := sign_of (drop_while Py_ISSPACE buffer) in
  long_from_digits negative s.

(** [int(s)] for a [str] argument. *)
Definition int `{Runtime} {E} (s : str) : result E Z :=
  PyLong_FromString (_PyUnicode_TransformDecimalAndSpaceToASCII s).

(** [str(n)] for an [int]: the decimal numeral.  The conversion is subject
    to the same limit on digits as [int]; the integers this program prints
    were parsed by [int] under that limit, from at least as many digits, so
    the conversion is taken as total. *)
Definition str_of_int (n : Z) : str :=
  py (NilZero.string_of_int (Z.to_int n)).

End builtins.

(** ** urllib.parse *)

Module urllib_parse.

Section WithRuntime.
Context `{Runtime} {E : Type}.

Definition REPLACEMENT_CHARACTER : N := 0xFFFD.

Definition is_continuation (b : N) : bool := in_range 0x80 0xBF b.

(** What the second byte of a sequence may be, which depends on the first:
    it excludes overlong forms, surrogates and code points past U+10FFFF. *)
Definition second_byte_ok (b1 b2 : N) : bool :=
  if (b1 =? 0xE0)%N then in_range 0xA0 0xBF b2
  else if (b1 =? 0xED)%N then in_range 0x80 0x9F b2
  else if (b1 =? 0xF0)%N then in_range 0x90 0xBF b2
  else if (b1 =? 0xF4)%N then in_range 0x80 0x8F b2
  else is_continuation b2.

(** [bytes.decode('utf-8', 'replace')]: every maximal ill-formed run that
    starts a sequence is replaced by one U+FFFD. *)
Fixpoint decode_utf8_replace (bs : list N) : str :=
  match bs with
  | [] => []
  | b1 :: r1 =>
      if (b1 <? 0x80)%N then b1 :: decode_utf8_replace r1
      else if in_range 0xC2 0xDF b1 then
        match r1 with
        | [] => [REPLACEMENT_CHARACTER]
        | b2 :: r2 =>
            if is_continuation b2
            then ((b1 - 0xC0) * 64 + (b2 - 0x80))%N :: decode_utf8_replace r2
            else REPLACEMENT_CHARACTER :: decode_utf8_replace r1
        end
      else if in_range 0xE0 0xEF b1 then
        match r1 with
        | [] => [REPLACEMENT_CHARACTER]
        | b2 :: r2 =>
            if second_byte_ok b1 b2 then
              match r2 with
              | [] => [REPLACEMENT_CHARACTER]
              | b3 :: r3 =>
                  if is_continuation b3
                  then ((b1 - 0xE0) * 4096 + (b2 - 0x80) * 64 + (b3 - 0x80))%N
                       :: decode_utf8_replace r3
                  else REPLACEMENT_CHARACTER :: decode_utf8_replace r2
              end
            else REPLACEMENT_CHARACTER :: decode_utf8_replace r1
        end
      else if in_range 0xF0 0xF4 b1 then
        match r1 with
        | [] => [REPLACEMENT_CHARACTER]
        | b2 :: r2 =>
            if second_byte_ok b1 b2 then
              match r2 with
              | [] => [REPLACEMENT_CHARACTER]
              | b3 :: r3 =>
                  if is_continuation b3 then
                    match r3 with
                    | [] => [REPLACEMENT_CHARACTER]
                    | b4 :: r4 =>
                        if is_continuation b4
                        then ((b1 - 0xF0) * 262144 + (b2 - 0x80) * 4096
                              + (b3 - 0x80) * 64 + (b4 - 0x80))%N
                             :: decode_utf8_replace r4
                        else REPLACEMENT_CHARACTER :: decode_utf8_replace r3
                    end
                  else REPLACEMENT_CHARACTER :: decode_utf8_replace r2
              end
            else REPLACEMENT_CHARACTER :: decode_utf8_replace r1
        end
      else REPLACEMENT_CHARACTER :: decode_utf8_replace r1
  end.

Definition percent : N := 37.

Definition hex_value (c : N) : N :=
  if is_ascii_digit c then c - 48
  else if in_range 65 70 c then c - 55
  else c - 87.

(** One element of [bits[1:]] in [unquote_to_bytes]: the text after a ['%'].
    Two leading hex digits are one byte; anything else keeps its ['%']. *)
Definition unquote_item (item : list N) : list N :=
  match item with
  | a :: b :: rest =>
      if is_hexdig a && is_hexdig b
      then (hex_value a * 16 + hex_value b)%N :: rest
      else percent :: item
  | _ => percent :: item
  end.

(** [unquote_to_bytes(string)] for an ASCII [string], whose UTF-8 encoding
    is the string itself. *)
Definition unquote_to_bytes (string : str) : list N :=
  match split percent string with
  | first :: others => first ++ concat (map unquote_item others)
  | [] => []
  end.

(** The pieces of [_asciire.split(string)]: maximal runs of ASCII and of
    non-ASCII code points, each tagged with which it is. *)
Fixpoint ascii_runs (string : str) : list (bool * str) :=
  match string with
  | [] => []
  | c :: rest =>
      match ascii_runs rest with
      | (b, run) :: runs =>
          if Bool.eqb (isascii c) b then (b, c :: run) :: runs
          else (isascii c, [c]) :: (b, run) :: runs
      | [] => [(isascii c, [c])]
      end
  end.

(** [unquote(string, encoding='utf-8', errors='replace')]. *)
Definition unquote (string : str) : str :=
  if negb (contains percent string) then string
  else concat (map (λ '(ascii, run),
                      if ascii : bool
                      then decode_utf8_replace (unquote_to_bytes run)
                      else run)
                 (ascii_runs string)).

Definition plus : N := 43.
Definition space : N := 32.
Definition ampersand : N := 38.
Definition equals : N := 61.

(** The body of the loop of [parse_qsl] with [keep_blank_values=False] and
    [strict_parsing=False]: the pair a field contributes, if any. *)
Definition parse_qsl_field (name_value : str) : option (str * str) :=
  match name_value with
  | [] => None
  | _ =>
      match partition equals name_value with
      | None => None
      | Some (nv0, nv1) =>
          match nv1 with
          | [] => None
          | _ => Some (unquote (replace plus space nv0),
                       unquote (replace plus space nv1))
          end
      end
  end.

(** [parse_qsl(qs)] with the default arguments ([separator='&'],
    [max_num_fields=None]). *)
Definition parse_qsl (qs : str) : list (str * str) :=
  let query_args := match qs with [] => [] | _ => split ampersand qs end in
  omap parse_qsl_field query_args.

(** The body of the loop of [parse_qs]: one more pair in the dict. *)
Definition parse_qs_add (parsed_result : gmap str (list str))
    (pair : str * str) : gmap str (list str) :=
  let '(name, value) := pair in
  match parsed_result !! name with
  | Some values => <[name := values ++ [value]]> parsed_result
  | None => <[name := [value]]> parsed_result
  end.

(** [parse_qs(qs)]: the values of every name, in order of appearance. *)
Definition parse_qs (qs : str) : gmap str (list str) :=
  fold_left parse_qs_add (parse_qsl qs) ∅.

Definition scheme_chars (c : N) : bool :=
  is_ascii_lower c || is_ascii_upper c || is_ascii_digit c
  || (c =? 43)%N || (c =? 45)%N || (c =? 46)%N.

Definition lower (s : str) : str :=
  map (λ c, if is_ascii_upper c then (c + 32)%N else c) s.

Definition _WHATWG_C0_CONTROL_OR_SPACE (c : N) : bool := (c <=? 0x20)%N.

Definition slash : N := 47.
Definition question : N := 63.
Definition hash : N := 35.
Definition colon : N := 58.
Definition at_sign : N := 64.
Definition semicolon : N := 59.
Definition open_bracket : N := 91.
Definition close_bracket : N := 93.

Definition is_netloc_delimiter (c : N) : bool :=
  (c =? slash)%N || (c =? question)%N || (c =? hash)%N.

(** [_splitnetloc(url, 2)] on a [url] that starts with ["//"]. *)
Definition _splitnetloc (url : str) : str * str :=
  let rest := drop 2 url in
  (take_while (λ c, negb (is_netloc_delimiter c)) rest,
   drop_while (λ c, negb (is_netloc_delimiter c)) rest).

Definition _checknetloc (netloc : str) : result E unit :=
  match netloc with
  | [] => Ok tt
  | _ =>
      if forallb isascii netloc then Ok tt
      else
        let n := remove question (remove hash (remove colon (remove at_sign netloc))) in
        let netloc2 := unicodedata_normalize_NFKC n in
        if bool_decide (n = netloc2) then Ok tt
        else if existsb (λ c, contains c netloc2)
                  [slash; question; hash; at_sign; colon]
        then Raise ValueError
        else Ok tt
  end.

(** [re.match(r"\Av[a-fA-F0-9]+\..+\Z", hostname)]. *)
Definition ipvfuture_re (hostname : str) : bool :=
  match hostname with
  | v :: rest =>
      (v =? 118)%N
      && match take_while is_hexdig rest, drop_while is_hexdig rest with
         | _ :: _, dot :: (_ :: _) as tail =>
             (dot =? 46)%N && forallb (λ c, negb (c =? 10)%N) tail
         | _, _ => false
         end
  | [] => false
  end.

Definition _check_bracketed_host (hostname : str) : result E unit :=
  if startswith 118 hostname then
    if ipvfuture_re hostname then Ok tt else Raise ValueError
  else
    match ipaddress_ip_address hostname with
    | None => Raise ValueError
    | Some IPv4Address => Raise ValueError
    | Some IPv6Address => Ok tt
    end.

Definition _check_bracketed_netloc (netloc : str) : result E unit :=
  let hostname_and_port :=
    match rpartition at_sign netloc with
    | Some (_, after) => after
    | None => netloc
    end in
  match partition open_bracket hostname_and_port with
  | Some (before_bracket, bracketed) =>
      match before_bracket with
      | _ :: _ => Raise ValueError
      | [] =>
          let '(hostname, port) :=
            match partition close_bracket bracketed with
            | Some (h, p) => (h, p)
            | None => (bracketed, [])
            end in
          match port with
          | c :: _ =>
              if (c =? colon)%N then _check_bracketed_host hostname
              else Raise ValueError
          | [] => _check_bracketed_host hostname
          end
      end
  | None =>
      let hostname :=
        match partition colon hostname_and_port with
        | Some (h, _) => h
        | None => hostname_and_port
        end in
      _check_bracketed_host hostname
  end.

Record SplitResult := {
  sr_scheme : str;
  sr_netloc : str;
  sr_path : str;
  sr_query : str;
  sr_fragment : str
}.

(** The scheme block of [urlsplit]: the text before the first [':'] is the
    scheme when it is not empty, starts with an ASCII letter and holds
    scheme characters only; the result is the scheme and the rest. *)
Definition split_scheme (url : str) : str * str :=
  match partition colon url with
  | Some (c :: before, after) =>
      if isascii c && is_ascii_alpha c && forallb scheme_chars (c :: before)
      then (lower (c :: before), after)
      else ([], url)
  | _ => ([], url)
  end.

(** The authority block of [urlsplit]: after ["//"] comes the netloc, which
    must pair its square brackets and, when it has them, hold a valid
    bracketed host; the result is the netloc and the rest. *)
Definition split_authority (url : str) : result E (str * str) :=
  if bool_decide (take 2 url = [slash; slash]) then
    let '(netloc, url) := _splitnetloc url in
    let has_open := contains open_bracket netloc in
    let has_close := contains close_bracket netloc in
    if (has_open && negb has_close) || (has_close && negb has_open)
    then Raise ValueError
    else bind (if has_open && has_close
               then _check_bracketed_netloc netloc else Ok tt)
              (λ _, Ok (netloc, url))
  else Ok ([], url).

(** [urlsplit(url)] with [scheme=''] and [allow_fragments=True]. *)
Definition urlsplit (url : str) : result E SplitResult :=
  let url := drop_while _WHATWG_C0_CONTROL_OR_SPACE url in
  let url := remove 10 (remove 13 (remove 9 url)) in
  let '(scheme, url) := split_scheme url in
  bind (split_authority url)
    (λ '(netloc, url),
       let '(url, fragment) :=
         match partition hash url with
         | Some (u, f) => (u, f)
         | None => (url, [])
         end in
       let '(url, query) :=
         match partition question url with
         | Some (u, q) => (u, q)
         | None => (url, [])
         end in
       bind (_checknetloc netloc)
         (λ _, Ok {| sr_scheme := scheme; sr_netloc := netloc;
                     sr_path := url; sr_query := query;
                     sr_fragment := fragment |})).

Definition uses_params : list str :=
  map py [ ""; "ftp"; "hdl"; "prospero"; "http"; "imap"; "https"; "shttp";
           "rtsp"; "rtspu"; "sip"; "sips"; "mms"; "sftp"; "tel" ]%string.

(** [_splitparams(url)] on a [url] that contains [';']. *)
Definition _splitparams (url : str) : str * str :=
  match rpartition slash url with
  | Some (head, tail) =>
      match partition semicolon tail with
      | Some (a, b) => (head ++ slash :: a, b)
      | None => (url, [])
      end
  | None =>
      match partition semicolon url with
      | Some (a, b) => (a, b)
      | None => (url, [])
      end
  end.

Record ParseResult := {
  scheme : str;
  netloc : str;
  path : str;
  params : str;
  query : str;
  fragment : str
}.

(** [urlparse(url)]. *)
Definition urlparse (url : str) : result E ParseResult :=
  bind (urlsplit url)
    (λ splitresult,
       let url := sr_path splitresult in
       let '(url, params) :=
         if bool_decide (sr_scheme splitresult ∈ uses_params)
            && contains semicolon url
         then _splitparams url
         else (url, []) in
       Ok {| scheme := sr_scheme splitresult;
             netloc := sr_netloc splitresult;
             path := url; params := params;
             query := sr_query splitresult;
             fragment := sr_fragment splitresult |}).

End WithRuntime.

End urllib_parse.

(** ** Collaborators: the retrieval engine, the dialogs, the console *)

Module yt_dlp.

(** One item of a collection.  The engine's contract is that every item
    exposes at least these three keys. *)
Record entry := {
  title : str;
  id : str;
  url : str
}.

(** What [extract_info] returns, as far as the planner reads it: the key
    ["entries"] is present for a collection and absent for a single item. *)
Record info_dict := {
  entries : option (list entry)
}.

(** The function objects handed to the engine as callbacks. *)
Inductive callback := progress_hook.

Record postprocessor := {
  key : str;
  preferedformat : str
}.

Record options := {
  format : str;
  outtmpl : str;
  merge_output_format : str;
  progress_hooks : list callback;
  postprocessors : list postprocessor;
  noplaylist : bool
}.

(** [yt_dlp.YoutubeDL(opts)]: the two methods the planner calls.  A failure
    inside the engine is a value of [E]; the planner never inspects it. *)
Class YoutubeDL (E : Type) := {
  extract_info : options → str → bool → E + info_dict;
  download : options → list str → E + Z
}.

End yt_dlp.

Module Effects.

Import yt_dlp.

(** Everything the program does to the outside world, in program order. *)
Inductive event :=
  | QMessageBox_warning (title text : str)
  | QMessageBox_critical (title text : str)
  | console_print (text : str)
  | YoutubeDL_extract_info (opts : options) (url : str) (download : bool)
  | YoutubeDL_download (opts : options) (url_list : list str)
  | StyledMessageBox_exec (title message : str) (duration : Z).

(** How a block of statements ends: it falls through with a value, it
    executes [return], or it raises. *)
Inductive outcome (E A : Type) : Type :=
  | Normal (a : A)
  | Returned
  | Raised (e : exception E).
Arguments Normal {E A} a.
Arguments Returned {E A}.
Arguments Raised {E A} e.

(** A block of statements: the events it performs and how it ends. *)
Definition IO (E A : Type) : Type := list event * outcome E A.

#[global] Instance IO_ret {E} : MRet (IO E) := λ A a, ([], Normal a).

#[global] Instance IO_bind {E} : MBind (IO E) := λ A B k m,
  match m with
  | (t, Normal a) => let '(t', o) := k a in (t ++ t', o)
  | (t, Returned) => (t, Returned)
  | (t, Raised e) => (t, Raised e)
  end.

Definition emit {E} (ev : event) : IO E unit := ([ev], Normal tt).

Definition return_ {E A} : IO E A := ([], Returned).

Definition lift {E A} (r : result E A) : IO E A :=
  match r with
  | Ok a => ([], Normal a)
  | Raise e => ([], Raised e)
  end.

Definition of_collaborator {E A} (r : E + A) : result E A :=
  match r with
  | inr a => Ok a
  | inl e => Raise (CollaboratorError e)
  end.

(** The body of a function seen from its caller: [return] and falling off
    the end both give [None]. *)
Definition call {E} (body : IO E unit) : list event * result E unit :=
  match body with
  | (t, Normal _) => (t, Ok tt)
  | (t, Returned) => (t, Ok tt)
  | (t, Raised e) => (t, Raise e)
  end.

(** The url lists of the download requests in a trace. *)
Definition downloads (t : list event) : list (list str) :=
  omap (λ ev, match ev with
              | YoutubeDL_download _ url_list => Some url_list
              | _ => None
              end) t.

End Effects.

(** ** The program *)

Module youtube_downloader.

Import builtins urllib_parse yt_dlp Effects.

Section Program.
Context `{Runtime} {E : Type} `{YoutubeDL E}.

(** [d[k]] on a dict. *)
Definition dict_getitem {V} (d : gmap str V) (k : str) : result E V :=
  match d !! k with
  | Some v => Ok v
  | None => Raise KeyError
  end.

(** Lines 72-76. *)
Definition extract_index_from_url (url : str) : result E (option Z) :=
  bind (urlparse url) (λ parsed_url,
    let query_params := parse_qs (query parsed_url) in
    if bool_decide (is_Some (query_params !! py "index")) then
      bind (dict_getitem query_params (py "index")) (λ values,
      bind (getitem values 0) (λ value,
      bind (int value) (λ n, Ok (Some n))))
    else Ok None).

Definition quality_options : list str :=
  map py ["2160"; "1440"; "1080"; "720"; "480"]%string.

(** Line 91. *)
Definition invalid_choice_warning : event :=
  QMessageBox_warning (py "Warning")
    (py "Invalid choice! Defaulting to best available quality.").

(** Lines 90-92 of [download_video]: the quality in force from there on. *)
Definition selectQuality (preferred_quality : str) : IO E str :=
  if negb (bool_decide (preferred_quality ∈ quality_options)) then
    emit invalid_choice_warning ;;
    lift (getitem quality_options 0)
  else mret preferred_quality.

(** Line 95: the value of the ["format"] option. *)
Definition buildFormatExpression (preferred_quality : str) : str :=
  py "bestvideo[height<=" ++ preferred_quality
  ++ py "][ext=mp4]+bestaudio[ext=m4a]/best[ext=mp4]".

(** Lines 94-101. *)
Definition ydl_opts (preferred_quality save_path : str) : options :=
  {| format := buildFormatExpression preferred_quality;
     outtmpl := save_path ++ py "/%(title)s.%(ext)s";
     merge_output_format := py "mp4";
     progress_hooks := [progress_hook];
     postprocessors :=
       [ {| key := py "FFmpegVideoConvertor"; preferedformat := py "mp4" |} ];
     noplaylist := true |}.

Definition ydl_extract_info (opts : options) (url : str) (dl : bool)
  : IO E info_dict :=
  emit (YoutubeDL_extract_info opts url dl) ;;
  lift (of_collaborator (extract_info opts url dl)).

Definition ydl_download (opts : options) (url_list : list str) : IO E Z :=
  emit (YoutubeDL_download opts url_list) ;;
  lift (of_collaborator (download opts url_list)).

Definition NEWLINE : N := 10.
Definition OPEN_FILE_FOLDER : N := 0x1F4C2.
Definition INBOX_TRAY : N := 0x1F4E5.
Definition MOVIE_CAMERA : N := 0x1F3A5.

(** Line 107: the text printed when a collection and an index meet. *)
Definition playlist_detected (index : Z) : str :=
  [NEWLINE; OPEN_FILE_FOLDER]
  ++ py " Playlist detected! Downloading only video at index "
  ++ str_of_int index ++ py "...".

(** Line 110. *)
Definition downloading (entry : yt_dlp.entry) : str :=
  [NEWLINE; INBOX_TRAY] ++ py " Downloading: " ++ title entry
  ++ py " (" ++ id entry ++ py ")".

(** Line 113. *)
Definition out_of_range (index : Z) : str :=
  py "Index " ++ str_of_int index ++ py " is out of range!".

(** Line 116. *)
Definition single_video_detected : str :=
  [NEWLINE; MOVIE_CAMERA] ++ py " Single video detected! Downloading...".

(** Lines 103-117: the body of the [with] statement, [ydl] being the engine
    built from the options.  The test of line 106, ["entries" in info and
    index is not None], is the first branch of the [match]. *)
Definition planTarget (ydl : options) (video_url : str) (index : option Z)
  : IO E unit :=
  info ← ydl_extract_info ydl video_url false ;
  match entries info, index with
  | Some info_entries, Some index =>
      emit (console_print (playlist_detected index)) ;;
      if (1 <=? index) && (index <=? Z.of_nat (length info_entries)) then
        entry ← lift (getitem info_entries (index - 1)) ;
        emit (console_print (downloading entry)) ;;
        ydl_download ydl [url entry] ;;
        mret tt
      else
        emit (QMessageBox_critical (py "Error") (out_of_range index)) ;;
        return_
  | _, _ =>
      emit (console_print single_video_detected) ;;
      ydl_download ydl [video_url] ;;
      mret tt
  end.

(** Lines 120-121. *)
Definition success_box : event :=
  StyledMessageBox_exec (py "Success") (py "Download completed!") 60000.

(** Lines 85-121.  The caller passes [preferred_quality] and [save_path]
    explicitly; the source's defaults are ["2160"] and ["."]. *)
Definition download_video (video_url preferred_quality save_path : str)
  : list event * result E unit :=
  call (
    index ← lift (extract_index_from_url video_url) ;
    preferred_quality ← selectQuality preferred_quality ;
    planTarget (ydl_opts preferred_quality save_path) video_url index ;;
    emit success_box
  ).

End Program.

End youtube_downloader.

(** ** The engine's format selection

    What [yt_dlp.YoutubeDL] makes of the ["format"] option, after
    [YoutubeDL.build_format_selector] and [YoutubeDL._build_format_filter]:
    the expression is cut into tokens by Python's [tokenize], the tokens
    are parsed into a tree of selectors, and the tree is turned into a
    function from the formats on offer to the formats to download.  What
    a single selector such as [bestvideo] picks among the formats left by
    its filters, and how two formats are merged, is the engine's ranking
    and stays an interface. *)

Module format_selection.

Import builtins.

(** How a step of the engine ends besides returning: with one of the two
    exceptions, or outside this model.  [Uncovered] is no behaviour of the
    engine: it marks a text with a character, a number or a filter that
    the fragments of [tokenize] and of the filter syntax modelled below
    leave out, and about which the model says nothing. *)
Inductive failure := SyntaxError | TypeError | Uncovered.

Definition answer (A : Type) : Type := (failure + A)%type.

#[global] Instance answer_ret : MRet answer := λ A a, inr a.

#[global] Instance answer_bind : MBind answer := λ A B k m,
  match m with
  | inl e => inl e
  | inr a => k a
  end.

(** *** [tokenize]

    The fragment: ASCII letters, digits and the underscore, and the
    operators written with [( ) [ ] + , / < = >]; no white space.  A token
    is its type and its string. *)

Inductive toktype := NAME | NUMBER | OP.

Definition TokenInfo : Type := toktype * str.

Inductive tokenized :=
  | Tokens (tokens : list TokenInfo)
  | TokenError
  | NotCovered.

Definition is_name_start (c : N) : bool :=
  is_ascii_alpha c || (c =? underscore)%N.

Definition is_name_char (c : N) : bool :=
  is_name_start c || is_ascii_digit c.

(** A maximal run of letters, digits and underscores is one token when it
    starts with a letter or an underscore ([Name]) and when it is a decimal
    numeral without a leading zero ([Decnumber]).  The other runs, which
    [tokenize] cuts into several numbers and names, are left out. *)
Definition word_token (word : str) : option TokenInfo :=
  match word with
  | [] => None
  | c :: rest =>
      if is_name_start c then Some (NAME, word)
      else if forallb is_ascii_digit word
              && (negb (c =? 48)%N || bool_decide (rest = []))
      then Some (NUMBER, word)
      else None
  end.

Definition yield (token : TokenInfo) (following : tokenized) : tokenized :=
  match following with
  | Tokens tokens => Tokens (token :: tokens)
  | TokenError => TokenError
  | NotCovered => NotCovered
  end.

(** The word read so far becomes a token when an operator or the end of
    the line follows it. *)
Definition yield_word (word : str) (following : tokenized) : tokenized :=
  match word with
  | [] => following
  | _ :: _ =>
      match word_token word with
      | Some token => yield token following
      | None => NotCovered
      end
  end.

(** One line, read from the left: [word] holds the letters and digits
    since the last operator, [parenlev] counts the opening brackets up
    and the closing ones down.  An operator is the longest one that fits.
    At the end of the line a [parenlev] other than 0 makes [tokenize] ask
    for a next line, and there is none. *)
Fixpoint tokenize_line (line : str) (word : str) (parenlev : Z) : tokenized :=
  match line with
  | [] => yield_word word (if parenlev =? 0 then Tokens [] else TokenError)
  | c :: rest =>
      if is_name_char c then tokenize_line rest (word ++ [c]) parenlev
      else yield_word word (
        if (c =? 40)%N || (c =? 91)%N then
          yield (OP, [c]) (tokenize_line rest [] (parenlev + 1))
        else if (c =? 41)%N || (c =? 93)%N then
          yield (OP, [c]) (tokenize_line rest [] (parenlev - 1))
        else if (c =? 44)%N then
          yield (OP, [c]) (tokenize_line rest [] parenlev)
        else if (c =? 43)%N || (c =? 61)%N then
          (* [+=], [+]; [==], [=] *)
          match rest with
          | c1 :: rest1 =>
              if (c1 =? 61)%N
              then yield (OP, [c; c1]) (tokenize_line rest1 [] parenlev)
              else yield (OP, [c]) (tokenize_line rest [] parenlev)
          | [] => yield (OP, [c]) (tokenize_line rest [] parenlev)
          end
        else if (c =? 47)%N || (c =? 60)%N || (c =? 62)%N then
          (* [//=], [//], [/=], [/], and the same with [<] and [>] *)
          match rest with
          | c1 :: rest1 =>
              if (c1 =? c)%N then
                match rest1 with
                | c2 :: rest2 =>
                    if (c2 =? 61)%N
                    then yield (OP, [c; c1; c2]) (tokenize_line rest2 [] parenlev)
                    else yield (OP, [c; c1]) (tokenize_line rest1 [] parenlev)
                | [] => yield (OP, [c; c1]) (tokenize_line rest1 [] parenlev)
                end
              else if (c1 =? 61)%N
              then yield (OP, [c; c1]) (tokenize_line rest1 [] parenlev)
              else yield (OP, [c]) (tokenize_line rest [] parenlev)
          | [] => yield (OP, [c]) (tokenize_line rest [] parenlev)
          end
        else NotCovered)
  end.

(** [tokenize.tokenize] on the one line of a format expression, without
    the tokens that the selector skips ([ENCODING], [NEWLINE],
    [ENDMARKER]). *)
Definition tokenize (format_spec : str) : tokenized :=
  tokenize_line format_spec [] 0.

(** *** [build_format_selector]: the tokens the parser reads *)

Definition is_op (token : TokenInfo) (string : str) : bool :=
  match token with
  | (OP, s) => bool_decide (s = string)
  | _ => false
  end.

Definition ALLOWED_OPS : list str :=
  [py "/"; py "+"; py ","; py "("; py ")"].

(** [if last_string: yield NAME, last_string]: [None] and the empty string
    are both false, and [last_string] holds the one or the other. *)
Definition yield_last_string (last_string : str) : list TokenInfo :=
  match last_string with
  | [] => []
  | _ :: _ => [(NAME, last_string)]
  end.

(** [_remove_unused_ops]: the operators the selector does not use are
    joined with the strings around them; between the square brackets the
    tokens pass as they are, the closing bracket included. *)
Fixpoint _remove_unused_ops (tokens : list TokenInfo) (last_string : str)
    (inside_brackets : bool) : list TokenInfo :=
  match tokens with
  | [] => yield_last_string last_string
  | token :: tokens' =>
      if inside_brackets then
        token :: _remove_unused_ops tokens' last_string
                   (negb (is_op token (py "]")))
      else if is_op token (py "[") then
        yield_last_string last_string
        ++ token :: _remove_unused_ops tokens' [] true
      else if existsb (is_op token) ALLOWED_OPS then
        yield_last_string last_string
        ++ token :: _remove_unused_ops tokens' [] false
      else
        _remove_unused_ops tokens' (last_string ++ token.2) false
  end.

(** *** [build_format_selector]: the parser *)

(** [FormatSelector(type, selector, filters)].  The selector of a
    [PICKFIRST] and of a [MERGE] is a pair whose second part is what the
    recursive call returned, a list.  A filter is the text between the
    brackets, or [None] when the closing bracket never came. *)
#[warnings="-register-all"]
Inductive FormatSelector :=
  | SINGLE (selector : str) (filters : list (option str))
  | GROUP (selector : list FormatSelector) (filters : list (option str))
  | PICKFIRST (first_choice : FormatSelector)
      (second_choice : list FormatSelector) (filters : list (option str))
  | MERGE (selector_1 : FormatSelector) (selector_2 : list FormatSelector)
      (filters : list (option str)).

Definition filters_of (s : FormatSelector) : list (option str) :=
  match s with
  | SINGLE _ filters => filters
  | GROUP _ filters => filters
  | PICKFIRST _ _ filters => filters
  | MERGE _ _ filters => filters
  end.

(** [current_selector.filters.append(format_filter)] *)
Definition filters_append (s : FormatSelector) (format_filter : option str)
  : FormatSelector :=
  match s with
  | SINGLE selector filters => SINGLE selector (filters ++ [format_filter])
  | GROUP selector filters => GROUP selector (filters ++ [format_filter])
  | PICKFIRST a b filters => PICKFIRST a b (filters ++ [format_filter])
  | MERGE a b filters => MERGE a b (filters ++ [format_filter])
  end.

(** [_parse_filter]: the strings of the tokens up to the closing bracket,
    joined; the tokens left are those behind the bracket. *)
Fixpoint _parse_filter (tokens : list TokenInfo) (filter_parts : str)
  : option str * list TokenInfo :=
  match tokens with
  | [] => (None, [])
  | token :: tokens' =>
      if is_op token (py "]") then (Some filter_parts, tokens')
      else _parse_filter tokens' (filter_parts ++ token.2)
  end.

(** [selectors.append(current_selector)] when there is one. *)
Definition selectors_end (selectors : list FormatSelector)
    (current_selector : option FormatSelector) : list FormatSelector :=
  match current_selector with
  | Some s => selectors ++ [s]
  | None => selectors
  end.

(** [_parse_format_selection].  The tokens are one iterator shared by the
    calls: a call returns its selectors and the tokens that remain, the last
    one put back where the code calls [restore_last_token].  The loop
    variables [selectors] and [current_selector] are arguments.  [fuel]
    bounds the steps; [None] is running out of it, which
    [_parse_format_selection_fuel] excludes for the fuel
    [parse_format_selection] gives. *)
Fixpoint _parse_format_selection (fuel : nat) (tokens : list TokenInfo)
    (inside_merge inside_choice inside_group : bool)
    (selectors : list FormatSelector)
    (current_selector : option FormatSelector)
  : option (answer (list FormatSelector * list TokenInfo)) :=
  match fuel with
  | O => None
  | S fuel =>
      match tokens with
      | [] => Some (inr (selectors_end selectors current_selector, []))
      | token :: tokens' =>
          let continue := _parse_format_selection fuel in
          let break (remaining : list TokenInfo) :=
            Some (inr (selectors_end selectors current_selector, remaining)) in
          match token.1 with
          | NAME | NUMBER =>
              continue tokens' inside_merge inside_choice inside_group
                selectors (Some (SINGLE token.2 []))
          | OP =>
              if is_op token (py ")") then
                break (if inside_group then tokens' else tokens)
              else if inside_merge
                      && (is_op token (py "/") || is_op token (py ",")) then
                break tokens
              else if inside_choice && is_op token (py ",") then
                break tokens
              else if is_op token (py ",") then
                match current_selector with
                | None => Some (inl SyntaxError)
                | Some s =>
                    continue tokens' inside_merge inside_choice inside_group
                      (selectors ++ [s]) None
                end
              else if is_op token (py "/") then
                match current_selector with
                | None => Some (inl SyntaxError)
                | Some first_choice =>
                    match continue tokens' false true false [] None with
                    | Some (inr (second_choice, remaining)) =>
                        continue remaining inside_merge inside_choice inside_group
                          selectors
                          (Some (PICKFIRST first_choice second_choice []))
                    | other => other
                    end
                end
              else if is_op token (py "[") then
                let s := default (SINGLE (py "best") []) current_selector in
                let '(format_filter, remaining) := _parse_filter tokens' [] in
                continue remaining inside_merge inside_choice inside_group
                  selectors (Some (filters_append s format_filter))
              else if is_op token (py "(") then
                match current_selector with
                | Some _ => Some (inl SyntaxError)
                | None =>
                    match continue tokens' false false true [] None with
                    | Some (inr (group, remaining)) =>
                        continue remaining inside_merge inside_choice inside_group
                          selectors (Some (GROUP group []))
                    | other => other
                    end
                end
              else if is_op token (py "+") then
                match current_selector with
                | None => Some (inl SyntaxError)
                | Some selector_1 =>
                    match continue tokens' true false false [] None with
                    | Some (inr (selector_2, remaining)) =>
                        match selector_2 with
                        | [] => Some (inl SyntaxError)
                        | _ :: _ =>
                            continue remaining inside_merge inside_choice
                              inside_group selectors
                              (Some (MERGE selector_1 selector_2 []))
                        end
                    | other => other
                    end
                end
              else Some (inl SyntaxError)
          end
      end
  end.

(** The tree of a token list: the outermost call, which drops the tokens
    it leaves. *)
Definition parse_format_selection (tokens : list TokenInfo)
  : option (answer (list FormatSelector)) :=
  match _parse_format_selection (S (length tokens)) tokens
          false false false [] None with
  | Some (inr (selectors, _)) => Some (inr selectors)
  | Some (inl e) => Some (inl e)
  | None => None
  end.

(** *** [_build_format_filter] *)

(** A value of a format dict, as far as the filters of line 95 read it:
    an [int] ([height]) or a [str] ([ext]). *)
Inductive field :=
  | Int (z : Z)
  | Text (s : str).

Definition format_dict : Type := gmap str field.

(** A filter the fragment covers: a key, an operator of [OPERATORS] and a
    decimal numeral; or a key, [=] and a word that does not start with a
    digit. *)
Inductive format_filter :=
  | number_filter (key op : str) (comparison_value : Z)
  | text_filter (key : str) (comparison_value : str).

Definition OPERATORS : list str :=
  [py "<"; py "<="; py ">"; py ">="; py "="; py "!="].

Definition is_operator_char (c : N) : bool :=
  (c =? 60)%N || (c =? 61)%N || (c =? 62)%N || (c =? 33)%N.

(** The two regular expressions, on the texts of the fragment.  The key is
    the longest run of key characters, the operator all that stands
    between the key and the value.  A numeral makes the filter a numeric
    one, compared as [int(value)]. *)
Definition parse_filter_spec `{Runtime} (filter_spec : str)
  : answer format_filter :=
  let key := take_while is_name_char filter_spec in
  let op := take_while is_operator_char (drop_while is_name_char filter_spec) in
  let value :=
    drop_while is_operator_char (drop_while is_name_char filter_spec) in
  match key, value with
  | _ :: _, c :: _ =>
      if forallb is_ascii_digit value then
        if bool_decide (op ∈ OPERATORS) then
          match int (E:=Empty_set) value with
          | Ok comparison_value => inr (number_filter key op comparison_value)
          | Raise _ => inl Uncovered
          end
        else inl Uncovered
      else if forallb is_name_char value && is_name_start c
              && bool_decide (op = py "=")
      then inr (text_filter key value)
      else inl Uncovered
  | _, _ => inl Uncovered
  end.

(** [op(actual_value, comparison_value)] for a numeric filter.  A [str]
    is not ordered against an [int]; it is unequal to it. *)
Definition compare_number (op : str) (actual_value : field)
    (comparison_value : Z) : answer bool :=
  match actual_value with
  | Int a =>
      inr (if bool_decide (op = py "<") then a <? comparison_value
           else if bool_decide (op = py "<=") then a <=? comparison_value
           else if bool_decide (op = py ">") then comparison_value <? a
           else if bool_decide (op = py ">=") then comparison_value <=? a
           else if bool_decide (op = py "=") then a =? comparison_value
           else negb (a =? comparison_value))
  | Text _ =>
      if bool_decide (op = py "=") then inr false
      else if bool_decide (op = py "!=") then inr true
      else inl TypeError
  end.

(** [_filter]: a format without the key, or with [None] under it, does
    not pass, there being no [?] in the filter. *)
Definition _filter (m : format_filter) (f : format_dict) : answer bool :=
  match m with
  | number_filter key op comparison_value =>
      match f !! key with
      | None => inr false
      | Some actual_value => compare_number op actual_value comparison_value
      end
  | text_filter key comparison_value =>
      match f !! key with
      | None => inr false
      | Some (Text actual_value) =>
          inr (bool_decide (actual_value = comparison_value))
      | Some (Int _) => inr false
      end
  end.

(** [_build_format_filter]; a filter that is [None] is no string to match
    against. *)
Definition _build_format_filter `{Runtime} (filter_spec : option str)
  : answer format_filter :=
  match filter_spec with
  | None => inl TypeError
  | Some filter_spec => parse_filter_spec filter_spec
  end.

(** [list(filter(_filter, formats))] *)
Fixpoint filter_formats (m : format_filter) (formats : list format_dict)
  : answer (list format_dict) :=
  match formats with
  | [] => inr []
  | f :: formats' =>
      keep ← _filter m f ;
      kept ← filter_formats m formats' ;
      mret (if keep : bool then f :: kept else kept)
  end.

(** *** [_build_selector_function] *)

(** The context a selector runs in: the formats on offer, and the other
    keys, which no filter changes. *)
Record context (R : Type) := {
  formats : list format_dict;
  others : R
}.
Arguments formats {R} c.
Arguments others {R} c.

(** The engine's ranking: what the selector function of a [SINGLE] yields
    in a context, and [_merge]. *)
Class Ranking (R : Type) := {
  single_selector_function : str → context R → list format_dict;
  _merge : format_dict → format_dict → format_dict
}.

Section Selectors.

Context `{Runtime} {R : Type} `{Ranking R}.

Definition format_selector : Type := context R → answer (list format_dict).

(** [for f in fs: yield from f(ctx)] *)
Fixpoint selector_list (fs : list format_selector) : format_selector :=
  λ ctx,
    match fs with
    | [] => inr []
    | f :: fs' =>
        picked ← f ctx ;
        more ← selector_list fs' ctx ;
        mret (picked ++ more)
    end.

(** The filters of a selector, applied one after the other to the formats
    of the context. *)
Fixpoint apply_filters (filters : list format_filter)
    (formats : list format_dict) : answer (list format_dict) :=
  match filters with
  | [] => inr formats
  | m :: filters' =>
      kept ← filter_formats m formats ;
      apply_filters filters' kept
  end.

(** [final_selector] *)
Definition final_selector (filters : list format_filter)
    (selector_function : format_selector) : format_selector :=
  λ ctx,
    kept ← apply_filters filters (formats ctx) ;
    selector_function {| formats := kept; others := others ctx |}.

(** The functions of a list of selectors, or the first failure to build
    one. *)
Fixpoint sequence {A : Type} (l : list (answer A)) : answer (list A) :=
  match l with
  | [] => inr []
  | a :: l' => x ← a ; xs ← sequence l' ; mret (x :: xs)
  end.

Fixpoint _build_selector_function (selector : FormatSelector)
  : answer format_selector :=
  selector_function ←
    match selector with
    | SINGLE format_spec _ =>
        mret (λ ctx, inr (single_selector_function format_spec ctx))
    | GROUP selectors _ =>
        fs ← sequence (map _build_selector_function selectors) ;
        mret (selector_list fs)
    | PICKFIRST first_choice second_choice _ =>
        f1 ← _build_selector_function first_choice ;
        fs ← sequence (map _build_selector_function second_choice) ;
        mret (λ ctx,
                picked_formats ← f1 ctx ;
                match picked_formats with
                | _ :: _ => inr picked_formats
                | [] => selector_list fs ctx
                end)
    | MERGE selector_1 selector_2 _ =>
        f1 ← _build_selector_function selector_1 ;
        fs ← sequence (map _build_selector_function selector_2) ;
        mret (λ ctx,
                picked_1 ← f1 ctx ;
                picked_2 ← selector_list fs ctx ;
                mret (format_1 ← picked_1 ;
                      map (_merge format_1) picked_2))
    end ;
  filters ← sequence (map _build_format_filter (filters_of selector)) ;
  mret (final_selector filters selector_function).

(** [build_format_selector]: tokens, tree, function.  A [TokenError]
    becomes the selector's [SyntaxError]. *)
Definition parse_format_spec (format_spec : str)
  : option (answer (list FormatSelector)) :=
  match tokenize format_spec with
  | Tokens tokens => parse_format_selection (_remove_unused_ops tokens [] false)
  | TokenError => Some (inl SyntaxError)
  | NotCovered => Some (inl Uncovered)
  end.

Definition build_format_selector (format_spec : str)
  : option (answer format_selector) :=
  match parse_format_spec format_spec with
  | None => None
  | Some parsed =>
      Some (parsed_selector ← parsed ;
            fs ← sequence (map _build_selector_function parsed_selector) ;
            mret (selector_list fs))
  end.

(** [list(format_selector(ctx))], the selector being the one built from
    the ["format"] option. *)
Definition select_formats (format_spec : str) (ctx : context R)
  : option (answer (list format_dict)) :=
  match build_format_selector format_spec with
  | None => None
  | Some built => Some (format_selector ← built ; format_selector ctx)
  end.

End Selectors.

End format_selection.

(** ** Vocabulary of the statements *)

Module Spec.

Import builtins urllib_parse yt_dlp Effects youtube_downloader.
Import format_selection.

(** The values that a list of pairs gives to [name], in order. *)
Definition values_of (name : str) (pairs : list (str * str)) : list str :=
  omap (λ '(n, v), if bool_decide (n = name) then Some v else None) pairs.

(** The values of the query parameter [name] in the query [qs], in order of
    appearance. *)
Definition query_values (name qs : str) : list str :=
  values_of name (parse_qsl qs).

(** A field of a query (the text between two ['&']) that gives a value to
    the parameter [index]. *)
Definition is_index_field (name_value : str) : bool :=
  match parse_qsl_field name_value with
  | Some (name, _) => bool_decide (name = py "index")
  | None => false
  end.

Definition ascii_digit_of (v : N) : N := (48 + v)%N.

Fixpoint uint_digits (d : Decimal.uint) : list N :=
  match d with
  | Decimal.Nil => []
  | Decimal.D0 d => 0 :: uint_digits d
  | Decimal.D1 d => 1 :: uint_digits d
  | Decimal.D2 d => 2 :: uint_digits d
  | Decimal.D3 d => 3 :: uint_digits d
  | Decimal.D4 d => 4 :: uint_digits d
  | Decimal.D5 d => 5 :: uint_digits d
  | Decimal.D6 d => 6 :: uint_digits d
  | Decimal.D7 d => 7 :: uint_digits d
  | Decimal.D8 d => 8 :: uint_digits d
  | Decimal.D9 d => 9 :: uint_digits d
  end%N.

(** The digits of the decimal numeral of [z], sign apart. *)
Definition numeral (z : Z) : Decimal.uint :=
  match z with
  | 0 => Decimal.D0 Decimal.Nil
  | Z.pos p => Pos.to_uint p
  | Z.neg p => Pos.to_uint p
  end.

(** How many digits the decimal numeral of [z] has. *)
Definition decimal_digits (z : Z) : nat := length (str_of_int (Z.abs z)).

(** The numeral of [z] passes the interpreter's limit on digits. *)
Definition fits_int_max_str_digits `{Runtime} (z : Z) : Prop :=
  exceeds_max_str_digits (decimal_digits z) = false.

(** The ASCII characters an integer literal is made of. *)
Definition literal_char (c : N) : bool :=
  Py_ISSPACE c || is_ascii_digit c || (c =? underscore)%N
  || (c =? 43)%N || (c =? 45)%N.

(** The code points that can occur in a text [int] accepts: below 127 the
    characters of a literal, above it white space and decimal digits. *)
Definition numeric_char (c : N) : bool :=
  if (c <? 127)%N then literal_char c
  else Py_UNICODE_ISSPACE c
       || match Py_UNICODE_TODECIMAL c with Some _ => true | None => false end.

(** An ASCII character other than the square brackets. *)
Definition plain_char (c : N) : bool :=
  isascii c && negb (c =? open_bracket)%N && negb (c =? close_bracket)%N.

(** A value with a character that no integer literal contains. *)
Definition non_numeric (value : str) : bool :=
  existsb (λ c, negb (numeric_char c)) value.

(** A format whose height is known and at most [h]. *)
Definition height_at_most (h : Z) (f : format_dict) : bool :=
  match f !! py "height" with
  | Some (Int a) => a <=? h
  | _ => false
  end.

(** A format of the container [ext]. *)
Definition ext_is (ext : str) (f : format_dict) : bool :=
  match f !! py "ext" with
  | Some (Text actual) => bool_decide (actual = ext)
  | _ => false
  end.

(** The height of a format, where given, is a number. *)
Definition height_is_number (f : format_dict) : Prop :=
  ∀ s : str, f !! py "height" ≠ Some (Text s).

(** The context with the formats that pass [keep]. *)
Definition offering {R : Type} (keep : format_dict → bool) (ctx : context R)
  : context R :=
  {| formats := List.filter keep (formats ctx); others := others ctx |}.

(** The tree the engine reads line 95 as: a first choice, the merge of a
    video with an audio, and a second choice. *)
Definition format_tree (tier : str) : list FormatSelector :=
  [ PICKFIRST
      (MERGE
         (SINGLE (py "bestvideo")
            [Some (py "height<=" ++ tier); Some (py "ext=mp4")])
         [SINGLE (py "bestaudio") [Some (py "ext=m4a")]]
         [])
      [SINGLE (py "best") [Some (py "ext=mp4")]]
      [] ].

(** The heights of the five tiers. *)
Definition tier_heights : list Z := [2160; 1440; 1080; 720; 480].

(** The options an engine call was made under. *)
Definition engine_options (ev : event) : option options :=
  match ev with
  | YoutubeDL_extract_info opts _ _ => Some opts
  | YoutubeDL_download opts _ => Some opts
  | _ => None
  end.

Definition is_critical (ev : event) : bool :=
  match ev with
  | QMessageBox_critical _ _ => true
  | _ => false
  end.

Definition is_warning (ev : event) : bool :=
  match ev with
  | QMessageBox_warning _ _ => true
  | _ => false
  end.

(** What follows a download request: the success dialog when the engine
    returns, nothing when it fails. *)
Definition after_download {E} (answer : E + Z) : list event :=
  match answer with
  | inr _ => [success_box]
  | inl _ => []
  end.

Definition download_result {E} (answer : E + Z) : result E unit :=
  match answer with
  | inr _ => Ok tt
  | inl e => Raise (CollaboratorError e)
  end.

Definition raises_IndexError {E A} (r : result E A) : bool :=
  match r with
  | Raise IndexError => true
  | _ => false
  end.

Definition ends_in_IndexError {E A} (o : outcome E A) : bool :=
  match o with
  | Raised IndexError => true
  | _ => false
  end.

End Spec.

(** ** Sample inputs *)

Module Samples.

Import builtins yt_dlp Effects format_selection.

(** An interpreter with the default limit of 4300 digits.  The sample URLs
    have an ASCII authority without brackets, so neither library function is
    consulted on them. *)
Definition runtime : Runtime :=
  {| ipaddress_ip_address := λ _, None;
     unicodedata_normalize_NFKC := λ n, n;
     int_max_str_digits := 4300 |}.

Definition item (n : nat) : entry :=
  {| title := py "Video " ++ str_of_int (Z.of_nat n);
     id := py "id" ++ str_of_int (Z.of_nat n);
     url := py "https://youtu.be/item" ++ str_of_int (Z.of_nat n) |}.

(** An engine that answers every inspection with a collection of [n] items
    and completes every download. *)
Definition collection_engine (n : nat) : YoutubeDL unit :=
  {| extract_info := λ _ _ _, inr {| entries := Some (map item (seq 1 n)) |};
     download := λ _ _, inr 0 |}.

(** An engine that answers every inspection with a single item. *)
Definition single_item_engine : YoutubeDL unit :=
  {| extract_info := λ _ _ _, inr {| entries := None |};
     download := λ _ _, inr 0 |}.

Definition playlist_url (index : string) : str :=
  py "https://youtube.com/playlist?list=xyz&index=" ++ py index.

Definition short_url : str := py "https://youtu.be/abc123".

(** A format of the engine: its id, its container, its height when it has
    a picture, and its two codecs, ["none"] for the part it lacks. *)
Definition sample_format (format_id ext : string) (height : option Z)
    (vcodec acodec : string) : format_dict :=
  list_to_map
    ([ (py "format_id", Text (py format_id)); (py "ext", Text (py ext));
       (py "vcodec", Text (py vcodec)); (py "acodec", Text (py acodec)) ]
     ++ match height with
        | Some h => [(py "height", Int h)]
        | None => []
        end).

(** What a site offers, from worst to best. *)
Definition formats_on_offer : list format_dict :=
  [ sample_format "18" "mp4" (Some 360) "avc1" "mp4a";
    sample_format "140" "m4a" None "none" "mp4a";
    sample_format "137" "mp4" (Some 1080) "avc1" "none";
    sample_format "22" "mp4" (Some 720) "avc1" "mp4a";
    sample_format "313" "webm" (Some 2160) "vp9" "none" ].

Definition lacks (codec : string) (f : format_dict) : bool :=
  match f !! py codec with
  | Some (Text actual) => bool_decide (actual = py "none")
  | _ => false
  end.

Definition format_id_of (f : format_dict) : str :=
  match f !! py "format_id" with
  | Some (Text s) => s
  | _ => []
  end.

(** A ranking for the samples: the formats come from worst to best;
    [bestvideo] is the last one without sound, [bestaudio] the last one
    without picture, any other selector the last one with both.  A merge
    is named after its two parts. *)
Definition sample_ranking : Ranking unit :=
  {| single_selector_function := λ format_spec ctx,
       let wanted (f : format_dict) :=
         if bool_decide (format_spec = py "bestvideo")
         then lacks "acodec" f && negb (lacks "vcodec" f)
         else if bool_decide (format_spec = py "bestaudio")
         then lacks "vcodec" f && negb (lacks "acodec" f)
         else negb (lacks "vcodec" f) && negb (lacks "acodec" f) in
       option_list (last (List.filter wanted (formats ctx)));
     _merge := λ format_1 format_2,
       {[ py "format_id"
          := Text (format_id_of format_1 ++ py "+" ++ format_id_of format_2) ]} |}.

End Samples.

(** ** The rest of the script: the progress hook, the prompts, the entry point *)

Module script.

Import builtins Effects youtube_downloader.

(** A value of the engine's progress dict, as far as the hook can tell
    values apart: a [str], or any other object, known by the text that
    formatting it gives. *)
Inductive value :=
  | Str (s : str)
  | Object (shown : str).

(** [v == text] for a [str] literal [text]: an object that is not a [str]
    is not equal to one. *)
Definition equals_str (v : value) (text : str) : bool :=
  match v with
  | Str s => bool_decide (s = text)
  | Object _ => false
  end.

(** The text of [v] inside an f-string. *)
Definition format_value (v : value) : str :=
  match v with
  | Str s => s
  | Object shown => shown
  end.

(** Line 82: the progress line. *)
Definition progress_line (percent speed : value) : str :=
  py "Downloading... " ++ format_value percent
  ++ py " (" ++ format_value speed ++ py ")".

(** Lines 79-82.  The engine calls the hook with its progress dict. *)
Definition progress_hook {E : Type} (d : gmap str value)
  : list event * result E unit :=
  call (
    status ← lift (dict_getitem d (py "status")) ;
    if equals_str status (py "downloading") then
      percent ← lift (dict_getitem d (py "_percent_str")) ;
      speed ← lift (dict_getitem d (py "_speed_str")) ;
      emit (console_print (progress_line percent speed))
    else mret tt
  ).

(** The person at the desk: shown an [InputDialog] with a title, a message
    and a default text, they leave it accepted or not ([dialog.exec()]),
    with some text in the box ([dialog.get_input()]). *)
Class Desktop := {
  InputDialog_exec : str → str → str → bool * str
}.

(** What the script does, in program order: the prompts it shows and the
    events of [download_video]. *)
Inductive script_event :=
  | InputDialog_shown (title message default_text : str)
  | planner (ev : event).

(** How [get_video_url] ends: with the text entered, or in [sys.exit()]. *)
Inductive prompt_result :=
  | Entered (text : str)
  | SystemExit.

(** Lines 124-129. *)
Definition get_video_url `{Desktop} : list script_event * prompt_result :=
  let title := py "YouTube Downloader" in
  let message := py "Enter the YouTube video URL:" in
  let '(accepted, text) := InputDialog_exec title message [] in
  ([InputDialog_shown title message []],
   if accepted then Entered text else SystemExit).

(** Lines 132-137. *)
Definition get_video_quality `{Desktop} : list script_event * str :=
  let title := py "Select Quality" in
  let message := py "Choose a video quality (2160, 1440, 1080, 720, 480):" in
  let '(accepted, text) := InputDialog_exec title message (py "2160") in
  ([InputDialog_shown title message (py "2160")],
   if accepted then text else py "2160").

(** How the script ends: it runs to its last line, it exits through
    [sys.exit()], or an exception reaches the top. *)
Inductive ending (E : Type) : Type :=
  | Finished
  | Exited
  | Uncaught (e : exception E).
Arguments Finished {E}.
Arguments Exited {E}.
Arguments Uncaught {E} e.

(** Lines 140-145: the script.  [QApplication(sys.argv)] sets the toolkit
    up and has no part in what follows.  [download_video] gets no
    [save_path], so its default ["."] is in force. *)
Definition main `{Runtime} `{Desktop} {E : Type} `{yt_dlp.YoutubeDL E}
  : list script_event * ending E :=
  let '(t_url, answer) := get_video_url in
  match answer with
  | SystemExit => (t_url, Exited)
  | Entered video_url =>
      let '(t_quality, video_quality) := get_video_quality in
      let '(t_download, r) :=
        download_video video_url video_quality (py ".") in
      (t_url ++ t_quality ++ map planner t_download,
       match r with
       | Ok _ => Finished
       | Raise e => Uncaught e
       end)
  end.

End script.

(** ** More vocabulary and samples *)

Module Observations.

Import yt_dlp Effects script.

(** The characters [urlsplit] removes wherever they stand: tab, line feed,
    carriage return. *)
Definition is_line_break (c : N) : bool :=
  (c =? 9)%N || (c =? 13)%N || (c =? 10)%N.

(** The inspections of a trace: the URL and the [download] flag of each. *)
Definition inspections (t : list event) : list (str * bool) :=
  omap (λ ev, match ev with
              | YoutubeDL_extract_info _ video_url dl => Some (video_url, dl)
              | _ => None
              end) t.

Definition is_success_box (ev : event) : bool :=
  match ev with
  | StyledMessageBox_exec _ _ _ => true
  | _ => false
  end.

Definition is_engine_call (ev : event) : bool :=
  match ev with
  | YoutubeDL_extract_info _ _ _ => true
  | YoutubeDL_download _ _ => true
  | _ => false
  end.

Definition is_print (ev : event) : bool :=
  match ev with
  | console_print _ => true
  | _ => false
  end.

(** The events of [download_video] in a trace of the script. *)
Definition planner_events (t : list script_event) : list event :=
  omap (λ ev, match ev with
              | planner ev => Some ev
              | InputDialog_shown _ _ _ => None
              end) t.

(** The prompts of a trace of the script, by their default text. *)
Definition prompts (t : list script_event) : list str :=
  omap (λ ev, match ev with
              | InputDialog_shown _ _ default_text => Some default_text
              | planner _ => None
              end) t.

(** A person who answers the URL prompt and the quality prompt: with a
    text to confirm it, with nothing to dismiss it. *)
Definition person (video_url quality : option str) : Desktop :=
  {| InputDialog_exec := λ title _ default_text,
       let answer :=
         if bool_decide (title = py "YouTube Downloader")
         then video_url else quality in
       match answer with
       | Some text => (true, text)
       | None => (false, default_text)
       end |}.

(** An engine whose inspection fails. *)
Definition offline_engine : YoutubeDL unit :=
  {| extract_info := λ _ _ _, inl tt;
     download := λ _ _, inl tt |}.

(** An engine that inspects a collection of [n] items and fails every
    download. *)
Definition failing_engine (n : nat) : YoutubeDL unit :=
  {| extract_info := λ _ _ _,
       inr {| entries := Some (map Samples.item (seq 1 n)) |};
     download := λ _ _, inl tt |}.

Section Runs.

Import youtube_downloader Spec.

Context `{Runtime} {E : Type} `{YoutubeDL E}.

(** The five ways a run of [download_video] can go, each with the trace
    and the result it leaves. *)
Inductive run_path (video_url q save_path : str)
  : list event * result E unit → Prop :=
  | index_rejected :
      extract_index_from_url (E:=E) video_url = Raise ValueError →
      run_path video_url q save_path ([], Raise ValueError)
  | inspection_failed (index : option Z) (tq : list event) (q' : str) (e : E) :
      extract_index_from_url (E:=E) video_url = Ok index →
      selectQuality (E:=E) q = (tq, Normal q') →
      extract_info (ydl_opts q' save_path) video_url false = inl e →
      run_path video_url q save_path
        ( tq ++ [ YoutubeDL_extract_info (ydl_opts q' save_path) video_url false ],
          Raise (CollaboratorError e) )
  | item_requested (index : Z) (tq : list event) (q' : str)
      (info : info_dict) (info_entries : list entry) (entry : yt_dlp.entry) :
      extract_index_from_url (E:=E) video_url = Ok (Some index) →
      selectQuality (E:=E) q = (tq, Normal q') →
      extract_info (ydl_opts q' save_path) video_url false = inr info →
      entries info = Some info_entries →
      1 ≤ index ≤ Z.of_nat (length info_entries) →
      info_entries !! Z.to_nat (index - 1) = Some entry →
      run_path video_url q save_path
        ( tq ++ [ YoutubeDL_extract_info (ydl_opts q' save_path) video_url false;
                  console_print (playlist_detected index);
                  console_print (downloading entry);
                  YoutubeDL_download (ydl_opts q' save_path) [url entry] ]
             ++ after_download (download (ydl_opts q' save_path) [url entry]),
          download_result (download (ydl_opts q' save_path) [url entry]) )
  | index_out_of_range (index : Z) (tq : list event) (q' : str)
      (info : info_dict) (info_entries : list entry) :
      extract_index_from_url (E:=E) video_url = Ok (Some index) →
      selectQuality (E:=E) q = (tq, Normal q') →
      extract_info (ydl_opts q' save_path) video_url false = inr info →
      entries info = Some info_entries →
      ¬ (1 ≤ index ≤ Z.of_nat (length info_entries)) →
      run_path video_url q save_path
        ( tq ++ [ YoutubeDL_extract_info (ydl_opts q' save_path) video_url false;
                  console_print (playlist_detected index);
                  QMessageBox_critical (py "Error") (out_of_range index) ],
          Ok tt )
  | url_requested (index : option Z) (tq : list event) (q' : str)
      (info : info_dict) :
      extract_index_from_url (E:=E) video_url = Ok index →
      selectQuality (E:=E) q = (tq, Normal q') →
      extract_info (ydl_opts q' save_path) video_url false = inr info →
      entries info = None ∨ index = None →
      run_path video_url q save_path
        ( tq ++ [ YoutubeDL_extract_info (ydl_opts q' save_path) video_url false;
                  console_print single_video_detected;
                  YoutubeDL_download (ydl_opts q' save_path) [video_url] ]
             ++ after_download (download (ydl_opts q' save_path) [video_url]),
          download_result (download (ydl_opts q' save_path) [video_url]) ).

End Runs.

End Observations.

(** ** Tactics *)

(** Case analysis on a digit value [v] known to be below ten. *)
Ltac each_digit v Hv :=
  let Hcases := fresh "Hcases" in
  assert (v = 0 ∨ v = 1 ∨ v = 2 ∨ v = 3 ∨ v = 4 ∨ v = 5 ∨ v = 6 ∨ v = 7
          ∨ v = 8 ∨ v = 9)%N as Hcases by lia;
  clear Hv;
  destruct Hcases as [->|[->|[->|[->|[->|[->|[->|[->|[->| ->]]]]]]]]].
(** ** Facts about the runtime functions *)

Section RuntimeFacts.

Import builtins urllib_parse Spec.

Context `{Runtime} {E : Type}.

Lemma parse_qsl_split (qs : str) :
  parse_qsl qs = omap parse_qsl_field (split ampersand qs).
Proof. unfold parse_qsl. by destruct qs. Qed.

(** Folding pairs into a dict appends, under each name, the values the pairs
    give it. *)
Lemma parse_qs_fold_lookup (pairs : list (str * str))
    (m : gmap str (list str)) (name : str) :
  fold_left parse_qs_add pairs m !! name =
  match values_of name pairs with
  | [] => m !! name
  | vs => Some (default [] (m !! name) ++ vs)
  end.
Proof.
  revert m. induction pairs as [|[n v] pairs IH]; intros m; [done|].
  cbn [fold_left]. rewrite IH. unfold values_of. cbn [omap list_omap].
  fold (values_of name pairs).
  case_bool_decide as Hn.
  - subst n. unfold parse_qs_add.
    destruct (m !! name) as [old|] eqn:Hm; rewrite lookup_insert_eq; cbn;
      destruct (values_of name pairs); cbn; try done.
    by rewrite <- app_assoc.
  - assert (parse_qs_add m (n, v) !! name = m !! name) as ->; [|done].
    unfold parse_qs_add. destruct (m !! n); by rewrite lookup_insert_ne.
Qed.

Lemma parse_qs_lookup (qs name : str) :
  parse_qs qs !! name =
  match query_values name qs with
  | [] => None
  | vs => Some vs
  end.
Proof.
  unfold parse_qs, query_values. rewrite parse_qs_fold_lookup, lookup_empty.
  by destruct (values_of name (parse_qsl qs)).
Qed.

Lemma values_of_app (name : str) (ps qs : list (str * str)) :
  values_of name (ps ++ qs) = values_of name ps ++ values_of name qs.
Proof. unfold values_of. apply omap_app. Qed.

Lemma values_of_no_index_field (fields : list str) :
  Forall (λ f, is_index_field f = false) fields →
  values_of (py "index") (omap parse_qsl_field fields) = [].
Proof.
  induction 1 as [|f fields Hf _ IH]; [done|].
  cbn [omap list_omap]. unfold is_index_field in Hf.
  destruct (parse_qsl_field f) as [[n v]|]; [|done].
  unfold values_of in *. cbn [omap list_omap]. by rewrite Hf.
Qed.

Lemma query_values_nil (qs : str) :
  Forall (λ f, is_index_field f = false) (split ampersand qs) →
  query_values (py "index") qs = [].
Proof.
  intros Hno. unfold query_values. rewrite parse_qsl_split.
  by apply values_of_no_index_field.
Qed.

(** The first field that names [index] decides the first value. *)
Lemma query_values_first (qs : str) (before after : list str) (f v : str) :
  split ampersand qs = before ++ f :: after →
  Forall (λ f, is_index_field f = false) before →
  parse_qsl_field f = Some (py "index", v) →
  query_values (py "index") qs
  = v :: values_of (py "index") (omap parse_qsl_field after).
Proof.
  intros Hsplit Hbefore Hf. unfold query_values.
  rewrite parse_qsl_split, Hsplit, omap_app, values_of_app.
  rewrite values_of_no_index_field by done.
  cbn [omap list_omap app]. rewrite Hf. done.
Qed.

Lemma unquote_plain (s : str) : contains percent s = false → unquote s = s.
Proof. intros Hs. unfold unquote. by rewrite Hs. Qed.

Lemma replace_absent (c d : N) (s : str) :
  contains c s = false → replace c d s = s.
Proof.
  unfold contains, replace. induction s as [|x s IH]; [done|].
  cbn. intros [Hx Hs]%orb_false_elim. rewrite IH by done.
  rewrite N.eqb_sym, Hx. done.
Qed.

(** A field [index=v] whose value has no escape and no plus sign gives the
    parameter [index] the value [v] itself. *)
Lemma parse_qsl_field_index (v : str) :
  v ≠ [] → contains plus v = false → contains percent v = false →
  parse_qsl_field (py "index=" ++ v) = Some (py "index", v).
Proof.
  intros Hv Hplus Hpercent. unfold parse_qsl_field.
  change (partition equals (py "index=" ++ v)) with (Some (py "index", v)).
  change (py "index=" ++ v) with (105%N :: (py "ndex=" ++ v)).
  cbn iota. destruct v as [|c v]; [done|].
  rewrite (replace_absent plus space (c :: v)) by done.
  rewrite (unquote_plain (c :: v)) by done. done.
Qed.

(** *** Decimal numerals *)

Lemma py_string_of_uint (d : Decimal.uint) :
  py (NilEmpty.string_of_uint d) = map ascii_digit_of (uint_digits d).
Proof. induction d; cbn; [done | by f_equal ..]. Qed.

Lemma uint_digits_lt (d : Decimal.uint) :
  Forall (λ v, v < 10)%N (uint_digits d).
Proof. induction d; cbn; constructor; (lia || done). Qed.

Lemma of_uint_acc_fold (d : Decimal.uint) (acc : positive) :
  Npos (Pos.of_uint_acc d acc) =
  fold_left (λ a v, 10 * a + v)%N (uint_digits d) (Npos acc).
Proof.
  revert acc.
  induction d; intros acc; cbn [Pos.of_uint_acc uint_digits fold_left];
    [done | rewrite IHd; f_equal; lia ..].
Qed.

Lemma of_uint_fold (d : Decimal.uint) :
  Pos.of_uint d = digits_value (uint_digits d).
Proof.
  unfold digits_value.
  induction d; cbn [Pos.of_uint uint_digits fold_left]; [done | ..];
    try (rewrite of_uint_acc_fold; f_equal; lia).
  by rewrite IHd.
Qed.

Lemma scan_digits_numeral (ds : list N) (prev : N) :
  Forall (λ v, v < 10)%N ds → ds ≠ [] ∨ prev ≠ underscore →
  scan_digits prev (map ascii_digit_of ds) = Some (ds, []).
Proof.
  intros Hds. revert prev. induction Hds as [|v ds Hv Hds IH]; intros prev Hp.
  - destruct Hp as [?|Hp]; [done|]. cbn. by rewrite (proj2 (N.eqb_neq _ _) Hp).
  - cbn [map scan_digits].
    assert (is_ascii_digit (ascii_digit_of v) = true) as ->.
    { unfold is_ascii_digit, in_range, ascii_digit_of.
      apply andb_true_intro; split; apply N.leb_le; lia. }
    rewrite IH.
    + do 3 f_equal. unfold ascii_digit_of. lia.
    + right. unfold underscore, ascii_digit_of. lia.
Qed.

Lemma transform_ascii (s : str) :
  Forall (λ c, c < 127)%N s → _PyUnicode_TransformDecimalAndSpaceToASCII s = s.
Proof.
  induction 1 as [|c s Hc _ IH]; [done|]. cbn.
  rewrite (proj2 (N.ltb_lt _ _) Hc). by rewrite IH.
Qed.

Lemma digit_not_space (v : N) (rest : str) :
  (v < 10)%N →
  drop_while Py_ISSPACE (ascii_digit_of v :: rest) = ascii_digit_of v :: rest.
Proof. intros Hv. each_digit v Hv; done. Qed.

Lemma digit_not_sign (v : N) (rest : str) :
  (v < 10)%N →
  sign_of (ascii_digit_of v :: rest) = (false, ascii_digit_of v :: rest).
Proof. intros Hv. each_digit v Hv; done. Qed.

Lemma digit_not_underscore (v : N) (rest : str) :
  (v < 10)%N → startswith underscore (ascii_digit_of v :: rest) = false.
Proof.
  intros Hv. cbn. apply N.eqb_neq. unfold ascii_digit_of, underscore. lia.
Qed.

Lemma long_from_digits_numeral (negative : bool) (ds : list N) :
  Forall (λ v, v < 10)%N ds → ds ≠ [] →
  exceeds_max_str_digits (length ds) = false →
  long_from_digits (E:=E) negative (map ascii_digit_of ds)
  = Ok (if negative then - Z.of_N (digits_value ds)
        else Z.of_N (digits_value ds)).
Proof.
  intros Hds Hne Hlim. unfold long_from_digits.
  rewrite scan_digits_numeral by (done || by left). rewrite Hlim.
  destruct ds as [|v ds]; [done|]. cbn [map].
  by rewrite digit_not_underscore by apply (Forall_inv Hds).
Qed.

Lemma PyLong_FromString_numeral (negative : bool) (ds : list N) :
  Forall (λ v, v < 10)%N ds → ds ≠ [] →
  exceeds_max_str_digits (length ds) = false →
  PyLong_FromString (E:=E)
    ((if negative then [45%N] else []) ++ map ascii_digit_of ds)
  = Ok (if negative then - Z.of_N (digits_value ds)
        else Z.of_N (digits_value ds)).
Proof.
  intros Hds Hne Hlim. unfold PyLong_FromString.
  destruct negative; cbn [app].
  - change (drop_while Py_ISSPACE (45%N :: map ascii_digit_of ds))
      with (45%N :: map ascii_digit_of ds).
    cbn [sign_of]. by apply long_from_digits_numeral.
  - destruct ds as [|v ds]; [done|]. cbn [map].
    rewrite digit_not_space, digit_not_sign by apply (Forall_inv Hds).
    by apply (long_from_digits_numeral false (v :: ds)).
Qed.

Lemma numeral_value (z : Z) :
  digits_value (uint_digits (numeral z)) = Z.to_N (Z.abs z).
Proof.
  rewrite <- of_uint_fold.
  destruct z; cbn; [done | apply Unsigned.of_to | apply Unsigned.of_to].
Qed.

Lemma numeral_nonnil (z : Z) : uint_digits (numeral z) ≠ [].
Proof.
  destruct z as [|p|p]; cbn; [done | ..];
    intros Hnil; pose proof (Unsigned.of_to p) as Hp;
    rewrite of_uint_fold, Hnil in Hp; done.
Qed.

Lemma str_of_int_numeral (z : Z) :
  str_of_int z
  = (if z <? 0 then [45%N] else []) ++ map ascii_digit_of (uint_digits (numeral z)).
Proof.
  unfold str_of_int.
  destruct z as [|p|p];
    cbn [Z.to_int NilZero.string_of_int Z.ltb Z.compare numeral app];
    [done | ..];
    rewrite <- py_string_of_uint; unfold NilZero.string_of_uint;
    (destruct (Pos.to_uint p) eqn:Hp; try done);
    pose proof (numeral_nonnil (Z.pos p)) as Hn; cbn in Hn; by rewrite Hp in Hn.
Qed.

Lemma decimal_digits_numeral (z : Z) :
  decimal_digits z = length (uint_digits (numeral z)).
Proof.
  unfold decimal_digits. rewrite str_of_int_numeral.
  assert ((Z.abs z <? 0) = false) as -> by (apply Z.ltb_ge; lia).
  cbn [app]. rewrite length_map. by destruct z.
Qed.

Lemma str_of_int_chars (z : Z) :
  Forall (λ c, (c = 45)%N ∨ (48 ≤ c ≤ 57)%N) (str_of_int z).
Proof.
  rewrite str_of_int_numeral. apply Forall_app. split.
  - destruct (z <? 0); repeat constructor.
  - apply Forall_map. eapply Forall_impl; [apply uint_digits_lt|].
    intros v Hv. unfold ascii_digit_of. cbn in *. lia.
Qed.

Lemma str_of_int_nonempty (z : Z) : str_of_int z ≠ [].
Proof.
  rewrite str_of_int_numeral. pose proof (numeral_nonnil z) as Hn.
  destruct (uint_digits (numeral z)); [done|]. by destruct (z <? 0).
Qed.

Lemma str_of_int_lacks (c : N) (z : Z) :
  c ≠ 45%N → ¬ (48 ≤ c ≤ 57)%N → contains c (str_of_int z) = false.
Proof.
  intros H1 H2. unfold contains.
  pose proof (str_of_int_chars z) as Hz.
  induction Hz as [|x s Hx _ IH]; [done|]. cbn. rewrite IH, orb_false_r.
  apply N.eqb_neq. lia.
Qed.

(** [int] inverts [str]: parsing the decimal numeral of [z] gives [z]
    back, whatever its sign, as long as the numeral passes the limit on
    digits. *)
Lemma int_str_of_int (z : Z) :
  fits_int_max_str_digits z → int (E:=E) (str_of_int z) = Ok z.
Proof.
  unfold fits_int_max_str_digits. rewrite decimal_digits_numeral. intros Hlim.
  unfold int. rewrite transform_ascii.
  - rewrite str_of_int_numeral.
    rewrite PyLong_FromString_numeral;
      [| apply uint_digits_lt | apply numeral_nonnil | done].
    rewrite numeral_value. f_equal.
    destruct (z <? 0) eqn:Hz; [apply Z.ltb_lt in Hz | apply Z.ltb_ge in Hz]; lia.
  - eapply Forall_impl; [apply str_of_int_chars|]. cbn. lia.
Qed.

Lemma parse_qsl_field_index_numeral (z : Z) :
  parse_qsl_field (py "index=" ++ str_of_int z) = Some (py "index", str_of_int z).
Proof.
  apply parse_qsl_field_index.
  - apply str_of_int_nonempty.
  - apply str_of_int_lacks; unfold plus; lia.
  - apply str_of_int_lacks; unfold percent; lia.
Qed.

End RuntimeFacts.

(** ** What [int] and [urlparse] reject *)

Section Rejections.

Import builtins urllib_parse Spec.

Context `{Runtime} {E : Type}.

Lemma drop_while_nil (p : N → bool) (s : str) :
  drop_while p s = [] → Forall (λ c, p c = true) s.
Proof.
  induction s as [|c s IH]; [done|]. cbn.
  destruct (p c) eqn:Hc; [|done]. intros Hs. constructor; auto.
Qed.

Lemma drop_while_suffix (p : N → bool) (s : str) :
  ∃ pre, s = pre ++ drop_while p s ∧ Forall (λ c, p c = true) pre.
Proof.
  induction s as [|c s (pre & Hs & Hpre)]; [by exists []|]. cbn.
  destruct (p c) eqn:Hc; [|by exists []].
  exists (c :: pre). split; [cbn; congruence | by constructor].
Qed.

Lemma literal_char_space (c : N) : Py_ISSPACE c = true → literal_char c = true.
Proof. unfold literal_char. by intros ->. Qed.

Lemma literal_char_digit (c : N) : is_ascii_digit c = true → literal_char c = true.
Proof. unfold literal_char. intros ->. by rewrite orb_true_r. Qed.

(** The scan consumes digits and underscores only. *)
Lemma scan_digits_consumed (s : str) (prev : N) (ds : list N) (rest : str) :
  scan_digits prev s = Some (ds, rest) →
  ∃ pre, s = pre ++ rest ∧ Forall (λ c, literal_char c = true) pre.
Proof.
  revert prev ds. induction s as [|c s IH]; intros prev ds; cbn.
  - destruct (prev =? underscore)%N; [done|]. intros [= <- <-]. by exists [].
  - destruct (is_ascii_digit c) eqn:Hd.
    + destruct (scan_digits c s) as [[ds' rest']|] eqn:Hs; [|done].
      intros [= <- <-]. destruct (IH _ _ Hs) as (pre & -> & Hpre).
      exists (c :: pre). split; [done|]. constructor; [|done].
      by apply literal_char_digit.
    + destruct (c =? underscore)%N eqn:Hu.
      * destruct (prev =? underscore)%N; [done|]. intros Hs.
        destruct (IH _ _ Hs) as (pre & -> & Hpre).
        exists (c :: pre). split; [done|]. constructor; [|done].
        unfold literal_char. rewrite Hu. by rewrite !orb_true_r.
      * destruct (prev =? underscore)%N; [done|]. intros [= <- <-]. by exists [].
Qed.

Lemma sign_of_cases (s : str) :
  (sign_of s).2 = s
  ∨ ∃ c, literal_char c = true ∧ s = c :: (sign_of s).2.
Proof.
  destruct s as [|c s]; [by left|]. cbn.
  destruct (c =? 43)%N eqn:H43.
  { right. exists c. split; [|done]. unfold literal_char. rewrite H43.
    by rewrite !orb_true_r. }
  destruct (c =? 45)%N eqn:H45; [|by left].
  right. exists c. split; [|done]. unfold literal_char. rewrite H45.
  by rewrite !orb_true_r.
Qed.

Lemma long_from_digits_literal (negative : bool) (s : str) (z : Z) :
  long_from_digits (E:=E) negative s = Ok z →
  Forall (λ c, literal_char c = true) s.
Proof.
  unfold long_from_digits. destruct (startswith underscore s); [done|].
  destruct (scan_digits 0 s) as [[ds rest]|] eqn:Hscan; [|done].
  destruct (exceeds_max_str_digits (length ds)); [done|].
  destruct ds as [|d ds]; [done|].
  destruct (drop_while Py_ISSPACE rest) eqn:Hrest; [|done]. intros _.
  destruct (scan_digits_consumed _ _ _ _ Hscan) as (pre & -> & Hpre).
  apply Forall_app. split; [done|].
  eapply Forall_impl; [by apply drop_while_nil|]. apply literal_char_space.
Qed.

(** A buffer that [PyLong_FromString] accepts is made of literal characters. *)
Lemma PyLong_FromString_literal (buffer : str) (z : Z) :
  PyLong_FromString (E:=E) buffer = Ok z →
  Forall (λ c, literal_char c = true) buffer.
Proof.
  unfold PyLong_FromString.
  destruct (drop_while_suffix Py_ISSPACE buffer) as (pre & Hb & Hpre).
  destruct (sign_of (drop_while Py_ISSPACE buffer)) as [negative s] eqn:Hsign.
  intros Hs%long_from_digits_literal. rewrite Hb. apply Forall_app. split.
  - eapply Forall_impl; [done|]. apply literal_char_space.
  - destruct (sign_of_cases (drop_while Py_ISSPACE buffer)) as [Hc|(c & Hc & Hd)];
      rewrite Hsign in *; cbn in *.
    + by rewrite <- Hc.
    + rewrite Hd. by constructor.
Qed.

Lemma transform_numeric (u : str) :
  Forall (λ c, literal_char c = true)
    (_PyUnicode_TransformDecimalAndSpaceToASCII u) →
  Forall (λ c, numeric_char c = true) u.
Proof.
  induction u as [|ch u IH]; [done|]. cbn. intros Hbuf.
  assert (numeric_char ch = true ∧
          Forall (λ c, literal_char c = true)
            (_PyUnicode_TransformDecimalAndSpaceToASCII u)) as [Hch Hu].
  { unfold numeric_char. destruct (ch <? 127)%N.
    { by apply Forall_cons in Hbuf. }
    destruct (Py_UNICODE_ISSPACE ch).
    { by apply Forall_cons in Hbuf as [_ ?]. }
    destruct (Py_UNICODE_TODECIMAL ch).
    { by apply Forall_cons in Hbuf as [_ ?]. }
    by apply Forall_cons in Hbuf as [? _]. }
  constructor; auto.
Qed.

(** Every failure of [int] is a [ValueError]. *)
Lemma int_raises_ValueError (s : str) (e : exception E) :
  int s = Raise e → e = ValueError.
Proof.
  unfold int, PyLong_FromString, long_from_digits.
  repeat case_match; congruence.
Qed.

(** [int] rejects every text with a character that no literal contains. *)
Lemma int_non_numeric (value : str) :
  non_numeric value = true → int (E:=E) value = Raise ValueError.
Proof.
  intros Hnn. destruct (int value) as [z|e] eqn:Hint.
  - apply PyLong_FromString_literal, transform_numeric in Hint.
    unfold non_numeric in Hnn. apply existsb_exists in Hnn as (c & Hc & Hn).
    rewrite Forall_forall in Hint. apply list_elem_of_In, Hint in Hc.
    by rewrite Hc in Hn.
  - by rewrite (int_raises_ValueError _ _ Hint).
Qed.

Lemma _check_bracketed_host_raises (hostname : str) (e : exception E) :
  _check_bracketed_host hostname = Raise e → e = ValueError.
Proof. unfold _check_bracketed_host. repeat case_match; congruence. Qed.

Lemma _check_bracketed_netloc_raises (netloc : str) (e : exception E) :
  _check_bracketed_netloc netloc = Raise e → e = ValueError.
Proof.
  unfold _check_bracketed_netloc.
  repeat case_match; try congruence; apply _check_bracketed_host_raises.
Qed.

Lemma _checknetloc_raises (netloc : str) (e : exception E) :
  _checknetloc netloc = Raise e → e = ValueError.
Proof. unfold _checknetloc. repeat case_match; congruence. Qed.

Lemma split_authority_raises (url : str) (e : exception E) :
  split_authority url = Raise e → e = ValueError.
Proof.
  unfold split_authority.
  repeat match goal with
  | |- context [_check_bracketed_netloc ?n] =>
      let Hc := fresh in
      destruct (_check_bracketed_netloc n) eqn:Hc;
      [| apply _check_bracketed_netloc_raises in Hc; subst ]
  | _ => progress cbn [bind]
  | _ => case_match
  end; congruence.
Qed.

(** Every failure of [urlparse] is a [ValueError]. *)
Lemma urlparse_raises_ValueError (url : str) (e : exception E) :
  urlparse url = Raise e → e = ValueError.
Proof.
  unfold urlparse, urlsplit.
  repeat match goal with
  | |- context [split_authority ?u] =>
      let Hc := fresh in
      destruct (split_authority u) eqn:Hc;
      [| apply split_authority_raises in Hc; subst ]
  | |- context [_checknetloc ?n] =>
      let Hc := fresh in
      destruct (_checknetloc n) eqn:Hc;
      [| apply _checknetloc_raises in Hc; subst ]
  | _ => progress cbn [bind]
  | _ => case_match
  end; congruence.
Qed.

End Rejections.

(** ** URLs that [urlparse] accepts *)

Section PlainUrls.

Import builtins urllib_parse Spec.

Context `{Runtime} {E : Type}.

Lemma Forall_drop_while (P : N → Prop) (p : N → bool) (s : str) :
  Forall P s → Forall P (drop_while p s).
Proof.
  induction 1 as [|c s Hc Hs IH]; [done|]. cbn.
  destruct (p c); [done | by constructor].
Qed.

Lemma Forall_take_while (P : N → Prop) (p : N → bool) (s : str) :
  Forall P s → Forall P (take_while p s).
Proof.
  induction 1 as [|c s Hc Hs IH]; [done|]. cbn.
  destruct (p c); [by constructor | done].
Qed.

Lemma Forall_remove (P : N → Prop) (c : N) (s : str) :
  Forall P s → Forall P (remove c s).
Proof.
  rewrite !Forall_forall. intros Hs x Hx. apply Hs.
  unfold remove in Hx. by apply list_elem_of_filter in Hx as [_ ?].
Qed.

Lemma Forall_partition (P : N → Prop) (c : N) (s a b : str) :
  partition c s = Some (a, b) → Forall P s → Forall P a ∧ Forall P b.
Proof.
  revert a b. induction s as [|x s IH]; intros a b; [done|]. cbn.
  destruct (x =? c)%N.
  - intros [= <- <-] [_ Hs]%Forall_cons. by split.
  - destruct (partition c s) as [[a' b']|]; [|done].
    intros [= <- <-] [Hx Hs]%Forall_cons.
    destruct (IH _ _ eq_refl Hs). split; [by constructor | done].
Qed.

Lemma contains_false (c : N) (s : str) :
  Forall (λ x, x ≠ c) s → contains c s = false.
Proof.
  unfold contains. induction 1 as [|x s Hx _ IH]; [done|]. cbn.
  rewrite IH, orb_false_r. apply N.eqb_neq. congruence.
Qed.

Lemma split_scheme_plain (P : N → Prop) (url : str) :
  Forall P url → Forall P (split_scheme url).2.
Proof.
  intros Hurl. unfold split_scheme.
  destruct (partition colon url) as [[[|c before] after]|] eqn:Hpart; [done| |done].
  destruct (_ && _); [|done].
  by destruct (Forall_partition P _ _ _ _ Hpart Hurl).
Qed.

(** The authority is a piece of the URL; without brackets in it nothing
    is checked. *)
Lemma split_authority_plain (url : str) :
  Forall (λ c, plain_char c = true) url →
  ∃ netloc rest,
    split_authority (E:=E) url = Ok (netloc, rest)
    ∧ Forall (λ c, plain_char c = true) netloc.
Proof.
  intros Hurl. unfold split_authority.
  case_bool_decide; [|by exists [], url].
  unfold _splitnetloc.
  set (netloc := take_while _ _).
  assert (Forall (λ c, plain_char c = true) netloc) as Hn.
  { apply Forall_take_while. by apply Forall_drop. }
  exists netloc, (drop_while (λ c, negb (is_netloc_delimiter c)) (drop 2 url)).
  split; [|done].
  rewrite !contains_false; [done | ..];
    (eapply Forall_impl; [exact Hn|]); intros c; unfold plain_char;
    intros [[_ Ho]%andb_prop Hc]%andb_prop; intros ->; done.
Qed.

Lemma _checknetloc_plain (netloc : str) :
  Forall (λ c, plain_char c = true) netloc → _checknetloc (E:=E) netloc = Ok tt.
Proof.
  intros Hn. unfold _checknetloc. destruct netloc as [|c netloc]; [done|].
  rewrite (proj2 (forallb_forall _ _)); [done|].
  intros x Hx%list_elem_of_In. rewrite Forall_forall in Hn. apply Hn in Hx.
  unfold plain_char in Hx. by apply andb_prop in Hx as [[? _]%andb_prop _].
Qed.

Lemma urlsplit_plain (url : str) :
  Forall (λ c, plain_char c = true) url → ∃ sr, urlsplit (E:=E) url = Ok sr.
Proof.
  intros Hurl. unfold urlsplit.
  assert (Forall (λ c, plain_char c = true)
            (remove 10 (remove 13 (remove 9
               (drop_while _WHATWG_C0_CONTROL_OR_SPACE url))))) as Hurl1.
  { by do 3 apply Forall_remove; apply Forall_drop_while. }
  apply (split_scheme_plain _ _) in Hurl1.
  destruct (split_scheme _) as [scheme url2]. cbn [snd] in Hurl1.
  destruct (split_authority_plain url2 Hurl1) as (netloc & url3 & -> & Hn).
  cbn [bind]. rewrite (_checknetloc_plain _ Hn). cbn [bind].
  destruct (partition hash url3) as [[u f]|];
    destruct (partition question _) as [[u' q]|]; eauto.
Qed.

(** [urlparse] accepts every URL made of ASCII characters other than the
    square brackets. *)
Lemma urlparse_plain (url : str) :
  Forall (λ c, plain_char c = true) url → ∃ r, urlparse (E:=E) url = Ok r.
Proof.
  intros Hurl. unfold urlparse.
  destruct (urlsplit_plain url Hurl) as (sr & ->). cbn [bind].
  destruct (_ && _); [destruct (_splitparams _)|]; eauto.
Qed.

(** *** Where the query of a plain URL starts *)

Lemma partition_app (c : N) (a b : str) :
  partition c (a ++ b) =
  match partition c a with
  | Some (x, y) => Some (x, y ++ b)
  | None =>
      match partition c b with
      | Some (x, y) => Some (a ++ x, y)
      | None => None
      end
  end.
Proof.
  induction a as [|x a IH]; cbn.
  - by destruct (partition c b) as [[? ?]|].
  - destruct (x =? c)%N; [done|]. rewrite IH.
    destruct (partition c a) as [[? ?]|]; [done|].
    by destruct (partition c b) as [[? ?]|].
Qed.

Lemma partition_absent (c : N) (s : str) :
  contains c s = false → partition c s = None.
Proof.
  unfold contains. induction s as [|x s IH]; [done|]. cbn.
  intros [Hx Hs]%orb_false_elim. rewrite N.eqb_sym, Hx. by rewrite IH.
Qed.

Lemma contains_app (c : N) (a b : str) :
  contains c (a ++ b) = contains c a || contains c b.
Proof. unfold contains. apply existsb_app. Qed.

Lemma contains_partition (c d : N) (s a b : str) :
  partition d s = Some (a, b) → contains c s = false →
  contains c a = false ∧ contains c b = false.
Proof.
  revert a b. unfold contains. induction s as [|x s IH]; intros a b; [done|]. cbn.
  destruct (x =? d)%N.
  - intros [= <- <-] [_ Hs]%orb_false_elim. by split.
  - destruct (partition d s) as [[a' b']|]; [|done].
    intros [= <- <-] [Hx Hs]%orb_false_elim.
    destruct (IH _ _ eq_refl Hs) as [Ha Hb]. cbn. by rewrite Hx, Ha, Hb.
Qed.

Lemma remove_absent (c : N) (s : str) :
  contains c s = false → remove c s = s.
Proof.
  unfold contains, remove. induction s as [|x s IH]; [done|].
  cbn [existsb]. intros [Hx Hs]%orb_false_elim. rewrite filter_cons.
  destruct (decide (x ≠ c)) as [_|Hxc].
  - by rewrite IH.
  - apply N.eqb_neq in Hx. destruct Hxc. congruence.
Qed.

Lemma contains_drop_while (c : N) (p : N → bool) (s : str) :
  contains c s = false → contains c (drop_while p s) = false.
Proof.
  unfold contains. induction s as [|x s IH]; [done|]. cbn.
  intros [Hx Hs]%orb_false_elim. destruct (p x); [auto|]. cbn. by rewrite Hx, Hs.
Qed.

Lemma drop_while_app (p : N → bool) (a : str) (x : N) (b : str) :
  p x = false → drop_while p (a ++ x :: b) = drop_while p a ++ x :: b.
Proof.
  intros Hx. induction a as [|y a IH]; cbn; [by rewrite Hx|].
  by destruct (p y).
Qed.

(** Up to the first ['?'] the scheme block leaves the shape of the URL as it
    is: a text without ['?'] and ['#'], the ['?'], the query. *)
Lemma split_scheme_query (base q : str) :
  contains question base = false → contains hash base = false →
  ∃ base', (split_scheme (base ++ question :: q)).2 = base' ++ question :: q
           ∧ contains question base' = false ∧ contains hash base' = false.
Proof.
  intros Hq Hh. unfold split_scheme. rewrite partition_app.
  destruct (partition colon base) as [[[|c before] after]|] eqn:Hbase.
  - by exists base.
  - destruct (_ && _); [|by exists base]. exists after. split; [done|].
    destruct (contains_partition question _ _ _ _ Hbase Hq).
    by destruct (contains_partition hash _ _ _ _ Hbase Hh).
  - cbn [partition]. change (question =? colon)%N with false.
    destruct (partition colon q) as [[x y]|]; [|by exists base].
    destruct base as [|c base]; cbn [app]; [by exists []|].
    assert (forallb scheme_chars (c :: base ++ question :: x) = false) as ->;
      [|rewrite andb_false_r; by exists (c :: base)].
    change (c :: base ++ question :: x) with ((c :: base) ++ question :: x).
    rewrite forallb_app. cbn. by rewrite andb_false_r.
Qed.

Lemma split_authority_rest (url netloc rest : str) :
  split_authority (E:=E) url = Ok (netloc, rest) →
  rest = url
  ∨ (take 2 url = [slash; slash]
     ∧ rest = drop_while (λ c, negb (is_netloc_delimiter c)) (drop 2 url)).
Proof.
  unfold split_authority, _splitnetloc.
  case_bool_decide; [|intros [= <- <-]; by left].
  destruct (_ || _); [done|].
  destruct (_ && _); [destruct (_check_bracketed_netloc _); [|done]|];
    cbn [bind]; intros [= <- <-]; by right.
Qed.

Lemma split_authority_query (base q : str) :
  Forall (λ c, plain_char c = true) (base ++ question :: q) →
  contains question base = false → contains hash base = false →
  ∃ netloc base',
    split_authority (E:=E) (base ++ question :: q)
    = Ok (netloc, base' ++ question :: q)
    ∧ Forall (λ c, plain_char c = true) netloc
    ∧ contains question base' = false ∧ contains hash base' = false.
Proof.
  intros Hplain Hq Hh.
  destruct (split_authority_plain _ Hplain) as (netloc & rest & Hsplit & Hn).
  exists netloc. rewrite Hsplit.
  destruct (split_authority_rest _ _ _ Hsplit) as [->|[Hslashes ->]];
    [by exists base|].
  destruct base as [|c1 [|c2 base]]; [done..|].
  cbn [app skipn]. rewrite drop_0, drop_while_app by done.
  exists (drop_while (λ c, negb (is_netloc_delimiter c)) base).
  unfold contains in Hq, Hh. cbn [existsb] in Hq, Hh.
  apply orb_false_elim in Hq as [_ [_ Hq]%orb_false_elim].
  apply orb_false_elim in Hh as [_ [_ Hh]%orb_false_elim].
  split; [done|]. split; [done|]. split; by apply contains_drop_while.
Qed.

(** The query of a plain URL is the text between the first ['?'] and the
    end, when the URL has no fragment, no tab or line break, and does not
    start with a control character or a space. *)
Lemma urlparse_query (base q : str) :
  Forall (λ c, plain_char c = true) (base ++ question :: q) →
  contains question base = false →
  contains hash (base ++ question :: q) = false →
  Forall (λ c, c ≠ 9 ∧ c ≠ 10 ∧ c ≠ 13)%N (base ++ question :: q) →
  drop_while _WHATWG_C0_CONTROL_OR_SPACE base = base →
  ∃ r, urlparse (E:=E) (base ++ question :: q) = Ok r ∧ query r = q.
Proof.
  intros Hplain Hq Hh Hws Hstart.
  rewrite contains_app in Hh. apply orb_false_elim in Hh as [Hhb Hhq].
  unfold urlparse, urlsplit.
  rewrite drop_while_app, Hstart by done.
  assert (∀ c, c = 9%N ∨ c = 10%N ∨ c = 13%N →
               remove c (base ++ question :: q) = base ++ question :: q)
    as Hremove.
  { intros c Hc. apply remove_absent, contains_false.
    eapply Forall_impl; [exact Hws|]. intros x (H9 & H10 & H13).
    by destruct Hc as [->|[->| ->]]. }
  rewrite !Hremove by auto.
  destruct (split_scheme_query base q Hq Hhb) as (base1 & Hbase1 & Hq1 & Hh1).
  assert (Forall (λ c, plain_char c = true) (split_scheme (base ++ question :: q)).2)
    as Hplain1 by by apply split_scheme_plain.
  destruct (split_scheme _) as [scheme url1]. cbn [snd] in *. subst url1.
  destruct (split_authority_query base1 q Hplain1 Hq1 Hh1)
    as (netloc & base2 & -> & Hn & Hq2 & Hh2).
  cbn [bind]. rewrite (_checknetloc_plain _ Hn).
  rewrite (partition_absent hash).
  2: { by rewrite contains_app, Hh2. }
  rewrite partition_app, (partition_absent question base2) by done.
  cbn [partition]. change (question =? question)%N with true. cbn [bind].
  destruct (_ && _); [destruct (_splitparams _)|]; eauto.
Qed.


End PlainUrls.

(** ** The program, path by path *)

Section Paths.

Import builtins urllib_parse yt_dlp Effects youtube_downloader Spec.

Context `{Runtime} {E : Type} `{YoutubeDL E}.

Lemma bind_normal {A B} (t : list event) (a : A) (k : A → IO E B) :
  ((t, Normal a) ≫= k) = (t ++ (k a).1, (k a).2).
Proof. unfold mbind, IO_bind. by destruct (k a). Qed.

Lemma getitem_0 {A} (x : A) (l : list A) : getitem (E:=E) (x :: l) 0 = Ok x.
Proof.
  unfold getitem. cbn [length].
  replace ((0 <=? 0) && (0 <? Z.of_nat (S (length l)))) with true; [done|].
  symmetry. apply andb_true_intro. split; [done|]. apply Z.ltb_lt. lia.
Qed.

(** Under the guard of line 108 the access of line 109 is in bounds and
    reads the item at 0-based position [index - 1], counted from the front. *)
Lemma getitem_guarded {A} (l : list A) (index : Z) :
  (1 <=? index) && (index <=? Z.of_nat (length l)) = true →
  ∃ x, l !! Z.to_nat (index - 1) = Some x
       ∧ getitem (E:=E) l (index - 1) = Ok x.
Proof.
  intros [Hlo Hhi]%andb_prop. apply Z.leb_le in Hlo, Hhi.
  destruct (lookup_lt_is_Some_2 l (Z.to_nat (index - 1))) as [x Hx]; [lia|].
  exists x. split; [done|]. unfold getitem.
  replace (index - 1 <? 0) with false by (symmetry; apply Z.ltb_ge; lia).
  replace ((0 <=? index - 1) && (index - 1 <? Z.of_nat (length l))) with true.
  - by rewrite Hx.
  - symmetry. apply andb_true_intro. split; [apply Z.leb_le | apply Z.ltb_lt]; lia.
Qed.

(** [extract_index_from_url] reads the first value the query gives to
    [index], and nothing else of the query. *)
Lemma extract_index_from_url_first (url : str) :
  extract_index_from_url (E:=E) url =
  bind (urlparse url) (λ r,
    match query_values (py "index") (query r) with
    | [] => Ok None
    | value :: _ => bind (int value) (λ n, Ok (Some n))
    end).
Proof.
  unfold extract_index_from_url. destruct (urlparse url) as [r|e]; [|done].
  cbn [bind]. unfold dict_getitem. rewrite parse_qs_lookup.
  destruct (query_values (py "index") (query r)) as [|v vs].
  - rewrite bool_decide_eq_false_2; [done|]. by intros [? ?].
  - rewrite bool_decide_eq_true_2; [|by eexists]. cbn [bind]. by rewrite getitem_0.
Qed.

Lemma extract_index_from_url_raises (url : str) (e : exception E) :
  extract_index_from_url url = Raise e → e = ValueError.
Proof.
  rewrite extract_index_from_url_first.
  destruct (urlparse url) as [r|e'] eqn:Hurl; cbn [bind].
  - destruct (query_values (py "index") (query r)) as [|v vs]; [done|].
    destruct (int v) as [z|e'] eqn:Hint; cbn [bind]; [done|].
    intros [= <-]. by eapply int_raises_ValueError.
  - intros [= <-]. by eapply urlparse_raises_ValueError.
Qed.

Lemma selectQuality_valid (q : str) :
  q ∈ quality_options → selectQuality (E:=E) q = ([], Normal q).
Proof.
  intros Hq. unfold selectQuality. by rewrite bool_decide_eq_true_2.
Qed.

Lemma selectQuality_invalid (q : str) :
  q ∉ quality_options →
  selectQuality (E:=E) q = ([invalid_choice_warning], Normal (py "2160")).
Proof.
  intros Hq. unfold selectQuality. by rewrite bool_decide_eq_false_2.
Qed.

Lemma selectQuality_total (q : str) :
  ∃ t q', selectQuality (E:=E) q = (t, Normal q') ∧ q' ∈ quality_options.
Proof.
  destruct (decide (q ∈ quality_options)) as [Hq|Hq].
  - exists [], q. by rewrite selectQuality_valid.
  - exists [invalid_choice_warning], (py "2160").
    rewrite selectQuality_invalid by done. split; [done|].
    unfold quality_options. cbn [map]. apply list_elem_of_here.
Qed.

(** A collection, an index in range: the item is announced and requested. *)
Lemma planTarget_item (ydl : options) (video_url : str) (index : Z)
    (info : info_dict) (info_entries : list entry) :
  extract_info ydl video_url false = inr info →
  entries info = Some info_entries →
  (1 <=? index) && (index <=? Z.of_nat (length info_entries)) = true →
  ∃ entry,
    info_entries !! Z.to_nat (index - 1) = Some entry ∧
    planTarget ydl video_url (Some index) =
    ( [ YoutubeDL_extract_info ydl video_url false;
        console_print (playlist_detected index);
        console_print (downloading entry);
        YoutubeDL_download ydl [url entry] ],
      match download ydl [url entry] with
      | inr _ => Normal tt
      | inl e => Raised (CollaboratorError e)
      end ).
Proof.
  intros Hinfo Hentries Hguard.
  destruct (getitem_guarded _ _ Hguard) as (entry & Hentry & Hget).
  exists entry. split; [done|].
  unfold planTarget, ydl_extract_info, ydl_download. rewrite Hinfo. cbn.
  rewrite Hentries, Hguard, Hget. cbn.
  by destruct (download ydl [url entry]).
Qed.

(** A collection, an index out of range: an error dialog, then [return]. *)
Lemma planTarget_out_of_range (ydl : options) (video_url : str) (index : Z)
    (info : info_dict) (info_entries : list entry) :
  extract_info ydl video_url false = inr info →
  entries info = Some info_entries →
  (1 <=? index) && (index <=? Z.of_nat (length info_entries)) = false →
  planTarget ydl video_url (Some index) =
  ( [ YoutubeDL_extract_info ydl video_url false;
      console_print (playlist_detected index);
      QMessageBox_critical (py "Error") (out_of_range index) ],
    Returned ).
Proof.
  intros Hinfo Hentries Hguard.
  unfold planTarget, ydl_extract_info. rewrite Hinfo. cbn.
  by rewrite Hentries, Hguard.
Qed.

(** No collection, or no index: the URL itself is requested. *)
Lemma planTarget_single (ydl : options) (video_url : str) (index : option Z)
    (info : info_dict) :
  extract_info ydl video_url false = inr info →
  entries info = None ∨ index = None →
  planTarget ydl video_url index =
  ( [ YoutubeDL_extract_info ydl video_url false;
      console_print single_video_detected;
      YoutubeDL_download ydl [video_url] ],
    match download ydl [video_url] with
    | inr _ => Normal tt
    | inl e => Raised (CollaboratorError e)
    end ).
Proof.
  intros Hinfo Hsingle.
  unfold planTarget, ydl_extract_info, ydl_download. rewrite Hinfo. cbn.
  destruct Hsingle as [->| ->]; [|destruct (entries info)];
    cbn; by destruct (download ydl [video_url]).
Qed.

(** The inspection fails: nothing else happens. *)
Lemma planTarget_inspection_fails (ydl : options) (video_url : str)
    (index : option Z) (e : E) :
  extract_info ydl video_url false = inl e →
  planTarget ydl video_url index =
  ([YoutubeDL_extract_info ydl video_url false], Raised (CollaboratorError e)).
Proof.
  intros Hinfo. unfold planTarget, ydl_extract_info. by rewrite Hinfo.
Qed.

(** [download_video] is its three steps in a row; the success dialog
    follows a plan that fell through, and only that. *)
Lemma download_video_steps (video_url q save_path : str) (index : option Z)
    (tq : list event) (q' : str) (tp : list event) (o : outcome E unit) :
  extract_index_from_url (E:=E) video_url = Ok index →
  selectQuality (E:=E) q = (tq, Normal q') →
  planTarget (ydl_opts q' save_path) video_url index = (tp, o) →
  download_video video_url q save_path =
  ( tq ++ tp ++ match o with Normal _ => [success_box] | _ => [] end,
    match o with
    | Normal _ | Returned => Ok tt
    | Raised e => Raise e
    end ).
Proof.
  intros Hindex Hq Hplan. unfold download_video. rewrite Hindex, Hq.
  unfold lift. rewrite !bind_normal. cbn beta. rewrite Hplan.
  destruct o; cbn; by rewrite ?app_nil_r.
Qed.

Lemma download_video_index_fails (video_url q save_path : str)
    (e : exception E) :
  extract_index_from_url (E:=E) video_url = Raise e →
  download_video video_url q save_path = ([], Raise e).
Proof. intros Hindex. unfold download_video. by rewrite Hindex. Qed.

(** Every engine call of [planTarget] is made under the options it got. *)
Lemma planTarget_options (ydl : options) (video_url : str) (index : option Z)
    (ev : event) (o : options) :
  ev ∈ (planTarget ydl video_url index).1 → engine_options ev = Some o →
  o = ydl.
Proof.
  destruct (extract_info ydl video_url false) as [e|info] eqn:Hinfo.
  { rewrite (planTarget_inspection_fails _ _ _ _ Hinfo). cbn.
    intros ->%list_elem_of_singleton. by intros [= <-]. }
  destruct (entries info) as [info_entries|] eqn:Hentries, index as [index|];
    try (rewrite (planTarget_single _ _ _ _ Hinfo) by auto; cbn;
         rewrite !elem_of_cons; intros [->|[->|[->|[]%elem_of_nil]]]; cbn; congruence).
  destruct ((1 <=? index) && (index <=? Z.of_nat (length info_entries))) eqn:Hguard.
  - destruct (planTarget_item _ _ _ _ _ Hinfo Hentries Hguard) as (entry & _ & ->).
    cbn. rewrite !elem_of_cons.
    intros [->|[->|[->|[->|[]%elem_of_nil]]]]; cbn; congruence.
  - rewrite (planTarget_out_of_range _ _ _ _ _ Hinfo Hentries Hguard). cbn.
    rewrite !elem_of_cons. intros [->|[->|[->|[]%elem_of_nil]]]; cbn; congruence.
Qed.

(** [planTarget] never ends in an [IndexError], whatever the index. *)
Lemma planTarget_no_IndexError (ydl : options) (video_url : str)
    (index : option Z) :
  ends_in_IndexError (planTarget ydl video_url index).2 = false.
Proof.
  destruct (extract_info ydl video_url false) as [e|info] eqn:Hinfo.
  { by rewrite (planTarget_inspection_fails _ _ _ _ Hinfo). }
  destruct (entries info) as [info_entries|] eqn:Hentries, index as [index|];
    try (rewrite (planTarget_single _ _ _ _ Hinfo) by auto; cbn;
         by destruct (download ydl [video_url])).
  destruct ((1 <=? index) && (index <=? Z.of_nat (length info_entries))) eqn:Hguard.
  - destruct (planTarget_item _ _ _ _ _ Hinfo Hentries Hguard) as (entry & _ & ->).
    cbn. by destruct (download ydl [url entry]).
  - by rewrite (planTarget_out_of_range _ _ _ _ _ Hinfo Hentries Hguard).
Qed.

End Paths.

(** ** The claims about [extract_index_from_url] *)

Section IndexClaims.

Import builtins urllib_parse yt_dlp Effects youtube_downloader Spec.

Context `{Runtime} {E : Type}.

(** C1, as amended.  For a URL that [urlparse] accepts,
    [extract_index_from_url] returns [None] when the query gives no value to
    [index]; when the first value given to [index] has a character that no
    integer literal contains, it raises [ValueError]: the exception of [int]
    is not caught. *)
Theorem extract_index_absent_or_ValueError (url : str) (r : ParseResult) :
  urlparse (E:=E) url = Ok r →
  (query_values (py "index") (query r) = [] →
   extract_index_from_url (E:=E) url = Ok None)
  ∧ (∀ value values,
       query_values (py "index") (query r) = value :: values →
       non_numeric value = true →
       extract_index_from_url (E:=E) url = Raise ValueError).
Proof.
  intros Hurl. rewrite extract_index_from_url_first, Hurl. cbn [bind]. split.
  - by intros ->.
  - intros value values -> Hvalue. by rewrite int_non_numeric.
Qed.

(** C6, as amended.  For a URL that [urlparse] accepts: when the first field
    of the query that names [index] is [index=N], written in decimal, with
    [N] a positive integer within the interpreter's limit on digits, the
    result is [N]; when no field of the query names [index], the result is
    [None]. *)
Theorem extract_index_first_index_field (url : str) (r : ParseResult) :
  urlparse (E:=E) url = Ok r →
  (∀ (before after : list str) (N : Z),
     split ampersand (query r)
     = before ++ (py "index=" ++ str_of_int N) :: after →
     Forall (λ f, is_index_field f = false) before →
     0 < N → fits_int_max_str_digits N →
     extract_index_from_url (E:=E) url = Ok (Some N))
  ∧ (Forall (λ f, is_index_field f = false) (split ampersand (query r)) →
     extract_index_from_url (E:=E) url = Ok None).
Proof.
  intros Hurl. rewrite extract_index_from_url_first, Hurl. cbn [bind]. split.
  - intros before after N Hsplit Hbefore _ Hfits.
    rewrite (query_values_first _ _ _ _ _ Hsplit Hbefore
               (parse_qsl_field_index_numeral N)).
    by rewrite int_str_of_int.
  - intros Hnone. by rewrite query_values_nil.
Qed.

(** C10.  The result is the integer parse of the first value the query
    gives to [index], whatever the later values are; no sign is refused:
    when that value is the decimal numeral of an integer [z], zero or
    negative included, the result is [z]. *)
Theorem extract_index_first_value_any_sign (url : str) (r : ParseResult)
    (value : str) (values : list str) :
  urlparse (E:=E) url = Ok r →
  query_values (py "index") (query r) = value :: values →
  extract_index_from_url (E:=E) url = bind (int value) (λ n, Ok (Some n))
  ∧ ∀ z : Z, value = str_of_int z → fits_int_max_str_digits z →
             extract_index_from_url (E:=E) url = Ok (Some z).
Proof.
  intros Hurl Hvalues.
  rewrite extract_index_from_url_first, Hurl. cbn [bind]. rewrite Hvalues.
  split; [done|]. intros z -> Hfits. by rewrite int_str_of_int.
Qed.

(** X22.  An index written into a URL is read back from it.  On the text
    of the URL, for the URLs one meets: ASCII without square brackets,
    tabs, line breaks or a fragment, not starting with a control character
    or a space.  Whatever stands before the first ['?'], a first [index=N]
    field in what follows it, [N] in decimal within the interpreter's limit
    on digits, gives [N], negative numbers and zero included. *)
Lemma extract_index_of_plain_url (base q : str) (before after : list str)
    (N : Z) :
  Forall (λ c, plain_char c = true) (base ++ question :: q) →
  contains question base = false →
  contains hash (base ++ question :: q) = false →
  Forall (λ c, c ≠ 9 ∧ c ≠ 10 ∧ c ≠ 13)%N (base ++ question :: q) →
  drop_while _WHATWG_C0_CONTROL_OR_SPACE base = base →
  split ampersand q = before ++ (py "index=" ++ str_of_int N) :: after →
  Forall (λ f, is_index_field f = false) before →
  fits_int_max_str_digits N →
  extract_index_from_url (E:=E) (base ++ question :: q) = Ok (Some N).
Proof.
  intros Hplain Hq Hh Hws Hstart Hsplit Hbefore Hfits.
  destruct (urlparse_query (E:=E) base q Hplain Hq Hh Hws Hstart) as (r & Hr & Hquery).
  rewrite extract_index_from_url_first, Hr. cbn [bind]. rewrite Hquery.
  rewrite (query_values_first _ _ _ _ _ Hsplit Hbefore
             (parse_qsl_field_index_numeral N)).
  by rewrite int_str_of_int.
Qed.

End IndexClaims.

(** ** The claims about [download_video] *)

Section DownloadClaims.

Import builtins urllib_parse yt_dlp Effects youtube_downloader Spec.

Context `{Runtime} {E : Type} `{YoutubeDL E}.

Lemma downloads_app (t1 t2 : list event) :
  downloads (t1 ++ t2) = downloads t1 ++ downloads t2.
Proof. apply omap_app. Qed.

Lemma selectQuality_trace (q : str) (tq : list event) (q' : str) :
  selectQuality (E:=E) q = (tq, Normal q') →
  (tq = [] ∧ q' = q ∧ q ∈ quality_options)
  ∨ (tq = [invalid_choice_warning] ∧ q' = py "2160" ∧ q ∉ quality_options).
Proof.
  destruct (decide (q ∈ quality_options)) as [Hq|Hq].
  - rewrite selectQuality_valid by done. intros [= <- <-]. by left.
  - rewrite selectQuality_invalid by done. intros [= <- <-]. by right.
Qed.

(** C2.  A quality of the enumeration is kept as it is, without a dialog;
    any other text raises the warning dialog and is replaced by ["2160"]; and
    in every run of [download_video] each call of the engine is made under
    options built from a quality of the enumeration. *)
Theorem selectQuality_closed_enumeration (q : str) :
  (q ∈ quality_options → selectQuality (E:=E) q = ([], Normal q))
  ∧ (q ∉ quality_options →
     selectQuality (E:=E) q = ([invalid_choice_warning], Normal (py "2160")))
  ∧ (∀ (video_url save_path : str) (ev : event) (o : options),
       ev ∈ (download_video video_url q save_path).1 →
       engine_options ev = Some o →
       ∃ q', q' ∈ quality_options ∧ o = ydl_opts q' save_path).
Proof.
  split; [apply selectQuality_valid|]. split; [apply selectQuality_invalid|].
  intros video_url save_path ev o.
  destruct (extract_index_from_url (E:=E) video_url) as [index|e] eqn:Hindex.
  2: { rewrite (download_video_index_fails _ _ _ _ Hindex). cbn.
       by intros []%elem_of_nil. }
  destruct (selectQuality_total (E:=E) q) as (tq & q' & Hq & Hq').
  destruct (planTarget (ydl_opts q' save_path) video_url index) as [tp out] eqn:Hplan.
  rewrite (download_video_steps _ _ _ _ _ _ _ _ Hindex Hq Hplan). cbn [fst].
  rewrite !elem_of_app. intros [Hev|[Hev|Hev]] Ho.
  - destruct (selectQuality_trace _ _ _ Hq) as [(-> & _)|(-> & _)].
    + by apply elem_of_nil in Hev.
    + apply list_elem_of_singleton in Hev as ->. done.
  - exists q'. split; [done|].
    apply (planTarget_options (ydl_opts q' save_path) video_url index ev); [|done].
    by rewrite Hplan.
  - destruct out; [|by apply elem_of_nil in Hev..].
    apply list_elem_of_singleton in Hev as ->. done.
Qed.

(** C3.  With a collection of [n] items and an index [1 <= index <= n], the
    item read is the one at 1-based position [index], and the one download
    request of the run is for that item's URL alone. *)
Theorem playlist_index_selects_item (video_url q save_path : str) (index : Z)
    (tq : list event) (q' : str) (info : info_dict) (info_entries : list entry) :
  extract_index_from_url (E:=E) video_url = Ok (Some index) →
  selectQuality (E:=E) q = (tq, Normal q') →
  extract_info (ydl_opts q' save_path) video_url false = inr info →
  entries info = Some info_entries →
  1 ≤ index ≤ Z.of_nat (length info_entries) →
  ∃ entry : entry,
    info_entries !! Z.to_nat (index - 1) = Some entry
    ∧ (download_video video_url q save_path).1
      = tq ++ [ YoutubeDL_extract_info (ydl_opts q' save_path) video_url false;
                console_print (playlist_detected index);
                console_print (downloading entry);
                YoutubeDL_download (ydl_opts q' save_path) [url entry] ]
           ++ after_download (download (ydl_opts q' save_path) [url entry])
    ∧ downloads (download_video video_url q save_path).1 = [[url entry]].
Proof.
  intros Hindex Hq Hinfo Hentries [Hlo Hhi].
  assert ((1 <=? index) && (index <=? Z.of_nat (length info_entries)) = true)
    as Hguard.
  { apply andb_true_intro. split; by apply Z.leb_le. }
  destruct (planTarget_item _ _ _ _ _ Hinfo Hentries Hguard)
    as (entry & Hentry & Hplan).
  exists entry. split; [done|].
  rewrite (download_video_steps _ _ _ _ _ _ _ _ Hindex Hq Hplan). cbn [fst].
  assert (downloads tq = []) as Htq.
  { by destruct (selectQuality_trace _ _ _ Hq) as [(-> & _)|(-> & _)]. }
  destruct (download (ydl_opts q' save_path) [url entry]);
    (split; [done|]); rewrite !downloads_app, Htq; done.
Qed.

(** C4.  With a collection and an index outside [1 .. n], the run shows the
    error dialog and returns: no download request is made, and no success
    dialog follows. *)
Theorem playlist_index_out_of_range (video_url q save_path : str) (index : Z)
    (tq : list event) (q' : str) (info : info_dict) (info_entries : list entry) :
  extract_index_from_url (E:=E) video_url = Ok (Some index) →
  selectQuality (E:=E) q = (tq, Normal q') →
  extract_info (ydl_opts q' save_path) video_url false = inr info →
  entries info = Some info_entries →
  ¬ (1 ≤ index ≤ Z.of_nat (length info_entries)) →
  download_video video_url q save_path
  = ( tq ++ [ YoutubeDL_extract_info (ydl_opts q' save_path) video_url false;
              console_print (playlist_detected index);
              QMessageBox_critical (py "Error") (out_of_range index) ],
      Ok tt )
  ∧ downloads (download_video video_url q save_path).1 = [].
Proof.
  intros Hindex Hq Hinfo Hentries Hout.
  assert ((1 <=? index) && (index <=? Z.of_nat (length info_entries)) = false)
    as Hguard.
  { apply andb_false_iff. rewrite Z.leb_gt, Z.leb_gt. lia. }
  pose proof (planTarget_out_of_range _ _ _ _ _ Hinfo Hentries Hguard) as Hplan.
  rewrite (download_video_steps _ _ _ _ _ _ _ _ Hindex Hq Hplan).
  rewrite app_nil_r. split; [done|]. cbn [fst]. rewrite downloads_app.
  by destruct (selectQuality_trace _ _ _ Hq) as [(-> & _)|(-> & _)].
Qed.

(** C5.  Without an index the URL itself is the one download request, under
    options that force single-item mode, whatever the inspection returned,
    a collection included. *)
Theorem no_index_downloads_whole_url (video_url q save_path : str)
    (tq : list event) (q' : str) (info : info_dict) :
  extract_index_from_url (E:=E) video_url = Ok None →
  selectQuality (E:=E) q = (tq, Normal q') →
  extract_info (ydl_opts q' save_path) video_url false = inr info →
  (download_video video_url q save_path).1
  = tq ++ [ YoutubeDL_extract_info (ydl_opts q' save_path) video_url false;
            console_print single_video_detected;
            YoutubeDL_download (ydl_opts q' save_path) [video_url] ]
       ++ after_download (download (ydl_opts q' save_path) [video_url])
  ∧ downloads (download_video video_url q save_path).1 = [[video_url]]
  ∧ noplaylist (ydl_opts q' save_path) = true.
Proof.
  intros Hindex Hq Hinfo.
  pose proof (planTarget_single _ _ None _ Hinfo (or_intror eq_refl)) as Hplan.
  rewrite (download_video_steps _ _ _ _ _ _ _ _ Hindex Hq Hplan). cbn [fst].
  assert (downloads tq = []) as Htq.
  { by destruct (selectQuality_trace _ _ _ Hq) as [(-> & _)|(-> & _)]. }
  destruct (download (ydl_opts q' save_path) [video_url]);
    (split; [done|]); (split; [|done]); rewrite !downloads_app, Htq; done.
Qed.


(** C8.  The guard of line 108 makes the access of line 109 safe: under it
    the position [index - 1] lies within the list, so the access succeeds
    and reads from the front; and for every index, present or not, in range
    or not, neither the body of the [with] statement nor [download_video]
    ends in an [IndexError]. *)
Theorem index_access_in_bounds :
  (∀ (info_entries : list entry) (index : Z),
     (1 <=? index) && (index <=? Z.of_nat (length info_entries)) = true →
     0 ≤ index - 1 < Z.of_nat (length info_entries)
     ∧ ∃ entry, info_entries !! Z.to_nat (index - 1) = Some entry
                ∧ getitem (E:=E) info_entries (index - 1) = Ok entry)
  ∧ (∀ (ydl : options) (video_url : str) (index : option Z),
       ends_in_IndexError (planTarget ydl video_url index).2 = false)
  ∧ (∀ video_url q save_path : str,
       raises_IndexError (download_video video_url q save_path).2 = false).
Proof.
  split; [|split].
  - intros info_entries index Hguard. split.
    + apply andb_prop in Hguard as [Hlo Hhi]. apply Z.leb_le in Hlo, Hhi. lia.
    + by apply getitem_guarded.
  - apply planTarget_no_IndexError.
  - intros video_url q save_path.
    destruct (extract_index_from_url (E:=E) video_url) as [index|e] eqn:Hindex.
    2: { rewrite (download_video_index_fails _ _ _ _ Hindex). cbn.
         by rewrite (extract_index_from_url_raises _ _ Hindex). }
    destruct (selectQuality_total (E:=E) q) as (tq & q' & Hq & _).
    destruct (planTarget (ydl_opts q' save_path) video_url index)
      as [tp out] eqn:Hplan.
    rewrite (download_video_steps _ _ _ _ _ _ _ _ Hindex Hq Hplan). cbn [snd].
    pose proof (planTarget_no_IndexError (ydl_opts q' save_path) video_url index)
      as Hno. rewrite Hplan in Hno. cbn in Hno. by destruct out.
Qed.

End DownloadClaims.

(** ** The claim about the format expression *)

Section FormatClaims.

Import builtins yt_dlp youtube_downloader Spec format_selection.

Context `{Runtime} {R : Type} `{Ranking R}.

Lemma _parse_filter_length (tokens : list TokenInfo) (filter_parts : str) :
  (length (_parse_filter tokens filter_parts).2 ≤ length tokens)%nat.
Proof.
  revert filter_parts. induction tokens as [|token tokens' IH]; intros parts.
  - done.
  - cbn [_parse_filter]. destruct (is_op token (py "]")); [cbn; lia|].
    specialize (IH (parts ++ token.2)). cbn [length]. lia.
Qed.

(** The parser never runs out of the fuel [parse_format_selection] gives
    it, and a call leaves no more tokens than it was given. *)
Lemma _parse_format_selection_fuel (fuel : nat) (tokens : list TokenInfo)
    (inside_merge inside_choice inside_group : bool)
    (selectors : list FormatSelector) (current_selector : option FormatSelector) :
  (length tokens < fuel)%nat →
  ∃ r, _parse_format_selection fuel tokens inside_merge inside_choice
         inside_group selectors current_selector = Some r
       ∧ ∀ parsed remaining, r = inr (parsed, remaining) →
           (length remaining ≤ length tokens)%nat.
Proof.
  revert tokens inside_merge inside_choice inside_group selectors
    current_selector.
  induction fuel as [|fuel IH];
    intros tokens im ic ig selectors current Hfuel; [lia|].
  destruct tokens as [|token tokens']; cbn [_parse_format_selection].
  { eexists. split; [done|]. by intros ?? [= <- <-]. }
  cbn [length] in Hfuel.
  assert (∀ remaining im' ic' ig' selectors' current',
            (length remaining ≤ length tokens')%nat →
            ∃ r, _parse_format_selection fuel remaining im' ic' ig'
                   selectors' current' = Some r
                 ∧ ∀ parsed remaining', r = inr (parsed, remaining') →
                     (length remaining' ≤ length (token :: tokens'))%nat)
    as Hcontinue.
  { intros remaining im' ic' ig' selectors' current' Hlen.
    destruct (IH remaining im' ic' ig' selectors' current') as (r & -> & Hr);
      [lia|].
    exists r. split; [done|]. intros parsed remaining' ->.
    specialize (Hr _ _ eq_refl). cbn [length]. lia. }
  assert (∀ (parsed : list FormatSelector) (remaining : list TokenInfo),
            (length remaining ≤ length (token :: tokens'))%nat →
            ∃ r, Some (inr (parsed, remaining) : answer _) = Some r
                 ∧ ∀ parsed' remaining', r = inr (parsed', remaining') →
                     (length remaining' ≤ length (token :: tokens'))%nat)
    as Hbreak.
  { intros parsed remaining Hlen. eexists. split; [done|].
    by intros ?? [= <- <-]. }
  assert (∃ r, Some (inl SyntaxError : answer (list FormatSelector * list TokenInfo))
               = Some r
               ∧ ∀ parsed' remaining', r = inr (parsed', remaining') →
                   (length remaining' ≤ length (token :: tokens'))%nat)
    as Hraise.
  { eexists. split; [done|]. by intros ?? [=]. }
  destruct (token.1); [by apply Hcontinue..|].
  destruct (is_op token (py ")")).
  { apply Hbreak. destruct ig; cbn [length]; lia. }
  destruct (im && _); [by apply Hbreak|].
  destruct (ic && _); [by apply Hbreak|].
  destruct (is_op token (py ",")).
  { destruct current; [by apply Hcontinue | done]. }
  destruct (is_op token (py "/")).
  { destruct current as [first_choice|]; [|done].
    destruct (IH tokens' false true false [] None) as (r & -> & Hr); [lia|].
    destruct r as [e|[second_choice remaining]].
    - exists (inl e). split; [done|]. by intros ?? [=].
    - apply Hcontinue. by apply (Hr _ _ eq_refl). }
  destruct (is_op token (py "[")).
  { pose proof (_parse_filter_length tokens' []) as Hlen.
    destruct (_parse_filter tokens' []) as [format_filter remaining].
    by apply Hcontinue. }
  destruct (is_op token (py "(")).
  { destruct current as [s|]; [done|].
    destruct (IH tokens' false false true [] None) as (r & -> & Hr); [lia|].
    destruct r as [e|[group remaining]].
    - exists (inl e). split; [done|]. by intros ?? [=].
    - apply Hcontinue. by apply (Hr _ _ eq_refl). }
  destruct (is_op token (py "+")); [|done].
  destruct current as [selector_1|]; [|done].
  destruct (IH tokens' true false false [] None) as (r & -> & Hr); [lia|].
  destruct r as [e|[selector_2 remaining]].
  - exists (inl e). split; [done|]. by intros ?? [=].
  - destruct selector_2; [done|]. apply Hcontinue. by apply (Hr _ _ eq_refl).
Qed.

(** Parsing returns: a tree or [SyntaxError]. *)
Lemma parse_format_selection_returns (tokens : list TokenInfo) :
  ∃ r, parse_format_selection tokens = Some r.
Proof.
  unfold parse_format_selection.
  destruct (_parse_format_selection_fuel (S (length tokens)) tokens
              false false false [] None) as (r & -> & _); [lia|].
  destruct r as [e|[parsed remaining]]; by eexists.
Qed.

(** A filter on a text never raises. *)
Lemma filter_formats_text (key value : str) (formats : list format_dict) :
  filter_formats (text_filter key value) formats
  = inr (List.filter
           (λ f, match f !! key with
                 | Some (Text actual) => bool_decide (actual = value)
                 | _ => false
                 end) formats).
Proof.
  induction formats as [|f formats IH]; [done|].
  cbn [filter_formats List.filter]. rewrite IH. cbn.
  by destruct (f !! key) as [[z|s]|].
Qed.

(** A filter [key<=h] keeps the formats whose [key] is known and at most
    [h], when no format holds a text there. *)
Lemma filter_formats_at_most (key : str) (h : Z) (formats : list format_dict) :
  Forall (λ f, ∀ s : str, f !! key ≠ Some (Text s)) formats →
  filter_formats (number_filter key (py "<=") h) formats
  = inr (List.filter
           (λ f, match f !! key with
                 | Some (Int a) => a <=? h
                 | _ => false
                 end) formats).
Proof.
  induction 1 as [|f formats Hf _ IH]; [done|].
  cbn [filter_formats List.filter]. rewrite IH. cbn.
  destruct (f !! key) as [[z|s]|]; cbn; [done| |done].
  by destruct (Hf s).
Qed.

(** What the selector built for the tree of line 95 does, given the two
    filters of its video selector. *)
Lemma format_tree_selector (tier : str) (h : Z) :
  parse_filter_spec (py "height<=" ++ tier)
  = inr (number_filter (py "height") (py "<=") h) →
  ∃ format_selector : format_selector,
    (fs ← sequence (map _build_selector_function (format_tree tier)) ;
     mret (selector_list fs)) = inr format_selector
    ∧ ∀ ctx : context R,
        Forall height_is_number (formats ctx) →
        format_selector ctx
        = inr (match
                 single_selector_function (py "bestvideo")
                   (offering (ext_is (py "mp4"))
                      (offering (height_at_most h) ctx)),
                 single_selector_function (py "bestaudio")
                   (offering (ext_is (py "m4a")) ctx)
               with
               | video :: videos, audio :: audios =>
                   format_1 ← video :: videos ;
                   map (_merge format_1) (audio :: audios)
               | _, _ =>
                   single_selector_function (py "best")
                     (offering (ext_is (py "mp4")) ctx)
               end).
Proof.
  intros Hheight.
  assert (parse_filter_spec (py "ext=mp4")
          = inr (text_filter (py "ext") (py "mp4"))) as Hmp4 by by vm_compute.
  assert (parse_filter_spec (py "ext=m4a")
          = inr (text_filter (py "ext") (py "m4a"))) as Hm4a by by vm_compute.
  unfold format_tree.
  cbn [map _build_selector_function filters_of sequence _build_format_filter].
  rewrite Hheight, Hmp4, Hm4a.
  eexists. split; [reflexivity|].
  intros ctx Hctx.
  cbn -[py]. unfold final_selector. cbn -[py].
  rewrite (filter_formats_at_most _ _ _ Hctx). cbn -[py].
  rewrite !filter_formats_text. cbn -[py].
  unfold offering, ext_is, height_at_most. cbn -[py].
  destruct (single_selector_function (py "bestaudio") _) as [|audio audios];
    destruct (single_selector_function (py "bestvideo") _) as [|video videos];
    cbn -[py]; rewrite ?app_nil_r; try done.
  assert ((videos ≫= λ _ : format_dict, []) = ([] : list format_dict)) as ->.
  { induction videos as [|v videos IH]; [done|]. exact IH. }
  cbn -[py]. by rewrite app_nil_r.
Qed.

(** C7.  For each of the five tiers the engine reads the ["format"] option
    as one first choice with a fallback.  The first choice is the merge of
    [bestvideo], taken among the formats whose height is known and at most
    the tier's and whose container is mp4, with [bestaudio], taken among
    the m4a formats.  When the one or the other yields nothing, the
    selection is [best], taken among the mp4 formats.  The options ask for
    an mp4 result, by merge format and by a conversion step. *)
Theorem buildFormatExpression_selects (tier save_path : str) :
  tier ∈ quality_options →
  ∃ h : Z,
    h ∈ tier_heights ∧ tier = str_of_int h
    ∧ parse_format_spec (buildFormatExpression tier)
      = Some (inr (format_tree tier))
    ∧ (∀ ctx : context R,
         Forall height_is_number (formats ctx) →
         select_formats (format (ydl_opts tier save_path)) ctx
         = Some (inr (match
                        single_selector_function (py "bestvideo")
                          (offering (ext_is (py "mp4"))
                             (offering (height_at_most h) ctx)),
                        single_selector_function (py "bestaudio")
                          (offering (ext_is (py "m4a")) ctx)
                      with
                      | video :: videos, audio :: audios =>
                          format_1 ← video :: videos ;
                          map (_merge format_1) (audio :: audios)
                      | _, _ =>
                          single_selector_function (py "best")
                            (offering (ext_is (py "mp4")) ctx)
                      end)))
    ∧ merge_output_format (ydl_opts tier save_path) = py "mp4"
    ∧ postprocessors (ydl_opts tier save_path)
      = [ {| key := py "FFmpegVideoConvertor"; preferedformat := py "mp4" |} ].
Proof.
  intros Htier.
  assert (∃ h : Z,
            h ∈ tier_heights ∧ tier = str_of_int h
            ∧ parse_format_spec (buildFormatExpression tier)
              = Some (inr (format_tree tier))
            ∧ parse_filter_spec (py "height<=" ++ tier)
              = inr (number_filter (py "height") (py "<=") h))
    as (h & Hh & Htext & Hparse & Hfilter).
  { revert Htier. unfold quality_options, tier_heights. cbn [map].
    rewrite !elem_of_cons.
    intros [->|[->|[->|[->|[->|[]%elem_of_nil]]]]];
      [exists 2160 | exists 1440 | exists 1080 | exists 720 | exists 480];
      (split; [rewrite !elem_of_cons; tauto | by vm_compute]). }
  destruct (format_tree_selector tier h Hfilter) as (fsel & Hbuild & Hsel).
  exists h. split; [done|]. split; [done|]. split; [done|].
  split; [|done].
  intros ctx Hctx. unfold select_formats, build_format_selector.
  cbn [format ydl_opts]. rewrite Hparse. f_equal.
  rewrite <- (Hsel ctx Hctx).
  change (mbind (M:=answer) (λ format_selector : format_selector, format_selector ctx)
            (fs ← sequence (map _build_selector_function (format_tree tier)) ;
             mret (selector_list fs))
          = fsel ctx).
  by rewrite Hbuild.
Qed.

End FormatClaims.

(** ** The claims at sample inputs *)

Section Witnesses.

Import builtins urllib_parse yt_dlp Effects youtube_downloader Spec Samples.

(** A non-numeric index value raises where C1 promises [None]. *)
Lemma non_numeric_index_raises :
  @extract_index_from_url runtime unit (playlist_url "abc") = Raise ValueError.
Proof. by vm_compute. Qed.

(** The same under every runtime: this URL consults none of its
    parameters. *)
Lemma index_abc_raises_under_every_runtime (rt : Runtime) (E : Type) :
  @extract_index_from_url rt E (playlist_url "abc") = Raise ValueError.
Proof. by vm_compute. Qed.

(** A URL that [urlparse] rejects raises as well, index or no index. *)
Lemma malformed_url_raises (rt : Runtime) (E : Type) :
  @extract_index_from_url rt E (py "http://[") = Raise ValueError.
Proof. by vm_compute. Qed.

(** A numeral of 4301 digits is past the default limit of the interpreter. *)
Lemma huge_index_raises :
  @extract_index_from_url runtime unit
    (py "https://youtube.com/playlist?index=" ++ repeat 49%N 4301)
  = Raise ValueError.
Proof. by vm_compute. Qed.

Lemma extract_index_absent_or_ValueError_witness :
  @extract_index_from_url runtime unit short_url = Ok None
  ∧ @extract_index_from_url runtime unit (playlist_url "abc") = Raise ValueError.
Proof.
  split.
  - refine (proj1 (@extract_index_absent_or_ValueError runtime unit
                     short_url _ _) _); by vm_compute.
  - refine (proj2 (@extract_index_absent_or_ValueError runtime unit
                     (playlist_url "abc") _ _) (py "abc") [] _ _); by vm_compute.
Defined.

(** The query contains [index=3], and the result is 2: a later [index]
    field is not the one that counts. *)
Lemma later_index_field_is_ignored :
  fmap_result query
    (@urlparse runtime unit (py "https://youtube.com/playlist?list=xyz&index=2&index=3"))
  = Ok (py "list=xyz&index=2&index=3")
  ∧ py "index=" ++ str_of_int 3 ∈ split ampersand (py "list=xyz&index=2&index=3")
  ∧ @extract_index_from_url runtime unit
      (py "https://youtube.com/playlist?list=xyz&index=2&index=3")
    = Ok (Some 2).
Proof.
  split; [by vm_compute|]. split; [|by vm_compute].
  apply (bool_decide_unpack _). by vm_compute.
Qed.

Lemma extract_index_first_index_field_witness :
  @extract_index_from_url runtime unit (playlist_url "2") = Ok (Some 2)
  ∧ @extract_index_from_url runtime unit short_url = Ok None.
Proof.
  split.
  - refine (proj1 (@extract_index_first_index_field runtime unit
                     (playlist_url "2") _ _) [py "list=xyz"] [] 2 _ _ _ _).
    + by vm_compute.
    + by vm_compute.
    + repeat constructor.
    + lia.
    + by vm_compute.
  - refine (proj2 (@extract_index_first_index_field runtime unit
                     short_url _ _) _).
    + by vm_compute.
    + vm_compute. repeat constructor.
Defined.

Lemma extract_index_first_value_any_sign_witness :
  @extract_index_from_url runtime unit
    (py "https://youtube.com/playlist?list=xyz&index=-3&index=7") = Ok (Some (-3))
  ∧ @extract_index_from_url runtime unit (playlist_url "0") = Ok (Some 0).
Proof.
  split.
  - refine (proj2 (@extract_index_first_value_any_sign runtime unit
                     (py "https://youtube.com/playlist?list=xyz&index=-3&index=7")
                     _ (py "-3") [py "7"] _ _) (-3) _ _); by vm_compute.
  - refine (proj2 (@extract_index_first_value_any_sign runtime unit
                     (playlist_url "0") _ (py "0") [] _ _) 0 _ _); by vm_compute.
Defined.

Lemma selectQuality_closed_enumeration_witness :
  @selectQuality unit (py "1080") = ([], Normal (py "1080"))
  ∧ @selectQuality unit (py "9999")
    = ([invalid_choice_warning], Normal (py "2160")).
Proof.
  split.
  - refine (proj1 (@selectQuality_closed_enumeration runtime unit
                     single_item_engine (py "1080")) _).
    apply (bool_decide_unpack _). by vm_compute.
  - refine (proj1 (proj2 (@selectQuality_closed_enumeration runtime unit
                            single_item_engine (py "9999"))) _).
    intros Hin. apply (bool_decide_pack _) in Hin. by vm_compute in Hin.
Defined.

(** A collection of five items, index 3: the third item, and it alone. *)
Lemma playlist_index_selects_item_witness :
  downloads (@download_video runtime unit (collection_engine 5)
               (playlist_url "3") (py "1080") (py ".")).1
  = [[url (item 3)]].
Proof.
  destruct (@playlist_index_selects_item runtime unit (collection_engine 5)
              (playlist_url "3") (py "1080") (py ".") 3 [] (py "1080")
              {| entries := Some (map item (seq 1 5)) |} (map item (seq 1 5)))
    as (entry & Hentry & _ & Hdownloads);
    [by vm_compute | by vm_compute | done | done
    | rewrite length_map, length_seq; lia |].
  vm_compute in Hentry. injection Hentry as <-. exact Hdownloads.
Defined.

(** A collection of ten items, index 50: the error dialog and no request. *)
Lemma playlist_index_out_of_range_witness :
  (@download_video runtime unit (collection_engine 10)
     (playlist_url "50") (py "1080") (py ".")).2 = Ok tt
  ∧ downloads (@download_video runtime unit (collection_engine 10)
                 (playlist_url "50") (py "1080") (py ".")).1 = [].
Proof.
  destruct (@playlist_index_out_of_range runtime unit (collection_engine 10)
              (playlist_url "50") (py "1080") (py ".") 50 [] (py "1080")
              {| entries := Some (map item (seq 1 10)) |} (map item (seq 1 10)))
    as [Hrun Hdownloads];
    [by vm_compute | by vm_compute | done | done
    | rewrite length_map, length_seq; lia |].
  split; [by rewrite Hrun | exact Hdownloads].
Defined.

(** A collection URL without an index: the URL itself is requested. *)
Lemma no_index_downloads_whole_url_witness :
  downloads (@download_video runtime unit (collection_engine 10)
               (py "https://youtube.com/playlist?list=xyz") (py "1080") (py ".")).1
  = [[py "https://youtube.com/playlist?list=xyz"]].
Proof.
  refine (proj1 (proj2 (@no_index_downloads_whole_url runtime unit
                          (collection_engine 10)
                          (py "https://youtube.com/playlist?list=xyz")
                          (py "1080") (py ".") [] (py "1080")
                          {| entries := Some (map item (seq 1 10)) |} _ _ _)));
    by vm_compute.
Defined.


Lemma index_access_in_bounds_witness :
  0 ≤ 3 - 1 < Z.of_nat (length (map item (seq 1 5)))
  ∧ ∃ entry, map item (seq 1 5) !! Z.to_nat (3 - 1) = Some entry
             ∧ getitem (E:=unit) (map item (seq 1 5)) (3 - 1) = Ok entry.
Proof.
  apply (proj1 (@index_access_in_bounds runtime unit (collection_engine 5))
           (map item (seq 1 5)) 3).
  by vm_compute.
Defined.

(** *** The scenarios of the spec, run *)

(** [https://youtu.be/abc123], quality 1080: one request, for the URL, with
    the format capped at 1080 lines. *)
Example scenario_single_item :
  @download_video runtime unit single_item_engine short_url (py "1080") (py ".")
  = ( [ YoutubeDL_extract_info (ydl_opts (py "1080") (py ".")) short_url false;
        console_print single_video_detected;
        YoutubeDL_download (ydl_opts (py "1080") (py ".")) [short_url];
        success_box ],
      Ok tt )
  ∧ format (ydl_opts (py "1080") (py "."))
    = py "bestvideo[height<=1080][ext=mp4]+bestaudio[ext=m4a]/best[ext=mp4]".
Proof. by vm_compute. Qed.

(** [playlist?list=xyz&index=2], quality 9999: the warning, tier 2160, and
    the second item of the collection. *)
Example scenario_playlist_item :
  @download_video runtime unit (collection_engine 10)
    (playlist_url "2") (py "9999") (py ".")
  = ( [ invalid_choice_warning;
        YoutubeDL_extract_info (ydl_opts (py "2160") (py ".")) (playlist_url "2") false;
        console_print (playlist_detected 2);
        console_print (downloading (item 2));
        YoutubeDL_download (ydl_opts (py "2160") (py ".")) [url (item 2)];
        success_box ],
      Ok tt ).
Proof. by vm_compute. Qed.

(** [index=50] on a collection of ten: the error dialog, nothing more. *)
Example scenario_out_of_range :
  @download_video runtime unit (collection_engine 10)
    (playlist_url "50") (py "1080") (py ".")
  = ( [ YoutubeDL_extract_info (ydl_opts (py "1080") (py ".")) (playlist_url "50") false;
        console_print (playlist_detected 50);
        QMessageBox_critical (py "Error") (py "Index 50 is out of range!") ],
      Ok tt ).
Proof. by vm_compute. Qed.

(** A collection of five, index 6: out of range as well. *)
Example scenario_five_items_index_six :
  downloads (@download_video runtime unit (collection_engine 5)
               (playlist_url "6") (py "1080") (py ".")).1 = []
  ∧ existsb is_critical (@download_video runtime unit (collection_engine 5)
                           (playlist_url "6") (py "1080") (py ".")).1 = true.
Proof. by vm_compute. Qed.

(** A non-numeric index stops [download_video] before any dialog or engine
    call. *)
Example scenario_non_numeric_index :
  @download_video runtime unit (collection_engine 10)
    (playlist_url "abc") (py "1080") (py ".")
  = ([], Raise ValueError).
Proof. by vm_compute. Qed.

End Witnesses.

(** ** The format expression on a sample site *)

Section FormatWitnesses.

Import builtins yt_dlp youtube_downloader Spec Samples format_selection.

(** The merge binds tighter than the fallback, on either side of it. *)
Example merge_binds_tighter_than_fallback :
  parse_format_spec (py "a+b/c")
  = Some (inr [PICKFIRST (MERGE (SINGLE (py "a") []) [SINGLE (py "b") []] [])
                 [SINGLE (py "c") []] []])
  ∧ parse_format_spec (py "a/b+c")
    = Some (inr [PICKFIRST (SINGLE (py "a") [])
                   [MERGE (SINGLE (py "b") []) [SINGLE (py "c") []] []] []]).
Proof. split; by vm_compute. Qed.

(** At 1080 the sample site gives the 1080-line mp4 picture merged with
    the m4a sound; the 2160-line picture is webm and too high. *)
Example scenario_format_1080 :
  @select_formats runtime unit sample_ranking
    (format (ydl_opts (py "1080") (py ".")))
    {| formats := formats_on_offer; others := tt |}
  = Some (inr [ {[ py "format_id" := Text (py "137+140") ]} ]).
Proof. by vm_compute. Qed.

(** At 480 no mp4 picture of the site is low enough: the selection falls
    back on the best mp4 format with picture and sound, which has 720
    lines. *)
Example scenario_format_480 :
  @select_formats runtime unit sample_ranking
    (format (ydl_opts (py "480") (py ".")))
    {| formats := formats_on_offer; others := tt |}
  = Some (inr [ sample_format "22" "mp4" (Some 720) "avc1" "mp4a" ]).
Proof. by vm_compute. Qed.

(** The tier 1080 on the sample site. *)
Lemma buildFormatExpression_selects_witness :
  ∃ h : Z,
    h ∈ tier_heights ∧ py "1080" = str_of_int h
    ∧ parse_format_spec (buildFormatExpression (py "1080"))
      = Some (inr (format_tree (py "1080")))
    ∧ @select_formats runtime unit sample_ranking
        (format (ydl_opts (py "1080") (py ".")))
        {| formats := formats_on_offer; others := tt |}
      = Some (inr (match
                     @single_selector_function unit sample_ranking
                       (py "bestvideo")
                       (offering (ext_is (py "mp4"))
                          (offering (height_at_most h)
                             {| formats := formats_on_offer; others := tt |})),
                     @single_selector_function unit sample_ranking
                       (py "bestaudio")
                       (offering (ext_is (py "m4a"))
                          {| formats := formats_on_offer; others := tt |})
                   with
                   | video :: videos, audio :: audios =>
                       format_1 ← video :: videos ;
                       map (@_merge unit sample_ranking format_1)
                         (audio :: audios)
                   | _, _ =>
                       @single_selector_function unit sample_ranking
                         (py "best")
                         (offering (ext_is (py "mp4"))
                            {| formats := formats_on_offer; others := tt |})
                   end))
    ∧ merge_output_format (ydl_opts (py "1080") (py ".")) = py "mp4"
    ∧ postprocessors (ydl_opts (py "1080") (py "."))
      = [ {| key := py "FFmpegVideoConvertor"; preferedformat := py "mp4" |} ].
Proof.
  destruct (@buildFormatExpression_selects runtime unit sample_ranking
              (py "1080") (py "."))
    as (h & Hh & Htext & Hparse & Hselect & Hmerge & Hpost).
  { apply (bool_decide_unpack _). by vm_compute. }
  exists h. split; [exact Hh|]. split; [exact Htext|].
  split; [exact Hparse|]. split; [|split; [exact Hmerge | exact Hpost]].
  apply (Hselect {| formats := formats_on_offer; others := tt |}).
  repeat constructor; intros s Heq; vm_compute in Heq; discriminate.
Defined.

End FormatWitnesses.

(** ** Further properties: every run of [download_video] *)

Section RunExtras.

Import builtins urllib_parse yt_dlp Effects youtube_downloader Spec.
Import script Observations.

Context `{Runtime} {E : Type} `{YoutubeDL E}.

(** Every run follows one of the five paths. *)
Lemma download_video_run_path (video_url q save_path : str) :
  run_path video_url q save_path (download_video video_url q save_path).
Proof.
  destruct (extract_index_from_url (E:=E) video_url) as [index|e] eqn:Hindex.
  2: { rewrite (download_video_index_fails _ _ _ _ Hindex).
       pose proof (extract_index_from_url_raises _ _ Hindex) as ->.
       by constructor. }
  destruct (selectQuality_total (E:=E) q) as (tq & q' & Hq & _).
  destruct (extract_info (ydl_opts q' save_path) video_url false)
    as [e|info] eqn:Hinfo.
  { rewrite (download_video_steps _ _ _ _ _ _ _ _ Hindex Hq
               (planTarget_inspection_fails _ _ _ _ Hinfo)).
    rewrite app_nil_r. by eapply inspection_failed. }
  destruct (entries info) as [info_entries|] eqn:Hentries, index as [index|].
  2-4: match type of Hindex with
       | _ = Ok ?idx =>
           assert (entries info = None ∨ idx = None) as Hsingle
             by (first [by left | by right]);
           rewrite (download_video_steps _ _ _ _ _ _ _ _ Hindex Hq
                      (planTarget_single _ _ idx _ Hinfo Hsingle));
           pose proof (url_requested video_url q save_path _ _ _ _ Hindex Hq
                         Hinfo Hsingle) as Hpath;
           by destruct (download (ydl_opts q' save_path) [video_url])
       end.
  destruct ((1 <=? index) && (index <=? Z.of_nat (length info_entries)))
    eqn:Hguard.
  - destruct (planTarget_item _ _ _ _ _ Hinfo Hentries Hguard)
      as (entry & Hentry & Hplan).
    rewrite (download_video_steps _ _ _ _ _ _ _ _ Hindex Hq Hplan).
    apply andb_prop in Hguard as [Hlo%Z.leb_le Hhi%Z.leb_le].
    pose proof (item_requested video_url q save_path _ _ _ _ _ _ Hindex Hq Hinfo
                  Hentries (conj Hlo Hhi) Hentry) as Hpath.
    by destruct (download (ydl_opts q' save_path) [url entry]).
  - rewrite (download_video_steps _ _ _ _ _ _ _ _ Hindex Hq
               (planTarget_out_of_range _ _ _ _ _ Hinfo Hentries Hguard)).
    rewrite app_nil_r. eapply index_out_of_range; eauto.
    apply andb_false_iff in Hguard. rewrite !Z.leb_gt in Hguard. lia.
Qed.

Lemma selectQuality_observed (q : str) (tq : list event) (q' : str) :
  selectQuality (E:=E) q = (tq, Normal q') →
  downloads tq = [] ∧ inspections tq = []
  ∧ List.filter is_success_box tq = [] ∧ List.filter is_critical tq = []
  ∧ List.filter is_engine_call tq = [].
Proof.
  intros Hq. by destruct (selectQuality_trace _ _ _ Hq) as [(-> & _)|(-> & _)].
Qed.

Lemma inspections_app (t1 t2 : list event) :
  inspections (t1 ++ t2) = inspections t1 ++ inspections t2.
Proof. apply omap_app. Qed.

(** X1.  A URL whose index cannot be read stops [download_video] at its
    first line: it raises [ValueError] with nothing done, no dialog, not
    even the warning for an invalid quality, and no call of the engine. *)
Theorem unreadable_index_stops_everything (video_url q save_path : str)
    (e : exception E) :
  extract_index_from_url (E:=E) video_url = Raise e →
  download_video video_url q save_path = ([], Raise ValueError).
Proof.
  intros Hindex. rewrite (download_video_index_fails _ _ _ _ Hindex).
  by rewrite (extract_index_from_url_raises _ _ Hindex).
Qed.

(** X2.  When the inspection fails, its failure is what [download_video]
    raises: after the inspection nothing more happens, no console line, no
    download request, no dialog. *)
Theorem failed_inspection_propagates (video_url q save_path : str)
    (index : option Z) (tq : list event) (q' : str) (e : E) :
  extract_index_from_url (E:=E) video_url = Ok index →
  selectQuality (E:=E) q = (tq, Normal q') →
  extract_info (ydl_opts q' save_path) video_url false = inl e →
  download_video video_url q save_path
  = ( tq ++ [ YoutubeDL_extract_info (ydl_opts q' save_path) video_url false ],
      Raise (CollaboratorError e) ).
Proof.
  intros Hindex Hq Hinfo.
  rewrite (download_video_steps _ _ _ _ _ _ _ _ Hindex Hq
             (planTarget_inspection_fails _ _ _ _ Hinfo)).
  by rewrite app_nil_r.
Qed.

(** X3.  The success dialog is shown exactly when a download was requested
    and the engine returned from it; it is then the last event of the run.
    A run that returns normally without it has shown the error dialog. *)
Theorem success_dialog_iff_download_returned (video_url q save_path : str) :
  (existsb is_success_box (download_video video_url q save_path).1 = true
   ↔ (download_video video_url q save_path).2 = Ok tt
     ∧ downloads (download_video video_url q save_path).1 ≠ [])
  ∧ (existsb is_success_box (download_video video_url q save_path).1 = true →
     last (download_video video_url q save_path).1 = Some success_box)
  ∧ ((download_video video_url q save_path).2 = Ok tt →
     existsb is_success_box (download_video video_url q save_path).1 = false →
     existsb is_critical (download_video video_url q save_path).1 = true).
Proof.
  pose proof (download_video_run_path video_url q save_path) as Hpath.
  destruct Hpath as [Hi|index tq q' e Hi Hq He|index tq q' info es entry Hi Hq
                    |index tq q' info es Hi Hq|index tq q' info Hi Hq];
    cbn [fst snd];
    try (destruct (selectQuality_trace _ _ _ Hq) as [(-> & _)|(-> & _)]);
    try match goal with
        | |- context [download ?o ?l] => destruct (download o l)
        end;
    cbn; (split; [split|split]); try done; try (by intros [? ?]).
Qed.

(** X4.  A run inspects at most once, always the URL as it was given and
    always without downloading, and requests at most one download, never
    before the inspection has returned. *)
Theorem one_inspection_then_one_download (video_url q save_path : str) :
  (inspections (download_video video_url q save_path).1 = []
   ∨ inspections (download_video video_url q save_path).1 = [(video_url, false)])
  ∧ (length (downloads (download_video video_url q save_path).1) ≤ 1)%nat
  ∧ (downloads (download_video video_url q save_path).1 ≠ [] →
     ∃ (q' : str) (info : info_dict),
       q' ∈ quality_options
       ∧ extract_info (ydl_opts q' save_path) video_url false = inr info
       ∧ inspections (download_video video_url q save_path).1
         = [(video_url, false)]).
Proof.
  pose proof (download_video_run_path video_url q save_path) as Hpath.
  destruct Hpath as [Hi|index tq q' e Hi Hq He|index tq q' info es entry Hi Hq Hinfo
                    |index tq q' info es Hi Hq Hinfo|index tq q' info Hi Hq Hinfo];
    cbn [fst snd]; [by split; [left|split; [cbn; lia|]]|..];
    destruct (selectQuality_observed _ _ _ Hq) as (Hd & Hins & _);
    assert (q' ∈ quality_options) as Hq'
      by (destruct (selectQuality_trace _ _ _ Hq) as [(_ & -> & ?)|(_ & -> & _)];
          [done | apply list_elem_of_here]);
    rewrite ?inspections_app, ?downloads_app, ?Hd, ?Hins.
  - split; [by right|]. split; [cbn; lia|done].
  - destruct (download (ydl_opts q' save_path) [url entry]);
      (split; [by right|]; split; [cbn; lia|]; intros _; by exists q', info).
  - split; [by right|]. split; [cbn; lia|done].
  - destruct (download (ydl_opts q' save_path) [video_url]);
      (split; [by right|]; split; [cbn; lia|]; intros _; by exists q', info).
Qed.

(** X5.  What a run asks the engine to download is the URL it was given or
    the URL of one item of the inspected collection, and nothing else. *)
Theorem download_targets (video_url q save_path : str) (url_list : list str) :
  url_list ∈ downloads (download_video video_url q save_path).1 →
  url_list = [video_url]
  ∨ ∃ (q' : str) (info : info_dict) (info_entries : list entry) (entry : entry),
      extract_info (ydl_opts q' save_path) video_url false = inr info
      ∧ entries info = Some info_entries
      ∧ entry ∈ info_entries
      ∧ url_list = [url entry].
Proof.
  pose proof (download_video_run_path video_url q save_path) as Hpath.
  destruct Hpath as [Hi|index tq q' e Hi Hq He
                    |index tq q' info es entry Hi Hq Hinfo Hes Hrange Hentry
                    |index tq q' info es Hi Hq Hinfo|index tq q' info Hi Hq Hinfo];
    cbn [fst snd]; [by intros ?%elem_of_nil|..];
    destruct (selectQuality_observed _ _ _ Hq) as (Hd & _);
    rewrite ?downloads_app, ?Hd.
  - by intros ?%elem_of_nil.
  - destruct (download (ydl_opts q' save_path) [url entry]); cbn;
      intros ->%list_elem_of_singleton; right;
      exists q', info, es, entry; (split; [done|]); (split; [done|]);
      (split; [|done]); by eapply list_elem_of_lookup_2.
  - by intros ?%elem_of_nil.
  - destruct (download (ydl_opts q' save_path) [video_url]); cbn;
      intros ->%list_elem_of_singleton; by left.
Qed.

(** X7.  The error dialog and a download request never meet in one run:
    a run that shows the error dialog requests nothing, shows no success
    dialog, and still returns normally. *)
Theorem error_dialog_excludes_download (video_url q save_path : str) :
  existsb is_critical (download_video video_url q save_path).1 = true →
  downloads (download_video video_url q save_path).1 = []
  ∧ existsb is_success_box (download_video video_url q save_path).1 = false
  ∧ (download_video video_url q save_path).2 = Ok tt.
Proof.
  pose proof (download_video_run_path video_url q save_path) as Hpath.
  destruct Hpath as [Hi|index tq q' c Hi Hq He
                    |index tq q' info es entry Hi Hq Hinfo Hes Hrange Hentry
                    |index tq q' info es Hi Hq Hinfo|index tq q' info Hi Hq Hinfo];
    cbn [fst snd]; [done|..];
    destruct (selectQuality_trace _ _ _ Hq) as [(-> & _)|(-> & _)];
    try done;
    match goal with
    | |- context [download ?o ?l] => by destruct (download o l)
    end.
Qed.

(** X8.  Once the index is read, the warning for an invalid quality comes
    first or not at all: a quality outside the enumeration opens the run
    with the warning, shown once; a quality of the enumeration gives a run
    without any warning. *)
Theorem quality_warning_first_or_never (video_url q save_path : str)
    (index : option Z) :
  extract_index_from_url (E:=E) video_url = Ok index →
  (q ∈ quality_options →
   List.filter is_warning (download_video video_url q save_path).1 = [])
  ∧ (q ∉ quality_options →
     head (download_video video_url q save_path).1 = Some invalid_choice_warning
     ∧ List.filter is_warning (download_video video_url q save_path).1
       = [invalid_choice_warning]).
Proof.
  intros Hindex.
  pose proof (download_video_run_path video_url q save_path) as Hpath.
  destruct Hpath as [Hi|index' tq q' c Hi Hq He
                    |index' tq q' info es entry Hi Hq Hinfo Hes Hrange Hentry
                    |index' tq q' info es Hi Hq Hinfo|index' tq q' info Hi Hq Hinfo];
    cbn [fst snd]; [congruence|..];
    (destruct (selectQuality_trace _ _ _ Hq) as [(-> & _ & Hv)|(-> & _ & Hv)];
     (split; intros Hq0; [|split]); try done);
    match goal with
    | |- context [download ?o ?l] => by destruct (download o l)
    | _ => idtac
    end.
Qed.

End RunExtras.

(** ** Further properties: [extract_index_from_url] *)

Section IndexExtras.

Import builtins urllib_parse yt_dlp Effects youtube_downloader Spec.
Import script Observations.

Context `{Runtime} {E : Type}.

(** X9.  [extract_index_from_url] returns or raises [ValueError]: the dict
    access of line 76 is covered by its [in] test and the list it indexes
    at 0 is never empty, so neither [KeyError] nor [IndexError] comes out. *)
Theorem extract_index_returns_or_ValueError (url : str) :
  (∃ index : option Z, extract_index_from_url (E:=E) url = Ok index)
  ∨ extract_index_from_url (E:=E) url = Raise ValueError.
Proof.
  destruct (extract_index_from_url (E:=E) url) as [index|e] eqn:Hindex.
  - left. by exists index.
  - right. by rewrite (extract_index_from_url_raises _ _ Hindex).
Qed.

Lemma drop_while_prefix (p : N → bool) (ws s : str) :
  Forall (λ c, p c = true) ws → drop_while p (ws ++ s) = drop_while p s.
Proof. induction 1 as [|c ws Hc _ IH]; [done|]. cbn. by rewrite Hc. Qed.

(** X10.  Control characters and spaces in front of the URL do not change
    the index read from it. *)
Theorem leading_blanks_are_ignored (blanks url : str) :
  Forall (λ c, c ≤ 32)%N blanks →
  extract_index_from_url (E:=E) (blanks ++ url)
  = extract_index_from_url (E:=E) url.
Proof.
  intros Hblanks. unfold extract_index_from_url, urlparse, urlsplit.
  rewrite drop_while_prefix; [done|].
  eapply Forall_impl; [exact Hblanks|]. intros c Hc.
  unfold _WHATWG_C0_CONTROL_OR_SPACE. by apply N.leb_le.
Qed.

(** The three removals of [urlsplit] as one filter. *)
Lemma remove_line_breaks (s : str) :
  remove 10 (remove 13 (remove 9 s))
  = List.filter (λ c, negb (is_line_break c)) s.
Proof.
  unfold remove. induction s as [|c s IH]; [done|].
  cbn [List.filter]. rewrite <- IH. unfold is_line_break.
  rewrite (filter_cons _ c s).
  destruct (decide (c ≠ 9%N)) as [H9|H9].
  - rewrite (proj2 (N.eqb_neq _ _) H9). rewrite (filter_cons _ c).
    destruct (decide (c ≠ 13%N)) as [H13|H13].
    + rewrite (proj2 (N.eqb_neq _ _) H13). rewrite (filter_cons _ c).
      destruct (decide (c ≠ 10%N)) as [H10|H10].
      * by rewrite (proj2 (N.eqb_neq _ _) H10).
      * apply dec_stable in H10 as ->. done.
    + apply dec_stable in H13 as ->. done.
  - apply dec_stable in H9 as ->. done.
Qed.

(** Stripping then filtering is filtering then stripping: what the filter
    removes the strip would drop too. *)
Lemma strip_filter_commute (s : str) :
  List.filter (λ c, negb (is_line_break c))
    (drop_while _WHATWG_C0_CONTROL_OR_SPACE s)
  = drop_while _WHATWG_C0_CONTROL_OR_SPACE
      (List.filter (λ c, negb (is_line_break c)) s).
Proof.
  induction s as [|c s IH]; [done|]. cbn [drop_while List.filter].
  destruct (_WHATWG_C0_CONTROL_OR_SPACE c) eqn:Hc.
  - rewrite IH. destruct (negb (is_line_break c)); [|done].
    cbn [drop_while]. by rewrite Hc.
  - assert (is_line_break c = false) as Hlb.
    { unfold _WHATWG_C0_CONTROL_OR_SPACE in Hc. apply N.leb_gt in Hc.
      unfold is_line_break.
      rewrite !(proj2 (N.eqb_neq _ _)); [done|lia..]. }
    cbn [List.filter]. rewrite Hlb. cbn [negb drop_while]. by rewrite Hc.
Qed.

(** X11.  A tab, a line feed or a carriage return anywhere in the URL does
    not change the index read from it. *)
Theorem line_breaks_are_ignored (before after : str) (c : N) :
  is_line_break c = true →
  extract_index_from_url (E:=E) (before ++ c :: after)
  = extract_index_from_url (E:=E) (before ++ after).
Proof.
  intros Hc. unfold extract_index_from_url, urlparse, urlsplit.
  rewrite !remove_line_breaks, !strip_filter_commute.
  rewrite !List.filter_app. cbn [List.filter]. by rewrite Hc.
Qed.

(** X12.  A field of the query with no value, [name=] or a bare [name],
    [index] included, gives nothing to [parse_qs]: the index is read from
    the other fields as if the field were not there. *)
Theorem blank_field_is_skipped (url : str) (r : ParseResult)
    (before after : list str) (field : str) :
  urlparse (E:=E) url = Ok r →
  split ampersand (query r) = before ++ field :: after →
  contains equals field = false
  ∨ (∃ name, field = name ++ [equals] ∧ contains equals name = false) →
  extract_index_from_url (E:=E) url
  = match values_of (py "index") (omap parse_qsl_field (before ++ after)) with
    | [] => Ok None
    | value :: _ => bind (int value) (λ n, Ok (Some n))
    end.
Proof.
  intros Hurl Hsplit Hfield.
  rewrite extract_index_from_url_first, Hurl. cbn [bind].
  unfold query_values. rewrite parse_qsl_split, Hsplit.
  assert (parse_qsl_field field = None) as Hnone.
  { unfold parse_qsl_field. destruct field as [|c field]; [done|].
    destruct Hfield as [Hno|(name & -> & Hno)].
    - by rewrite partition_absent.
    - rewrite partition_app, (partition_absent _ _ Hno). cbn.
      by destruct (name ++ [equals]). }
  rewrite !omap_app. cbn [omap list_omap]. by rewrite Hnone.
Qed.

(** *** An index behind the fragment marker *)

Lemma contains_filter (c : N) (p : N → bool) (s : str) :
  contains c s = false → contains c (List.filter p s) = false.
Proof.
  unfold contains. induction s as [|x s IH]; [done|]. cbn.
  intros [Hx Hs]%orb_false_elim. destruct (p x); [|auto]. cbn.
  by rewrite Hx, IH.
Qed.

Lemma split_scheme_fragment (base rest : str) :
  contains question base = false →
  ∃ base', (split_scheme (base ++ hash :: rest)).2 = base' ++ hash :: rest
           ∧ contains question base' = false.
Proof.
  intros Hq. unfold split_scheme. rewrite partition_app.
  destruct (partition colon base) as [[[|c before] after]|] eqn:Hbase.
  - by exists base.
  - destruct (_ && _); [|by exists base]. exists after. split; [done|].
    by destruct (contains_partition question _ _ _ _ Hbase Hq).
  - cbn [partition]. change (hash =? colon)%N with false.
    destruct (partition colon rest) as [[x y]|]; [|by exists base].
    destruct base as [|c base]; cbn [app]; [by exists []|].
    assert (forallb scheme_chars (c :: base ++ hash :: x) = false) as ->;
      [|rewrite andb_false_r; by exists (c :: base)].
    change (c :: base ++ hash :: x) with ((c :: base) ++ hash :: x).
    rewrite forallb_app. cbn. by rewrite andb_false_r.
Qed.

Lemma split_authority_fragment (base rest : str) :
  Forall (λ c, plain_char c = true) (base ++ hash :: rest) →
  contains question base = false →
  ∃ netloc base',
    split_authority (E:=E) (base ++ hash :: rest)
    = Ok (netloc, base' ++ hash :: rest)
    ∧ Forall (λ c, plain_char c = true) netloc
    ∧ contains question base' = false.
Proof.
  intros Hplain Hq.
  destruct (split_authority_plain (E:=E) _ Hplain)
    as (netloc & rest' & Hsplit & Hn).
  exists netloc. rewrite Hsplit.
  destruct (split_authority_rest _ _ _ Hsplit) as [->|[Hslashes ->]];
    [by exists base|].
  destruct base as [|c1 [|c2 base]]; [done..|].
  cbn [app skipn]. rewrite drop_0, drop_while_app by done.
  exists (drop_while (λ c, negb (is_netloc_delimiter c)) base).
  split; [done|]. split; [done|]. apply contains_drop_while.
  unfold contains in Hq. cbn [existsb] in Hq.
  by apply orb_false_elim in Hq as [_ [_ Hq]%orb_false_elim].
Qed.

(** X13.  What follows a ['#'] is the fragment, not the query: on a plain
    URL with no ['?'] before its ['#'], no index is read, whatever the
    fragment holds, an [index=3] or a ['?'] included. *)
Theorem index_in_fragment_is_not_read (base rest : str) :
  Forall (λ c, plain_char c = true) (base ++ hash :: rest) →
  contains question base = false →
  extract_index_from_url (E:=E) (base ++ hash :: rest) = Ok None.
Proof.
  intros Hplain Hq.
  rewrite extract_index_from_url_first. unfold urlparse, urlsplit.
  rewrite remove_line_breaks, strip_filter_commute.
  rewrite List.filter_app. cbn [List.filter].
  change (negb (is_line_break hash)) with true. cbn iota.
  rewrite drop_while_app by done.
  set (base0 := drop_while _ (List.filter _ base)).
  set (rest0 := List.filter _ rest).
  assert (contains question base0 = false) as Hq0.
  { by apply contains_drop_while, contains_filter. }
  assert (Forall (λ c, plain_char c = true) (base0 ++ hash :: rest0)) as Hplain0.
  { apply Forall_app in Hplain as [Hb Hr]. apply Forall_cons in Hr as [Hh Hr].
    apply Forall_app. split.
    - apply Forall_drop_while. rewrite Forall_forall in Hb |- *.
      intros x Hx%list_elem_of_In%filter_In. apply Hb, list_elem_of_In. tauto.
    - constructor; [done|]. rewrite Forall_forall in Hr |- *.
      intros x Hx%list_elem_of_In%filter_In. apply Hr, list_elem_of_In. tauto. }
  destruct (split_scheme_fragment base0 rest0 Hq0) as (base1 & Hbase1 & Hq1).
  assert (Forall (λ c, plain_char c = true)
            (split_scheme (base0 ++ hash :: rest0)).2) as Hplain1
    by by apply split_scheme_plain.
  destruct (split_scheme _) as [scheme url1]. cbn [snd] in *. subst url1.
  destruct (split_authority_fragment base1 rest0 Hplain1 Hq1)
    as (netloc & base2 & -> & Hn & Hq2).
  cbn [bind]. rewrite (_checknetloc_plain (E:=E) _ Hn).
  rewrite partition_app.
  destruct (partition hash base2) as [[b f]|] eqn:Hb2.
  - destruct (contains_partition question _ _ _ _ Hb2 Hq2) as [Hb _].
    rewrite (partition_absent question b Hb). cbn [bind].
    destruct (_ && _); [destruct (_splitparams _)|]; done.
  - cbn [partition]. change (hash =? hash)%N with true. cbn iota.
    rewrite app_nil_r, (partition_absent question base2 Hq2). cbn [bind].
    destruct (_ && _); [destruct (_splitparams _)|]; done.
Qed.

(** X14.  On a URL of ASCII characters without square brackets, the one
    way to fail is an index value that [int] rejects. *)
Theorem plain_url_fails_on_the_index_only (url : str) (e : exception E) :
  Forall (λ c, plain_char c = true) url →
  extract_index_from_url (E:=E) url = Raise e →
  ∃ (r : ParseResult) (value : str) (values : list str),
    urlparse (E:=E) url = Ok r
    ∧ query_values (py "index") (query r) = value :: values
    ∧ int (E:=E) value = Raise ValueError.
Proof.
  intros Hplain. rewrite extract_index_from_url_first.
  destruct (urlparse_plain (E:=E) url Hplain) as (r & ->). cbn [bind].
  destruct (query_values (py "index") (query r)) as [|value values] eqn:Hv;
    [done|].
  destruct (int value) as [z|e'] eqn:Hint; [done|]. intros _.
  exists r, value, values. split; [done|]. split; [done|].
  rewrite Hint. f_equal. by eapply int_raises_ValueError.
Qed.

End IndexExtras.

(** ** Further properties: the progress hook *)

Section HookExtras.

Import builtins yt_dlp Effects youtube_downloader Spec.
Import script Observations.

Context {E : Type}.

(** X15.  For an event whose status is anything but ["downloading"] the
    hook prints nothing and returns, whatever else the dict holds or
    lacks: the two texts are looked up only for a downloading event. *)
Theorem progress_hook_silent_unless_downloading (d : gmap str value)
    (status : value) :
  d !! py "status" = Some status →
  equals_str status (py "downloading") = false →
  progress_hook (E:=E) d = ([], Ok tt).
Proof.
  intros Hstatus Hother. unfold progress_hook, dict_getitem.
  rewrite Hstatus. destruct status as [s|shown]; cbn in *; [|done].
  by rewrite Hother.
Qed.

(** X16.  The hook prints at most one line, and only for a downloading
    event that carries both texts: then it prints the progress line made
    of them and returns. *)
Theorem progress_hook_prints_at_most_one_line (d : gmap str value) :
  (progress_hook (E:=E) d).1 = []
  ∨ ∃ percent speed : value,
      d !! py "status" = Some (Str (py "downloading"))
      ∧ d !! py "_percent_str" = Some percent
      ∧ d !! py "_speed_str" = Some speed
      ∧ progress_hook (E:=E) d
        = ([console_print (progress_line percent speed)], Ok tt).
Proof.
  unfold progress_hook, dict_getitem, equals_str.
  destruct (d !! py "status") as [[s|shown]|] eqn:Hstatus;
    destruct (d !! py "_percent_str") as [percent|] eqn:Hp;
    destruct (d !! py "_speed_str") as [speed|] eqn:Hsp;
    cbn -[py bool_decide];
    try destruct (bool_decide (s = py "downloading")) eqn:Hs;
    try (apply bool_decide_eq_true in Hs; subst s);
    try (by left).
  right. by exists percent, speed.
Qed.


End HookExtras.

(** ** Further properties: the script *)

Section ScriptExtras.

Import builtins urllib_parse yt_dlp Effects youtube_downloader Spec.
Import script Observations.

Context `{Runtime} `{Desktop} {E : Type} `{YoutubeDL E}.

Lemma planner_events_after_prompts (evs : list event)
    (t1 m1 d1 t2 m2 d2 : str) :
  planner_events
    ([InputDialog_shown t1 m1 d1] ++ [InputDialog_shown t2 m2 d2]
     ++ map planner evs) = evs
  ∧ prompts
      ([InputDialog_shown t1 m1 d1] ++ [InputDialog_shown t2 m2 d2]
       ++ map planner evs) = [d1; d2].
Proof.
  unfold planner_events, prompts. cbn [app omap list_omap].
  split; [|do 2 f_equal]; induction evs as [|ev evs IH]; cbn; congruence.
Qed.

(** X18.  Dismissing the URL prompt ends the script through [sys.exit()]:
    the prompt is all that happened, no quality prompt, no dialog and no
    call of the engine. *)
Theorem dismissed_url_prompt_exits :
  (InputDialog_exec (py "YouTube Downloader")
     (py "Enter the YouTube video URL:") []).1 = false →
  main (E:=E)
  = ( [ InputDialog_shown (py "YouTube Downloader")
          (py "Enter the YouTube video URL:") [] ],
      Exited ).
Proof.
  intros Hdismissed. unfold main, get_video_url.
  destruct (InputDialog_exec _ _ []) as [accepted text].
  cbn in Hdismissed. by subst accepted.
Qed.

(** X19.  Dismissing the quality prompt is choosing ["2160"]: the run is
    the one of [download_video] on the URL entered, at quality ["2160"],
    saving to ["."], and it shows no warning about the quality. *)
Theorem dismissed_quality_prompt_is_2160 (video_url : str) :
  InputDialog_exec (py "YouTube Downloader")
    (py "Enter the YouTube video URL:") [] = (true, video_url) →
  (InputDialog_exec (py "Select Quality")
     (py "Choose a video quality (2160, 1440, 1080, 720, 480):")
     (py "2160")).1 = false →
  planner_events (main (E:=E)).1
  = (download_video video_url (py "2160") (py ".")).1
  ∧ prompts (main (E:=E)).1 = [[]; py "2160"]
  ∧ List.filter is_warning (planner_events (main (E:=E)).1) = [].
Proof.
  intros Hurl Hdismissed. unfold main, get_video_url, get_video_quality.
  rewrite Hurl.
  destruct (InputDialog_exec (py "Select Quality") _ _) as [accepted text].
  cbn in Hdismissed. subst accepted.
  destruct (download_video video_url (py "2160") (py ".")) as [t r] eqn:Hrun.
  cbn [fst].
  destruct (planner_events_after_prompts t (py "YouTube Downloader")
              (py "Enter the YouTube video URL:") []
              (py "Select Quality")
              (py "Choose a video quality (2160, 1440, 1080, 720, 480):")
              (py "2160")) as [-> ->].
  split; [done|]. split; [done|].
  pose proof (download_video_run_path video_url (py "2160") (py ".")) as Hpath.
  rewrite Hrun in Hpath.
  assert (∀ tq q', selectQuality (E:=E) (py "2160") = (tq, Normal q') → tq = [])
    as Hvalid.
  { intros tq q'. rewrite selectQuality_valid by apply list_elem_of_here.
    by intros [= <- _]. }
  inversion Hpath as [Hi|index tq q' e Hi Hq He
                     |index tq q' info es entry Hi Hq Hinfo Hes Hrange Hentry
                     |index tq q' info es Hi Hq Hinfo
                     |index tq q' info Hi Hq Hinfo]; subst;
    [done|..]; rewrite (Hvalid _ _ Hq); try done;
    match goal with
    | |- context [download ?o ?l] => by destruct (download o l)
    end.
Qed.

(** X20.  Whatever is typed, every call the script makes to the engine
    runs in single-item mode, writes to [./%(title)s.%(ext)s], and selects
    its format for one of the five tiers. *)
Theorem script_engine_options (ev : event) (o : options) :
  ev ∈ planner_events (main (E:=E)).1 →
  engine_options ev = Some o →
  noplaylist o = true
  ∧ outtmpl o = py "./%(title)s.%(ext)s"
  ∧ ∃ q', q' ∈ quality_options ∧ format o = buildFormatExpression q'.
Proof.
  unfold main, get_video_url, get_video_quality.
  destruct (InputDialog_exec _ _ []) as [[|] video_url].
  2: { cbn. by intros ?%elem_of_nil. }
  destruct (InputDialog_exec (py "Select Quality") _ _) as [accepted text].
  set (q := if accepted then text else py "2160").
  destruct (download_video video_url q (py ".")) as [t r] eqn:Hrun.
  cbn [fst].
  destruct (planner_events_after_prompts t (py "YouTube Downloader")
              (py "Enter the YouTube video URL:") []
              (py "Select Quality")
              (py "Choose a video quality (2160, 1440, 1080, 720, 480):")
              (py "2160")) as [-> _].
  intros Hev Ho.
  assert (∃ q', q' ∈ quality_options ∧ o = ydl_opts q' (py ".")) as (q' & Hq' & ->);
    [|split; [done|]; split; [done|]; by exists q'].
  pose proof (download_video_run_path video_url q (py ".")) as Hpath.
  rewrite Hrun in Hpath.
  assert (∀ tq q', selectQuality (E:=E) q = (tq, Normal q') →
            q' ∈ quality_options
            ∧ (tq = [] ∨ tq = [invalid_choice_warning])) as Hsel.
  { intros tq q' Hq.
    destruct (selectQuality_trace _ _ _ Hq) as [(-> & -> & ?)|(-> & -> & _)];
      (split; [|by auto]); [done | apply list_elem_of_here]. }
  inversion Hpath as [Hi|index tq q' e Hi Hq He
                     |index tq q' info es entry Hi Hq Hinfo Hes Hrange Hentry
                     |index tq q' info es Hi Hq Hinfo
                     |index tq q' info Hi Hq Hinfo]; subst;
    [by apply elem_of_nil in Hev|..];
    destruct (Hsel _ _ Hq) as [Hq' [-> | ->]];
    exists q'; (split; [done|]);
    try match type of Hev with
        | context [download ?o' ?l] => destruct (download o' l)
        end;
    cbn in Hev; rewrite ?elem_of_cons in Hev;
    repeat match type of Hev with
           | _ ∨ _ => destruct Hev as [->|Hev]
           | _ ∈ [] => by apply elem_of_nil in Hev
           | _ = _ => subst ev
           end;
    cbn [engine_options] in Ho;
    first [discriminate | by injection Ho as <-].
Qed.

(** X21.  How the script dies of the two failures the planner lets
    through, the URL prompt being confirmed.  A URL whose index cannot be
    read: an uncaught [ValueError] right after the two prompts, whatever
    is answered to the second, with no dialog, no console line and no call
    of the engine.  An inspection that fails: the engine's failure reaches
    the top, the inspection being the last thing done. *)
Theorem script_uncaught_exceptions (video_url : str) :
  InputDialog_exec (py "YouTube Downloader")
    (py "Enter the YouTube video URL:") [] = (true, video_url) →
  (∀ e : exception E,
     extract_index_from_url (E:=E) video_url = Raise e →
     (main (E:=E)).2 = Uncaught ValueError
     ∧ prompts (main (E:=E)).1 = [[]; py "2160"]
     ∧ planner_events (main (E:=E)).1 = [])
  ∧ (∀ (index : option Z) (tq : list event) (q' : str) (c : E),
       extract_index_from_url (E:=E) video_url = Ok index →
       selectQuality (E:=E) get_video_quality.2 = (tq, Normal q') →
       extract_info (ydl_opts q' (py ".")) video_url false = inl c →
       (main (E:=E)).2 = Uncaught (CollaboratorError c)
       ∧ planner_events (main (E:=E)).1
         = tq ++ [ YoutubeDL_extract_info (ydl_opts q' (py "."))
                     video_url false ]).
Proof.
  intros Hurl. unfold main, get_video_url, get_video_quality.
  rewrite Hurl.
  destruct (InputDialog_exec (py "Select Quality") _ _) as [accepted text].
  set (q := if accepted then text else py "2160"). cbn [snd].
  split.
  - intros e Hindex.
    pose proof (download_video_run_path video_url q (py ".")) as Hpath.
    destruct (download_video video_url q (py ".")) as [t r] eqn:Hrun.
    cbn [fst snd].
    destruct (planner_events_after_prompts t (py "YouTube Downloader")
                (py "Enter the YouTube video URL:") []
                (py "Select Quality")
                (py "Choose a video quality (2160, 1440, 1080, 720, 480):")
                (py "2160")) as [-> ->].
    inversion Hpath; subst; by try congruence.
  - intros index tq q' c Hindex Hq Hinfo.
    pose proof (download_video_run_path video_url q (py ".")) as Hpath.
    destruct (download_video video_url q (py ".")) as [t r] eqn:Hrun.
    cbn [fst snd].
    destruct (planner_events_after_prompts t (py "YouTube Downloader")
                (py "Enter the YouTube video URL:") []
                (py "Select Quality")
                (py "Choose a video quality (2160, 1440, 1080, 720, 480):")
                (py "2160")) as [-> _].
    inversion Hpath as [Hi|index1 tq1 q1 e1 Hi Hq1 He1
                       |index1 tq1 q1 info es entry Hi Hq1 Hinfo1
                       |index1 tq1 q1 info es Hi Hq1 Hinfo1
                       |index1 tq1 q1 info Hi Hq1 Hinfo1]; subst;
      try congruence;
      rewrite Hq in Hq1; injection Hq1 as <- <-; try congruence.
    rewrite Hinfo in He1. by injection He1 as <-.
Qed.

End ScriptExtras.

(** ** The further properties on sample runs *)

Section ExtraWitnesses.

Import builtins urllib_parse yt_dlp Effects youtube_downloader Spec Samples.
Import script Observations.

(** A quality outside the enumeration and an unreadable index: no warning. *)
Lemma unreadable_index_stops_everything_witness :
  @download_video runtime unit (collection_engine 5)
    (playlist_url "abc") (py "9999") (py ".")
  = ([], Raise ValueError).
Proof.
  apply (@unreadable_index_stops_everything runtime unit (collection_engine 5)
           (playlist_url "abc") (py "9999") (py ".") ValueError).
  by vm_compute.
Defined.

Lemma failed_inspection_propagates_witness :
  @download_video runtime unit offline_engine short_url (py "720") (py ".")
  = ( [ YoutubeDL_extract_info (ydl_opts (py "720") (py ".")) short_url false ],
      Raise (CollaboratorError tt) ).
Proof.
  apply (@failed_inspection_propagates runtime unit offline_engine
           short_url (py "720") (py ".") None [] (py "720") tt);
    by vm_compute.
Defined.

Lemma download_targets_witness :
  [url (item 3)] = [playlist_url "3"]
  ∨ ∃ (q' : str) (info : info_dict) (info_entries : list entry) (entry : entry),
      @extract_info unit (collection_engine 5) (ydl_opts q' (py "."))
        (playlist_url "3") false = inr info
      ∧ entries info = Some info_entries
      ∧ entry ∈ info_entries
      ∧ [url (item 3)] = [url entry].
Proof.
  apply (@download_targets runtime unit (collection_engine 5)
           (playlist_url "3") (py "1080") (py ".") [url (item 3)]).
  assert (downloads (@download_video runtime unit (collection_engine 5)
                       (playlist_url "3") (py "1080") (py ".")).1
          = [[url (item 3)]]) as -> by by vm_compute.
  apply list_elem_of_here.
Defined.

Lemma error_dialog_excludes_download_witness :
  downloads (@download_video runtime unit (collection_engine 10)
               (playlist_url "50") (py "1080") (py ".")).1 = []
  ∧ existsb is_success_box
      (@download_video runtime unit (collection_engine 10)
         (playlist_url "50") (py "1080") (py ".")).1 = false
  ∧ (@download_video runtime unit (collection_engine 10)
       (playlist_url "50") (py "1080") (py ".")).2 = Ok tt.
Proof.
  apply (@error_dialog_excludes_download runtime unit (collection_engine 10)
           (playlist_url "50") (py "1080") (py ".")).
  by vm_compute.
Defined.

Lemma quality_warning_first_or_never_witness :
  List.filter is_warning
    (@download_video runtime unit single_item_engine
       short_url (py "720") (py ".")).1 = []
  ∧ head (@download_video runtime unit single_item_engine
            short_url (py "4k") (py ".")).1 = Some invalid_choice_warning
  ∧ List.filter is_warning
      (@download_video runtime unit single_item_engine
         short_url (py "4k") (py ".")).1 = [invalid_choice_warning].
Proof.
  split.
  - refine (proj1 (@quality_warning_first_or_never runtime unit
                     single_item_engine short_url (py "720") (py ".") None _) _).
    + by vm_compute.
    + apply (bool_decide_unpack _). by vm_compute.
  - refine (proj2 (@quality_warning_first_or_never runtime unit
                     single_item_engine short_url (py "4k") (py ".") None _) _).
    + by vm_compute.
    + intros Hin. apply (bool_decide_pack _) in Hin. by vm_compute in Hin.
Defined.

(** A tab and a space in front of the URL. *)
Lemma leading_blanks_are_ignored_witness :
  @extract_index_from_url runtime unit ([9; 32]%N ++ playlist_url "3")
  = Ok (Some 3).
Proof.
  refine (eq_trans (@leading_blanks_are_ignored runtime unit
                      [9; 32]%N (playlist_url "3") _) _).
  - repeat (constructor; [lia|]). constructor.
  - by vm_compute.
Defined.

Lemma line_breaks_are_ignored_witness :
  @extract_index_from_url runtime unit
    (py "https://youtube.com/playlist?list=xyz&ind" ++ 10%N :: py "ex=3")
  = Ok (Some 3).
Proof.
  refine (eq_trans (@line_breaks_are_ignored runtime unit
                      (py "https://youtube.com/playlist?list=xyz&ind")
                      (py "ex=3") 10%N _) _);
    by vm_compute.
Defined.

Lemma blank_field_is_skipped_witness :
  @extract_index_from_url runtime unit
    (py "https://youtube.com/playlist?index=&index=4")
  = Ok (Some 4).
Proof.
  refine (eq_trans (@blank_field_is_skipped runtime unit
                      (py "https://youtube.com/playlist?index=&index=4")
                      _ [] [py "index=4"] (py "index=") _ _ _) _).
  - by vm_compute.
  - by vm_compute.
  - right. exists (py "index"). by vm_compute.
  - by vm_compute.
Defined.

Lemma index_in_fragment_is_not_read_witness :
  @extract_index_from_url runtime unit
    (py "https://youtube.com/watch" ++ hash :: py "?index=3")
  = Ok None.
Proof.
  apply (@index_in_fragment_is_not_read runtime unit
           (py "https://youtube.com/watch") (py "?index=3")).
  - vm_compute. repeat constructor.
  - by vm_compute.
Defined.

Lemma plain_url_fails_on_the_index_only_witness :
  ∃ (r : ParseResult) (value : str) (values : list str),
    @urlparse runtime unit (playlist_url "abc") = Ok r
    ∧ query_values (py "index") (query r) = value :: values
    ∧ @int runtime unit value = Raise ValueError.
Proof.
  apply (@plain_url_fails_on_the_index_only runtime unit
           (playlist_url "abc") ValueError).
  - vm_compute. repeat constructor.
  - by vm_compute.
Defined.

(** A first [index=7] behind another field. *)
Lemma extract_index_of_plain_url_witness :
  @extract_index_from_url runtime unit
    (py "https://youtube.com/playlist" ++ question :: py "list=xyz&index=7")
  = Ok (Some 7).
Proof.
  apply (@extract_index_of_plain_url runtime unit
           (py "https://youtube.com/playlist") (py "list=xyz&index=7")
           [py "list=xyz"] [] 7).
  - vm_compute. repeat constructor.
  - by vm_compute.
  - by vm_compute.
  - vm_compute. repeat constructor; lia.
  - by vm_compute.
  - by vm_compute.
  - repeat constructor.
  - by vm_compute.
Defined.

(** An event of a finished download, with nothing but its status. *)
Lemma progress_hook_silent_unless_downloading_witness :
  @progress_hook unit {[ py "status" := Str (py "finished") ]} = ([], Ok tt).
Proof.
  apply (@progress_hook_silent_unless_downloading unit
           {[ py "status" := Str (py "finished") ]} (Str (py "finished"))).
  - apply lookup_singleton_eq.
  - by vm_compute.
Defined.


Lemma dismissed_url_prompt_exits_witness :
  @main runtime (person None None) unit single_item_engine
  = ( [ InputDialog_shown (py "YouTube Downloader")
          (py "Enter the YouTube video URL:") [] ],
      Exited ).
Proof.
  apply (@dismissed_url_prompt_exits runtime (person None None) unit
           single_item_engine).
  by vm_compute.
Defined.

Lemma dismissed_quality_prompt_is_2160_witness :
  planner_events
    (@main runtime (person (Some short_url) None) unit single_item_engine).1
  = (@download_video runtime unit single_item_engine
       short_url (py "2160") (py ".")).1
  ∧ prompts
      (@main runtime (person (Some short_url) None) unit single_item_engine).1
    = [[]; py "2160"]
  ∧ List.filter is_warning
      (planner_events
         (@main runtime (person (Some short_url) None) unit
            single_item_engine).1)
    = [].
Proof.
  apply (@dismissed_quality_prompt_is_2160 runtime
           (person (Some short_url) None) unit single_item_engine short_url);
    by vm_compute.
Defined.

Lemma script_engine_options_witness :
  noplaylist (ydl_opts (py "2160") (py ".")) = true
  ∧ outtmpl (ydl_opts (py "2160") (py ".")) = py "./%(title)s.%(ext)s"
  ∧ ∃ q', q' ∈ quality_options
          ∧ format (ydl_opts (py "2160") (py ".")) = buildFormatExpression q'.
Proof.
  apply (@script_engine_options runtime
           (person (Some short_url) (Some (py "4k"))) unit single_item_engine
           (YoutubeDL_download (ydl_opts (py "2160") (py ".")) [short_url])
           (ydl_opts (py "2160") (py "."))).
  - assert (planner_events
              (@main runtime (person (Some short_url) (Some (py "4k"))) unit
                 single_item_engine).1
            = [ invalid_choice_warning;
                YoutubeDL_extract_info (ydl_opts (py "2160") (py "."))
                  short_url false;
                console_print single_video_detected;
                YoutubeDL_download (ydl_opts (py "2160") (py ".")) [short_url];
                success_box ]) as -> by by vm_compute.
    do 3 apply list_elem_of_further. apply list_elem_of_here.
  - done.
Defined.

(** A confirmed URL with the index [abc]; and a readable one with the
    engine off line. *)
Lemma script_uncaught_exceptions_witness :
  ((@main runtime (person (Some (playlist_url "abc")) (Some (py "720")))
      unit single_item_engine).2 = Uncaught ValueError
   ∧ prompts
       (@main runtime (person (Some (playlist_url "abc")) (Some (py "720")))
          unit single_item_engine).1
     = [[]; py "2160"]
   ∧ planner_events
       (@main runtime (person (Some (playlist_url "abc")) (Some (py "720")))
          unit single_item_engine).1
     = [])
  ∧ ((@main runtime (person (Some short_url) (Some (py "720")))
        unit offline_engine).2 = Uncaught (CollaboratorError tt)
     ∧ planner_events
         (@main runtime (person (Some short_url) (Some (py "720")))
            unit offline_engine).1
       = [ YoutubeDL_extract_info (ydl_opts (py "720") (py "."))
             short_url false ]).
Proof.
  split.
  - refine (proj1 (@script_uncaught_exceptions runtime
                     (person (Some (playlist_url "abc")) (Some (py "720")))
                     unit single_item_engine (playlist_url "abc") _)
              ValueError _); by vm_compute.
  - refine (proj2 (@script_uncaught_exceptions runtime
                     (person (Some short_url) (Some (py "720")))
                     unit offline_engine short_url _)
              None [] (py "720") tt _ _ _); by vm_compute.
Defined.

End ExtraWitnesses.
